(** * PyMeasure display widgets and instrument bindings

    A shallow embedding of
    - [pymeasure/display/curves.py] ([ResultsCurve], [ResultsImage],
      [Results3DImage], [BufferCurve]),
    - the axis handling of [pymeasure/display/widgets/plot_frame.py],
    - the property tables of [pymeasure/instruments/aimtti/TF930.py] and
      [pymeasure/instruments/keithley/keithley6482.py],
    together with the properties the specification states about them.

    Numbers: the coordinates, axis parameters and column values are Python
    and numpy floats in the source.  A float is embedded as the rational
    ([Q]) it stands for.  The comparisons, [abs], [x % 1] and [int(x)] the
    source applies to floats are exact.  A subtraction or a division
    returns the exact result rounded to a float: the rounding is a
    parameter of the embedding ([Float64]), applied wherever the source
    subtracts or divides.  (An overflow to an infinity is not modelled.)
    The numpy values that are not numbers (the result of a division by
    zero) are kept apart in [npfloat]; a column of the snapshot holds
    numbers only. *)

From Stdlib Require Import QArith Qround Qminmax Qabs ZArith Lia Lqa String.
From stdpp Require Import base list strings.

Open Scope string_scope.
Open Scope Z_scope.

(** ** Python exceptions and results *)

Inductive exn : Type :=
| KeyError (key : string)
| AttributeError (name : string)
| IndexError
| ValueError
| TypeError
| ZeroDivisionError
| Exception (msg : string).

Inductive result (A : Type) : Type :=
| Ok (a : A)
| Raise (e : exn).
Arguments Ok {A} a.
Arguments Raise {A} e.

Definition is_ok {A} (r : result A) : bool :=
  match r with Ok _ => true | Raise _ => false end.

Definition rbind {A B} (r : result A) (k : A -> result B) : result B :=
  match r with
  | Ok a => k a
  | Raise e => Raise e
  end.

Notation "'let*' x ':=' r 'in' k" := (rbind r (fun x => k))
  (at level 10, x name, r at level 100, k at level 200, only parsing).
Notation "'let*' ' p ':=' r 'in' k" :=
  (rbind r (fun x => match x with p => k end))
  (at level 10, p pattern, r at level 100, k at level 200, only parsing).

(** ** Python float operations *)

(** The rounding of the exact result of an arithmetic operation to the
    float the operation returns.  Of the rounding only this much is fixed:
    it keeps the order (rounding to nearest does) and it keeps zero. *)
Class Float64 : Type := {
  float_round : Q -> Q;
  float_round_le :
    forall a b : Q, (a <= b)%Q -> (float_round a <= float_round b)%Q;
  float_round_zero : (float_round 0 == 0)%Q
}.

(** The arithmetic without rounding error. *)
Definition no_rounding : Float64 := {|
  float_round := fun q => q;
  float_round_le := fun _ _ H => H;
  float_round_zero := Qeq_refl 0
|}.

(** [a - b] *)
Definition py_sub `{Float64} (a b : Q) : Q := float_round (a - b)%Q.

(** [x % 1]: Python's modulo takes the sign of the divisor, so the result
    lies in [0, 1). *)
Definition py_mod1 (x : Q) : Q := (x - inject_Z (Qfloor x))%Q.

(** [int(x)]: truncation towards zero. *)
Definition py_int (x : Q) : Z :=
  if Qle_bool 0 x then Qfloor x else Qceiling x.

(** [a / b], raising on a zero divisor.  (With numpy operands the quotient
    is inf or nan instead and the failure surfaces in the following
    [int()]; either way the call raises.) *)
Definition py_div `{Float64} (a b : Q) : result Q :=
  if Qeq_bool b 0 then Raise ZeroDivisionError
  else Ok (float_round (a / b)%Q).

(** [start <= v <= end] *)
Definition between (lo v hi : Q) : bool := Qle_bool lo v && Qle_bool v hi.

(** [round_up] of [ResultsImage] and [Results3DImage] (the two bodies are
    the same text). *)
Definition round_up (x : Q) : Z :=
  if Qle_bool (1 # 2) (py_mod1 x) then py_int x + 1 else py_int x.

(** ** numpy values *)

(** A numpy float64: a number, an infinity or nan. *)
Inductive npfloat : Type :=
| Fin (q : Q)
| PInf
| NInf
| NaN.

(** numpy's float division: no exception on a zero divisor. *)
Definition np_div `{Float64} (a b : Q) : npfloat :=
  if Qeq_bool b 0 then
    (if Qeq_bool a 0 then NaN else if Qle_bool 0 a then PInf else NInf)
  else Fin (float_round (a / b)%Q).

(** An index [i] into an axis of length [n]: negative indices count from
    the end, anything else out of range raises. *)
Definition np_index (n : nat) (i : Z) : result nat :=
  if (0 <=? i) && (i <? Z.of_nat n) then Ok (Z.to_nat i)
  else if (- Z.of_nat n <=? i) && (i <? 0) then Ok (Z.to_nat (Z.of_nat n + i))
  else Raise IndexError.

Definition prod_dims (shape : list nat) : nat := foldr Nat.mul 1%nat shape.

(** Row-major offset of a full index into an array of the given shape. *)
Fixpoint np_offset (shape : list nat) (idx : list Z) : result nat :=
  match shape, idx with
  | [], [] => Ok 0%nat
  | n :: shape', i :: idx' =>
      let* k := np_index n i in
      let* rest := np_offset shape' idx' in
      Ok (k * prod_dims shape' + rest)%nat
  | _, _ => Raise IndexError
  end.

(** An array of cells with its shape, stored row-major as numpy does. *)
Record ndarray (A : Type) : Type := mk_ndarray {
  shape : list nat;
  cells : list A
}.
Arguments mk_ndarray {A} shape cells.
Arguments shape {A} _.
Arguments cells {A} _.

(** [np.zeros(dims)]: raises on a negative dimension. *)
Definition np_zeros {A} (zero : A) (dims : list Z) : result (ndarray A) :=
  if forallb (fun d => 0 <=? d) dims then
    let sh := map Z.to_nat dims in
    Ok (mk_ndarray sh (replicate (prod_dims sh) zero))
  else Raise ValueError.

(** [a[idx] = v] *)
Definition np_setitem {A} (a : ndarray A) (idx : list Z) (v : A)
  : result (ndarray A) :=
  let* off := np_offset (shape a) idx in
  Ok (mk_ndarray (shape a) (<[off := v]> (cells a))).

(** [a[idx]] *)
Definition np_getitem {A} (a : ndarray A) (idx : list Z) : result A :=
  let* off := np_offset (shape a) idx in
  match cells a !! off with
  | Some v => Ok v
  | None => Raise IndexError
  end.

(** [np.transpose(a, axes=(1, 0, 2))] of an array of pixels (the last
    axis is the pixel): rows and columns change places. *)
Definition np_transpose {A} (a : ndarray A) : result (ndarray A) :=
  match shape a with
  | [h; w] =>
      Ok (mk_ndarray [w; h]
            (omap (fun k : nat => cells a !! ((k mod h) * w + k / h)%nat)
                  (seq 0 (w * h))))
  | _ => Raise ValueError
  end.

(** ** Stateful code: a state monad with exceptions

    A method body is a function from the state before the call to the
    state after it and either a value or the exception that left the body.
    The state reached when the exception was raised is kept: Python does
    not roll back. *)

Definition M (S A : Type) : Type := S -> S * result A.

Definition ret {S A} (a : A) : M S A := fun s => (s, Ok a).
Definition raise {S A} (e : exn) : M S A := fun s => (s, Raise e).
Definition lift {S A} (r : result A) : M S A := fun s => (s, r).
Definition gets {S A} (f : S -> A) : M S A := fun s => (s, Ok (f s)).
Definition modify {S} (f : S -> S) : M S unit := fun s => (f s, Ok tt).

Definition bind {S A B} (c : M S A) (k : A -> M S B) : M S B :=
  fun s =>
    match c s with
    | (s', Ok a) => k a s'
    | (s', Raise e) => (s', Raise e)
    end.

(** [try: c  except Exception as e: h e] *)
Definition try_except {S A} (c : M S A) (h : exn -> M S A) : M S A :=
  fun s =>
    match c s with
    | (s', Ok a) => (s', Ok a)
    | (s', Raise e) => h e s'
    end.

Notation "'let!' x ':=' c 'in' k" := (bind c (fun x => k))
  (at level 10, x name, c at level 100, k at level 200, only parsing).
Notation "'let!' ' p ':=' c 'in' k" :=
  (bind c (fun x => match x with p => k end))
  (at level 10, p pattern, c at level 100, k at level 200, only parsing).
Notation "c ';;' k" := (bind c (fun _ => k))
  (at level 100, k at level 200, right associativity, only parsing).

(** [if b: c] *)
Definition when {S} (b : bool) (c : M S unit) : M S unit :=
  if b then c else ret tt.

(** [for a in l: body a] *)
Fixpoint for_each {S A} (l : list A) (body : A -> M S unit) : M S unit :=
  match l with
  | [] => ret tt
  | a :: l' => body a ;; for_each l' body
  end.

(** ** The measurement snapshot and the results object *)

(** A Python value used as an axis binding: a column name, or [None]
    (the default of [PlotFrame.__init__]). *)
Inductive pyobj : Type :=
| PyNone
| PyStr (s : string).

(** [x + '_start'] *)
Definition str_add (x : pyobj) (suffix : string) : result string :=
  match x with
  | PyStr s => Ok (s ++ suffix)
  | PyNone => Raise TypeError
  end.

(** The snapshot: a pandas DataFrame, a table of named columns with one
    row per sample.  A row gives a value to every column name; only the
    names in [columns] can be read. *)
Record DataFrame : Type := mk_df {
  columns : list string;
  rows : list (string -> Q)
}.

Definition has_column (df : DataFrame) (c : pyobj) : bool :=
  match c with
  | PyStr s => bool_decide (s ∈ columns df)
  | PyNone => false
  end.

Definition key_name (c : pyobj) : string :=
  match c with PyStr s => s | PyNone => "None" end.

(** [data[c]]: the whole column. *)
Definition df_getitem (df : DataFrame) (c : pyobj) : result (list Q) :=
  if has_column df c then Ok (map (fun r => r (key_name c)) (rows df))
  else Raise (KeyError (key_name c)).

(** [row[c]] for a row of [data.iterrows()]. *)
Definition row_getitem (df : DataFrame) (row : string -> Q) (c : pyobj)
  : result Q :=
  if has_column df c then Ok (row (key_name c))
  else Raise (KeyError (key_name c)).

(** [Series.min()] and [Series.max()]: nan on an empty column. *)
Definition series_min (l : list Q) : npfloat :=
  match l with
  | [] => NaN
  | v :: l' => Fin (foldl Qmin v l')
  end.

Definition series_max (l : list Q) : npfloat :=
  match l with
  | [] => NaN
  | v :: l' => Fin (foldl Qmax v l')
  end.

(** [a.to_numpy()[-1]] *)
Definition np_last (l : list Q) : result Q :=
  match last l with
  | Some v => Ok v
  | None => Raise IndexError
  end.

(** Modelled from the spec: the results object ([pymeasure.experiment.
    Results], not among the sources) "owns the canonical data snapshot" and
    is "fully reloadable on demand".  [data] is the snapshot the widgets
    read, [file] what a reload reads back, [procedure] the attributes of
    the procedure the widgets look up with [getattr]. *)
Record Results : Type := mk_results {
  procedure : string -> option Q;
  data : DataFrame;
  file : DataFrame
}.

(** Modelled from the spec: [results.reload()] replaces the snapshot by the
    one read back. *)
Definition reload (r : Results) : Results :=
  mk_results (procedure r) (file r) (file r).

Definition getattr (r : Results) (name : string) : result Q :=
  match procedure r name with
  | Some v => Ok v
  | None => Raise (AttributeError name)
  end.

(** ** Calls into the toolkit

    What a widget does to the outside (pyqtgraph, Qt signals, the results
    object, standard output) is recorded in order. *)

Definition rgba : Type := (Q * Q * Q * Q)%type.
Definition rgba_zero : rgba := (0, 0, 0, 0)%Q.

Inductive event : Type :=
| EvReload                               (* results.reload() *)
| EvSetData (xs ys : list Q)             (* PlotDataItem.setData(x, y) *)
| EvSetPoints (pts : list (Q * Q))       (* PlotDataItem.setData(array) *)
| EvSetImage (image : ndarray rgba)      (* ImageItem.setImage(image=...) *)
| EvDataUpdated (x y : Q)                (* dataUpdated.emit(x, y) *)
| EvBufferUpdated                        (* data_updated.emit() *)
| EvPrint (e : exn).                     (* print(e) *)

(** The state a method of a widget of class [W] runs in: the widget, the
    results object it shares with the other widgets, and the calls made. *)
Record world (W : Type) : Type := mk_world {
  obj : W;
  results : Results;
  trace : list event
}.
Arguments mk_world {W} obj results trace.
Arguments obj {W} _.
Arguments results {W} _.
Arguments trace {W} _.

Definition call {W} (ev : event) : M (world W) unit :=
  modify (fun w => mk_world (obj w) (results w) (trace w ++ [ev])).

Definition set_obj {W} (o : W) : M (world W) unit :=
  modify (fun w => mk_world o (results w) (trace w)).

(** [self.results.reload()] *)
Definition results_reload {W} : M (world W) unit :=
  modify (fun w => mk_world (obj w) (reload (results w)) (trace w ++ [EvReload])).

(** [int(np.ceil((end - start) / step)) + 1] *)
Definition axis_size `{Float64} (start stop step : Q) : result Z :=
  let* q := py_div (py_sub stop start) step in
  Ok (Qceiling q + 1).

(** [(v - zmin) / (zmax - zmin)] on numpy floats: nan as soon as one of the
    bounds is nan. *)
Definition normalize `{Float64} (v : Q) (zmin zmax : npfloat) : npfloat :=
  match zmin, zmax with
  | Fin lo, Fin hi => np_div (py_sub v lo) (py_sub hi lo)
  | _, _ => NaN
  end.

(** ** [ResultsImage] *)

Module ResultsImage.

Record t : Type := mk {
  x : pyobj;
  y : pyobj;
  z : pyobj;
  xstart : Q;
  xend : Q;
  xstep : Q;
  xsize : Z;
  ystart : Q;
  yend : Q;
  ystep : Q;
  ysize : Z;
  img_data : ndarray rgba;     (* shape (ysize, xsize), cells of 4 floats *)
  force_reload : bool;
  cm : npfloat -> rgba
}.

Definition set_img_data (self : t) (a : ndarray rgba) : t :=
  mk (x self) (y self) (z self) (xstart self) (xend self) (xstep self)
     (xsize self) (ystart self) (yend self) (ystep self) (ysize self)
     a (force_reload self) (cm self).

Section Init.
Context `{Float64}.
(** [pg.colormap.get]: the colour ramps of pyqtgraph, by name. *)
Variable pg_colormap_get : string -> npfloat -> rgba.
(** [pg.ImageItem.__init__(image=...)], which may raise. *)
Variable image_item_init : ndarray rgba -> result unit.

(** The transform built at the end is handed to Qt and not kept; of its
    computation the two divisions are modelled. *)
Definition __init__ (results : Results) (x y z : pyobj)
    (force_reload : bool) : result t :=
  let* nx0 := str_add x "_start" in
  let* xstart := getattr results nx0 in
  let* nx1 := str_add x "_end" in
  let* xend := getattr results nx1 in
  let* nx2 := str_add x "_step" in
  let* xstep := getattr results nx2 in
  let* xsize := axis_size xstart xend xstep in
  let* ny0 := str_add y "_start" in
  let* ystart := getattr results ny0 in
  let* ny1 := str_add y "_end" in
  let* yend := getattr results ny1 in
  let* ny2 := str_add y "_step" in
  let* ystep := getattr results ny2 in
  let* ysize := axis_size ystart yend ystep in
  let* img_data := np_zeros rgba_zero [ysize; xsize] in
  let cm := pg_colormap_get "viridis" in
  let* _ := image_item_init img_data in
  (* tr.translate(int(self.xstart / self.xstep) - 0.5, ...) *)
  let* _ := py_div xstart xstep in
  let* _ := py_div ystart ystep in
  Ok (mk x y z xstart xend xstep xsize ystart yend ystep ysize
         img_data force_reload cm).
End Init.

Definition find_img_index `{Float64} (self : t) (x y : Q) : result (Z * Z) :=
  let indices0 := xsize self - 1 in
  let indices1 := ysize self - 1 in
  let* indices0 :=
    if between (xstart self) x (xend self) then
      let* q := py_div (py_sub x (xstart self)) (xstep self) in
      Ok (round_up q)
    else Ok indices0 in
  let* indices1 :=
    if between (ystart self) y (yend self) then
      let* q := py_div (py_sub y (ystart self)) (ystep self) in
      Ok (round_up q)
    else Ok indices1 in
  Ok (indices0, indices1).

Definition colormap (self : t) (v : npfloat) : rgba := cm self v.

(** The body of the loop over [data.iterrows()]. *)
Definition write_row `{Float64} (data : DataFrame) (zmin zmax : npfloat)
    (row : string -> Q) : M (world t) unit :=
  let! self := gets obj in
  let! xdat := lift (row_getitem data row (x self)) in
  let! ydat := lift (row_getitem data row (y self)) in
  let! '(xidx, yidx) := lift (find_img_index self xdat ydat) in
  let! v := lift (row_getitem data row (z self)) in
  let color := colormap self (normalize v zmin zmax) in
  let! a := lift (np_setitem (img_data self) [yidx; xidx] color) in
  set_obj (set_img_data self a).

(** The [try] block at the end of [update_data]. *)
Definition emit_last_point (data : DataFrame) : M (world t) unit :=
  let! self := gets obj in
  try_except
    (let! xs := lift (df_getitem data (x self)) in
     let! xlast := lift (np_last xs) in
     let! ys := lift (df_getitem data (y self)) in
     let! ylast := lift (np_last ys) in
     call (EvDataUpdated xlast ylast))
    (fun e => call (EvPrint e) ;; call (EvDataUpdated 0 0)).

(** [update_data] up to and including [setImage]; the snapshot read is
    handed on to the [try] block. *)
Definition redraw `{Float64} : M (world t) DataFrame :=
  let! self := gets obj in
  when (force_reload self) results_reload ;;
  let! data := gets (fun w => data (results w)) in
  let! zs := lift (df_getitem data (z self)) in
  let zmin := series_min zs in
  let zmax := series_max zs in
  for_each (rows data) (write_row data zmin zmax) ;;
  let! self := gets obj in
  let! image := lift (np_transpose (img_data self)) in
  call (EvSetImage image) ;;
  ret data.

Definition update_data `{Float64} : M (world t) unit :=
  let! data := redraw in
  emit_last_point data.

End ResultsImage.

(** ** numpy slices and reductions used by [Results3DImage] *)

(** [a[start::step]] with Python's slice rules. *)
Definition slice_from {A} (l : list A) (start step : Z) : result (list A) :=
  let len := Z.of_nat (length l) in
  if step =? 0 then Raise ValueError
  else if 0 <? step then
    let s := if start <? 0 then Z.max (start + len) 0 else Z.min start len in
    Ok (omap (fun i => l !! i)
          (filter (fun i : nat => s <= Z.of_nat i /\ (Z.of_nat i - s) mod step = 0)
                  (seq 0 (length l))))
  else
    let s := if start <? 0 then Z.max (start + len) (-1)
             else Z.min start (len - 1) in
    Ok (omap (fun i => l !! i)
          (reverse
             (filter (fun i : nat => Z.of_nat i <= s /\ (s - Z.of_nat i) mod (- step) = 0)
                     (seq 0 (length l))))).

(** [ndarray.min()] and [ndarray.max()]: raise on an empty array. *)
Definition np_min (l : list Q) : result Q :=
  match l with
  | [] => Raise ValueError
  | v :: l' => Ok (foldl Qmin v l')
  end.

Definition np_max (l : list Q) : result Q :=
  match l with
  | [] => Raise ValueError
  | v :: l' => Ok (foldl Qmax v l')
  end.

(** [a[i]] on the first axis: the sub-array. *)
Definition np_subarray {A} (a : ndarray A) (i : Z) : result (ndarray A) :=
  match shape a with
  | [] => Raise IndexError
  | n :: sh =>
      let* k := np_index n i in
      Ok (mk_ndarray sh (take (prod_dims sh) (drop (k * prod_dims sh) (cells a))))
  end.

(** ** [Results3DImage] *)

Module Results3DImage.

Record t : Type := mk {
  var : pyobj;
  x : pyobj;
  y : pyobj;
  z : pyobj;
  xstart : Q;
  xend : Q;
  xstep : Q;
  xsize : Z;
  ystart : Q;
  yend : Q;
  ystep : Q;
  ysize : Z;
  zstart : Q;
  zend : Q;
  zstep : Q;
  zsize : Z;
  shown_zidx : Z;
  img_data : ndarray rgba;   (* shape (zsize, ysize, xsize), cells of 4 floats *)
  force_reload : bool;
  cm : npfloat -> rgba
}.

Definition set_img_data (self : t) (a : ndarray rgba) : t :=
  mk (var self) (x self) (y self) (z self)
     (xstart self) (xend self) (xstep self) (xsize self)
     (ystart self) (yend self) (ystep self) (ysize self)
     (zstart self) (zend self) (zstep self) (zsize self)
     (shown_zidx self) a (force_reload self) (cm self).

Section Init.
Context `{Float64}.
Variable pg_colormap_get : string -> npfloat -> rgba.
Variable image_item_init : ndarray rgba -> result unit.

Definition __init__ (results : Results) (var x y z : pyobj)
    (force_reload : bool) : result t :=
  let* nx0 := str_add x "_start" in
  let* xstart := getattr results nx0 in
  let* nx1 := str_add x "_end" in
  let* xend := getattr results nx1 in
  let* nx2 := str_add x "_step" in
  let* xstep := getattr results nx2 in
  let* xsize := axis_size xstart xend xstep in
  let* ny0 := str_add y "_start" in
  let* ystart := getattr results ny0 in
  let* ny1 := str_add y "_end" in
  let* yend := getattr results ny1 in
  let* ny2 := str_add y "_step" in
  let* ystep := getattr results ny2 in
  let* ysize := axis_size ystart yend ystep in
  let* nz0 := str_add z "_start" in
  let* zstart := getattr results nz0 in
  let* nz1 := str_add z "_end" in
  let* zend := getattr results nz1 in
  let* nz2 := str_add z "_step" in
  let* zstep := getattr results nz2 in
  let* zsize := axis_size zstart zend zstep in
  let* img_data := np_zeros rgba_zero [zsize; ysize; xsize] in
  let cm := pg_colormap_get "viridis" in
  (* super().__init__(image=self.img_data[0]) *)
  let* first := np_subarray img_data 0 in
  let* _ := image_item_init first in
  let* _ := py_div xstart xstep in
  let* _ := py_div ystart ystep in
  Ok (mk var x y z xstart xend xstep xsize ystart yend ystep ysize
         zstart zend zstep zsize 0 img_data force_reload cm).
End Init.

Definition find_img_index `{Float64} (self : t) (x y z : Q)
  : result (Z * Z * Z) :=
  let indices0 := xsize self - 1 in
  let indices1 := ysize self - 1 in
  let indices2 := zsize self - 1 in
  let* indices0 :=
    if between (xstart self) x (xend self) then
      let* q := py_div (py_sub x (xstart self)) (xstep self) in
      Ok (round_up q)
    else Ok indices0 in
  let* indices1 :=
    if between (ystart self) y (yend self) then
      let* q := py_div (py_sub y (ystart self)) (ystep self) in
      Ok (round_up q)
    else Ok indices1 in
  let* indices2 :=
    if between (zstart self) z (zend self) then
      let* q := py_div (py_sub z (zstart self)) (zstep self) in
      Ok (round_up q)
    else Ok indices2 in
  Ok (indices0, indices1, indices2).

Definition colormap (self : t) (v : npfloat) : rgba := cm self v.

(** The local function [var_color] of [update_data]. *)
Definition var_color `{Float64} (self : t) (data : DataFrame) (v : Q)
    (zidx : Z) : result rgba :=
  let* col := df_getitem data (var self) in
  let* sl := slice_from col zidx (zsize self) in
  let* var_min := np_min sl in
  let* col' := df_getitem data (var self) in
  let* sl' := slice_from col' zidx (zsize self) in
  let* var_max := np_max sl' in
  Ok (colormap self (np_div (py_sub v var_min) (py_sub var_max var_min))).

Definition write_row `{Float64} (data : DataFrame) (row : string -> Q)
  : M (world t) unit :=
  let! self := gets obj in
  let! xdat := lift (row_getitem data row (x self)) in
  let! ydat := lift (row_getitem data row (y self)) in
  let! zdat := lift (row_getitem data row (z self)) in
  let! '(xidx, yidx, zidx) := lift (find_img_index self xdat ydat zdat) in
  let! v := lift (row_getitem data row (var self)) in
  let! color := lift (var_color self data v zidx) in
  let! a := lift (np_setitem (img_data self) [zidx; yidx; xidx] color) in
  set_obj (set_img_data self a).

Definition emit_last_point (data : DataFrame) : M (world t) unit :=
  let! self := gets obj in
  try_except
    (let! xs := lift (df_getitem data (x self)) in
     let! xlast := lift (np_last xs) in
     let! ys := lift (df_getitem data (y self)) in
     let! ylast := lift (np_last ys) in
     call (EvDataUpdated xlast ylast))
    (fun e => call (EvPrint e) ;; call (EvDataUpdated 0 0)).

Definition redraw `{Float64} : M (world t) DataFrame :=
  let! self := gets obj in
  when (force_reload self) results_reload ;;
  let! data := gets (fun w => data (results w)) in
  for_each (rows data) (write_row data) ;;
  let! self := gets obj in
  let! shown := lift (np_subarray (img_data self) (shown_zidx self)) in
  let! image := lift (np_transpose shown) in
  call (EvSetImage image) ;;
  ret data.

Definition update_data `{Float64} : M (world t) unit :=
  let! data := redraw in
  emit_last_point data.

End Results3DImage.

(** ** [ResultsCurve] *)

Module ResultsCurve.

(** The pen and the colour of the curve play no part in [update_data]
    and are left out. *)
Record t : Type := mk {
  x : pyobj;
  y : pyobj;
  force_reload : bool
}.

Definition __init__ (x y : pyobj) (force_reload : bool) : t :=
  mk x y force_reload.

Definition update_data : M (world t) unit :=
  let! self := gets obj in
  when (force_reload self) results_reload ;;
  let! data := gets (fun w => data (results w)) in
  let! xs := lift (df_getitem data (x self)) in
  let! ys := lift (df_getitem data (y self)) in
  call (EvSetData xs ys).

End ResultsCurve.

(** ** [Results3DCurve] *)

(** [a[start:stop]] with Python's slice rules. *)
Definition slice_range {A} (l : list A) (start stop : Z) : list A :=
  let len := Z.of_nat (length l) in
  let clamp i := if i <? 0 then Z.max (i + len) 0 else Z.min i len in
  let s := clamp start in
  let e := clamp stop in
  take (Z.to_nat (e - s)) (drop (Z.to_nat s) l).

(** The scan of [np.argmin]: the index of the first smallest value. *)
Fixpoint argmin_from (best_i : nat) (best : Q) (i : nat) (l : list Q) : nat :=
  match l with
  | [] => best_i
  | v :: l' =>
      if Qle_bool best v then argmin_from best_i best (S i) l'
      else argmin_from i v (S i) l'
  end.

(** [np.argmin(a)]: raises on an empty array. *)
Definition np_argmin (l : list Q) : result nat :=
  match l with
  | [] => Raise ValueError
  | v :: l' => Ok (argmin_from 0 v 1 l')
  end.

Module Results3DCurve.

Record t : Type := mk {
  z : pyobj;
  var : pyobj;
  zstart : Q;
  zend : Q;
  zstep : Q;
  zsize : Z;
  force_reload : bool;
  shown_xid : Z;
  shown_yid : Z
}.

Definition __init__ `{Float64} (results : Results) (z var : pyobj)
    (force_reload : bool) : result t :=
  let* n0 := str_add z "_start" in
  let* zstart := getattr results n0 in
  let* n1 := str_add z "_end" in
  let* zend := getattr results n1 in
  let* n2 := str_add z "_step" in
  let* zstep := getattr results n2 in
  let* zsize := axis_size zstart zend zstep in
  Ok (mk z var zstart zend zstep zsize force_reload 0 0).

Definition update_data : M (world t) unit :=
  let! self := gets obj in
  when (force_reload self) results_reload ;;
  let! data := gets (fun w => data (results w)) in
  let! var := lift (df_getitem data (var self)) in
  let! z := lift (df_getitem data (z self)) in
  let start := shown_xid self + shown_yid self * zsize self in
  call (EvSetData (slice_range z start (zsize self))
                  (slice_range var start (zsize self))).

Definition get_closest_z_data `{Float64} (z_given : Q) : M (world t) nat :=
  let! self := gets obj in
  when (force_reload self) results_reload ;;
  let! data := gets (fun w => data (results w)) in
  let! z := lift (df_getitem data (z self)) in
  lift (np_argmin (map (fun v => Qabs (py_sub v z_given)) z)).

End Results3DCurve.

(** ** [PlotFrame]: changing the axes *)

Module PlotFrame.

(** What the frame does to its plot item and its signals. *)
Inductive frame_event : Type :=
| SetLabel (side : string) (label : pyobj) (units : option string)
| AxisChanged (side : string) (axis : pyobj).

(** The items of the plot that are [ResultsCurve]s, each with the
    results object it reads and the calls it has made. *)
Record t : Type := mk {
  items : list (world ResultsCurve.t);
  x_axis : pyobj;
  y_axis : pyobj;
  calls : list frame_event
}.

Section Re.
(** The module [re] on [units_pattern]: the group [units] of the first
    match of the pattern in a string, and the string with every match
    removed. *)
Variable re_search_units : string -> option string.
Variable re_sub_units : string -> string.

(** [re.search(units_pattern, axis)]: a [TypeError] when [axis] is not
    a string. *)
Definition re_search (axis : pyobj) : result (option string) :=
  match axis with
  | PyStr s => Ok (re_search_units s)
  | PyNone => Raise TypeError
  end.

Definition parse_axis (axis : pyobj) : result (pyobj * option string) :=
  let* match_ :=
    match re_search axis with
    | Ok m => Ok m
    | Raise TypeError => Ok None
    | Raise e => Raise e
    end in
  match match_, axis with
  | Some units, PyStr s => Ok (PyStr (re_sub_units s), Some units)
  | Some units, PyNone => Raise TypeError
  | None, _ => Ok (axis, None)
  end.

(** [item.x = axis; item.update_data()] for each item in turn; the
    first exception ends the loop.  The label set and the signal emitted
    afterwards are recorded in [calls]. *)
Fixpoint update_items (set_axis : ResultsCurve.t -> ResultsCurve.t)
    (items : list (world ResultsCurve.t))
  : list (world ResultsCurve.t) * result unit :=
  match items with
  | [] => ([], Ok tt)
  | w :: rest =>
      let w1 := mk_world (set_axis (obj w)) (results w) (trace w) in
      match ResultsCurve.update_data w1 with
      | (w2, Ok _) =>
          let (rest', r) := update_items set_axis rest in (w2 :: rest', r)
      | (w2, Raise e) => (w2 :: rest, Raise e)
      end
  end.

Definition change_x_axis (axis : pyobj) : M t unit :=
  fun self =>
    let set_x c := ResultsCurve.mk axis (ResultsCurve.y c)
                     (ResultsCurve.force_reload c) in
    match update_items set_x (items self) with
    | (items', Raise e) =>
        (mk items' (x_axis self) (y_axis self) (calls self), Raise e)
    | (items', Ok _) =>
        let self1 := mk items' (x_axis self) (y_axis self) (calls self) in
        match parse_axis axis with
        | Raise e => (self1, Raise e)
        | Ok (label, units) =>
            (mk items' axis (y_axis self)
                (calls self ++ [SetLabel "bottom" label units;
                                AxisChanged "x" axis]),
             Ok tt)
        end
    end.

Definition change_y_axis (axis : pyobj) : M t unit :=
  fun self =>
    let set_y c := ResultsCurve.mk (ResultsCurve.x c) axis
                     (ResultsCurve.force_reload c) in
    match update_items set_y (items self) with
    | (items', Raise e) =>
        (mk items' (x_axis self) (y_axis self) (calls self), Raise e)
    | (items', Ok _) =>
        let self1 := mk items' (x_axis self) (y_axis self) (calls self) in
        match parse_axis axis with
        | Raise e => (self1, Raise e)
        | Ok (label, units) =>
            (mk items' (x_axis self) axis
                (calls self ++ [SetLabel "left" label units;
                                AxisChanged "y" axis]),
             Ok tt)
        end
    end.
End Re.

Section Status.
(** [item.results.procedure.status == Procedure.RUNNING]: the status of
    the procedure is kept outside the sources. *)
Variable running : Results -> bool.

(** The slot of the refresh timer, for a frame without a target;
    [check_status] is the attribute of the frame. *)
Fixpoint update_curves (check_status : bool)
    (items : list (world ResultsCurve.t))
  : list (world ResultsCurve.t) * result unit :=
  match items with
  | [] => ([], Ok tt)
  | w :: rest =>
      if check_status && negb (running (results w)) then
        let (rest', r) := update_curves check_status rest in (w :: rest', r)
      else
        match ResultsCurve.update_data w with
        | (w2, Ok _) =>
            let (rest', r) := update_curves check_status rest in
            (w2 :: rest', r)
        | (w2, Raise e) => (w2 :: rest, Raise e)
        end
  end.
End Status.

End PlotFrame.

(** ** [Image3DFrame]: choosing the shown slice *)

Module Image3DFrame.

(** [item.shown_zidx = zidx] *)
Definition set_shown_zidx (zidx : Z) (vol : Results3DImage.t)
  : Results3DImage.t :=
  Results3DImage.mk
    (Results3DImage.var vol) (Results3DImage.x vol) (Results3DImage.y vol)
    (Results3DImage.z vol)
    (Results3DImage.xstart vol) (Results3DImage.xend vol)
    (Results3DImage.xstep vol) (Results3DImage.xsize vol)
    (Results3DImage.ystart vol) (Results3DImage.yend vol)
    (Results3DImage.ystep vol) (Results3DImage.ysize vol)
    (Results3DImage.zstart vol) (Results3DImage.zend vol)
    (Results3DImage.zstep vol) (Results3DImage.zsize vol)
    zidx (Results3DImage.img_data vol)
    (Results3DImage.force_reload vol) (Results3DImage.cm vol).

(** The loop of [change_shown_zidx] over the volumes of the plot, from
    the counter [index] on: [zidx[index]] raises [IndexError] when the
    list is too short. *)
Fixpoint show_slices `{Float64} (zidx : list Z) (index : nat)
    (items : list (world Results3DImage.t))
  : list (world Results3DImage.t) * result unit :=
  match items with
  | [] => ([], Ok tt)
  | w :: rest =>
      match zidx !! index with
      | None => (w :: rest, Raise IndexError)
      | Some zi =>
          let w1 := mk_world (set_shown_zidx zi (obj w)) (results w) (trace w) in
          match Results3DImage.update_data w1 with
          | (w2, Ok _) =>
              let (rest', r) := show_slices zidx (S index) rest in
              (w2 :: rest', r)
          | (w2, Raise e) => (w2 :: rest, Raise e)
          end
      end
  end.

Definition change_shown_zidx `{Float64} (zidx : list Z)
  : M (list (world Results3DImage.t)) unit :=
  fun items =>
    if negb (length zidx =? 0)%nat then show_slices zidx 0 items
    else (items, Ok tt).

End Image3DFrame.

(** ** [BufferCurve] *)

Module BufferCurve.

(** A numpy array of (x, y) rows with its element type.  The element type
    is given by what an assignment does to a Python float: [dtype] is the
    conversion to the element type (for [np.float32] the rounding to
    single precision). *)
Record buffer : Type := mk_buffer {
  dtype : Q -> Q;
  buffer_rows : list (Q * Q)
}.

(** [_buffer] is [None] until [prepare]; the attribute [_ptr] does not
    exist before [prepare] either. *)
Record t : Type := mk {
  _buffer : option buffer;
  _ptr : option Z
}.

Definition state : Type := (t * list event)%type.

Definition __init__ : t := mk None None.

Section Empty.
(** [np.empty] leaves the cells as it finds them: whatever row [i] of
    the fresh buffer holds. *)
Variable np_empty_row : nat -> Q * Q.

Definition np_empty (size : Z) (dtype : Q -> Q) : result buffer :=
  if size <? 0 then Raise ValueError
  else Ok (mk_buffer dtype (map np_empty_row (seq 0 (Z.to_nat size)))).

Definition prepare (size : Z) (dtype : Q -> Q) : M state unit :=
  let! buf := lift (np_empty size dtype) in
  modify (fun '(_, tr) => (mk (Some buf) (Some 0), tr)).
End Empty.

(** [buf[k, :2] = [x, y]]: the values are converted to the element type
    of the array. *)
Definition set_row (buf : buffer) (k : nat) (x y : Q) : buffer :=
  mk_buffer (dtype buf) (<[k := (dtype buf x, dtype buf y)]> (buffer_rows buf)).

Definition getattr_ptr (self : t) : result Z :=
  match _ptr self with
  | Some p => Ok p
  | None => Raise (AttributeError "_ptr")
  end.

Definition append (x y : Q) : M state unit :=
  let! self := gets fst in
  match _buffer self with
  | None => raise (Exception "BufferCurve buffer must be prepared")
  | Some buf =>
      let! ptr := lift (getattr_ptr self) in
      if Z.of_nat (length (buffer_rows buf)) <=? ptr
      then raise (Exception "BufferCurve overflow")
      else
        let! k := lift (np_index (length (buffer_rows buf)) ptr) in
        let buf' := set_row buf k x y in
        modify (fun '(_, tr) => (mk (Some buf') (Some ptr), tr)) ;;
        (* self._buffer[:self._ptr, :2] *)
        modify (fun '(o, tr) =>
                  (o, (tr ++ [EvSetPoints
                                (take (Z.to_nat ptr) (buffer_rows buf'))])%list)) ;;
        modify (fun '(_, tr) => (mk (Some buf') (Some (ptr + 1)), tr)) ;;
        modify (fun '(o, tr) => (o, (tr ++ [EvBufferUpdated])%list))
  end.

End BufferCurve.

(** ** Instrument properties *)

(** The values a property is set to. *)
Inductive pyval : Type :=
| PNum (q : Q)                       (* an int or a float *)
| PBool (b : bool)
| PStr_ (s : string)
| PEnum (name : string) (value : Z). (* a member of an Enum class *)

(** The number a value compares as: [True == 1], [False == 0]. *)
Definition as_number (v : pyval) : option Q :=
  match v with
  | PNum q => Some q
  | PBool b => Some (if b then 1 else 0)%Q
  | _ => None
  end.

(** [a == b] *)
Definition py_eq (a b : pyval) : bool :=
  match as_number a, as_number b with
  | Some p, Some q => Qeq_bool p q
  | _, _ =>
      match a, b with
      | PStr_ s, PStr_ s' => bool_decide (s = s')
      | PEnum n _, PEnum n' _ => bool_decide (n = n')
      | _, _ => false
      end
  end.

(** The [values] argument of a property. *)
Inductive pyvalues : Type :=
| Range (start stop : Z)               (* range(start, stop) *)
| Seq (l : list pyval)                 (* a tuple or a list *)
| Dict (l : list (pyval * pyval))      (* a dict *)
| EnumClass (members : list (string * Z)).

(** [v in range(start, stop)]: a number equal to one of the integers. *)
Definition in_range (start stop : Z) (v : pyval) : bool :=
  match as_number v with
  | Some q =>
      Qeq_bool (inject_Z (Qfloor q)) q
      && (start <=? Qfloor q) && (Qfloor q <? stop)
  | None => false
  end.

(** [v in values] *)
Definition py_in (v : pyval) (values : pyvalues) : bool :=
  match values with
  | Range start stop => in_range start stop v
  | Seq l => existsb (py_eq v) l
  | Dict l => existsb (fun kv => py_eq v (fst kv)) l
  | EnumClass members =>
      match v with
      | PEnum n _ => existsb (fun m => bool_decide (fst m = n)) members
      | _ => false
      end
  end.

Inductive validator_kind : Type :=
| strict_discrete_set
| strict_range.

(** [min(values)] and [max(values)] of a pair of numbers. *)
Definition bounds (values : pyvalues) : option (Q * Q) :=
  match values with
  | Seq [a; b] =>
      match as_number a, as_number b with
      | Some p, Some q => Some (Qmin p q, Qmax p q)
      | _, _ => None
      end
  | _ => None
  end.

(** Modelled from the spec: the validators of [pymeasure.instruments.
    validators], which are not among the sources.  A validator is a "value
    range or enumeration": it returns the value when it lies in the range,
    or is one of the enumerated values, and raises otherwise. *)
Definition validate (k : validator_kind) (value : pyval) (values : pyvalues)
  : result pyval :=
  match k with
  | strict_discrete_set =>
      if py_in value values then Ok value else Raise ValueError
  | strict_range =>
      match as_number value, bounds values with
      | Some v, Some (lo, hi) =>
          if Qle_bool lo v && Qle_bool v hi then Ok value else Raise ValueError
      | _, _ => Raise TypeError
      end
  end.

(** One property of an instrument class, as its [Instrument.control] or
    [Instrument.setting] call gives it. *)
Record property : Type := mk_property {
  pname : string;
  set_command : string;
  validator : validator_kind;
  values : pyvalues;
  map_values : bool;
  set_process : pyval -> pyval
}.

(** The adapter: the commands written to it so far, each a command
    template and the value formatted into it. *)
Definition adapter : Type := list (string * pyval).

(** [values[value]] for a dict, [values.index(value)] for a sequence. *)
Definition map_value (values : pyvalues) (v : pyval) : result pyval :=
  match values with
  | Dict l =>
      match find (fun kv => py_eq v (fst kv)) l with
      | Some kv => Ok (snd kv)
      | None => Raise (KeyError "value")
      end
  | Seq l =>
      match list_find (py_eq v) l with
      | Some (i, _) => Ok (PNum (inject_Z (Z.of_nat i)))
      | None => Raise ValueError
      end
  | Range start stop =>
      if in_range start stop v then
        match as_number v with
        | Some q => Ok (PNum (q - inject_Z start))
        | None => Raise ValueError
        end
      else Raise ValueError
  | EnumClass _ => Raise ValueError
  end.

(** Modelled from the spec: setting a property built by
    [Instrument.control] or [Instrument.setting] (their code is not among
    the sources).  The validator is "applied before transmission"; "an
    invalid value raises a validation error before any I/O"; a valid one
    costs "one adapter round-trip", the write of the command. *)
Definition fset (p : property) (value : pyval) : M adapter unit :=
  let! v := lift (validate (validator p) value (values p)) in
  let v := set_process p v in
  let! v := lift (if map_values p then map_value (values p) v else Ok v) in
  modify (fun sent => (sent ++ [(set_command p, v)])%list).

Definition identity (v : pyval) : pyval := v.

Module TF930.

Definition TF930MasurementFunctions : list (string * Z) :=
  [("BInputPeriod", 0); ("AInputPeriod", 1); ("AInputFrequency", 2);
   ("BInputFrequency", 3); ("FreqeuncyRatioBA", 4); ("AInputWidthHigh", 5);
   ("AInputWidthLow", 6); ("AInputCount", 7); ("AInputRatioHL", 8);
   ("AInputDutyCycle", 9)].

Definition enum_value (v : pyval) : pyval :=
  match v with
  | PEnum _ value => PNum (inject_Z value)
  | _ => v
  end.

Definition measurement_function : property :=
  mk_property "measurement_function" "F%i" strict_discrete_set
    (EnumClass TF930MasurementFunctions) false enum_value.

Definition threshold_ac : property :=
  mk_property "threshold_ac" "TO%i" strict_discrete_set
    (Range (-60) 61) false identity.

Definition threshold_dc : property :=
  mk_property "threshold_dc" "TT%i" strict_discrete_set
    (Range (-300) 2101) false identity.

Definition measurement_time : property :=
  mk_property "measurement_time" "M%i" strict_discrete_set
    (Dict [(PNum (3 # 10), PNum 1); (PNum 1, PNum 2);
           (PNum 10, PNum 3); (PNum 100, PNum 4)]) true identity.

Definition inputACoupling : property :=
  mk_property "inputACoupling" "%s" strict_discrete_set
    (Seq [PStr_ "AC"; PStr_ "DC"]) false identity.

Definition inputAImpedance : property :=
  mk_property "inputAImpedance" "%s" strict_discrete_set
    (Dict [(PStr_ "1MOhm", PStr_ "Z1"); (PStr_ "50Ohm", PStr_ "Z5")])
    true identity.

Definition inputAAttenuation : property :=
  mk_property "inputAAttenuation" "%s" strict_discrete_set
    (Dict [(PStr_ "5:1", PStr_ "A5"); (PStr_ "1:1", PStr_ "A1")])
    true identity.

Definition edge_trigger : property :=
  mk_property "edge_trigger" "%s" strict_discrete_set
    (Dict [(PStr_ "rising", PStr_ "ER"); (PStr_ "falling", PStr_ "EF")])
    true identity.

Definition low_pass_filter_enable : property :=
  mk_property "low_pass_filter_enable" "%s" strict_discrete_set
    (Dict [(PBool true, PStr_ "FI"); (PBool false, PStr_ "FO")])
    true identity.

Definition properties : list property :=
  [measurement_function; threshold_ac; threshold_dc; measurement_time;
   inputACoupling; inputAImpedance; inputAAttenuation; edge_trigger;
   low_pass_filter_enable].

End TF930.

Module Keithley6482Chnanel.

Definition on_off : pyvalues := Seq [PBool true; PBool false].
Definition volts : pyvalues := Seq [PNum (-30); PNum 30].

Definition sourcing_mode : property :=
  mk_property "sourcing_mode" "SOUR{ch}:VOLT:MODE %s" strict_discrete_set
    (Seq [PStr_ "FIX"; PStr_ "LIST"; PStr_ "SWE"]) false identity.

Definition settling_time : property :=
  mk_property "settling_time" "SOUR{ch}:DEL %g" strict_range
    (Seq [PNum 0; PNum (9999999 # 1000)]) false identity.

Definition current_autorange : property :=
  mk_property "current_autorange" "SENS{ch}:CURR:RANG:AUTO %i"
    strict_discrete_set on_off false identity.

Definition ground_connect : property :=
  mk_property "ground_connect" "SOUR{ch}:GCON %i"
    strict_discrete_set on_off false identity.

Definition output : property :=
  mk_property "output" "OUTP{ch} %i" strict_discrete_set on_off false
    identity.

Definition auto_delay : property :=
  mk_property "auto_delay" "SOUR{ch}:DEL:AUTO %i" strict_discrete_set
    on_off false identity.

Definition voltage : property :=
  mk_property "voltage" "SOUR{ch}:VOLT %g" strict_range volts false
    identity.

Definition start : property :=
  mk_property "start" "SOUR{ch}:VOLT:STAR %g" strict_range volts false
    identity.

Definition stop : property :=
  mk_property "stop" "SOUR{ch}:VOLT:STOP %g" strict_range volts false
    identity.

Definition step : property :=
  mk_property "step" "SOUR{ch}:VOLT:STEP %g" strict_range volts false
    identity.

Definition points : property :=
  mk_property "points" "SOUR{ch}:SWE:POIN %i" strict_discrete_set
    (Range 1 3000) false identity.

Definition center : property :=
  mk_property "center" "SOUR{ch}:VOLT:CENT %g" strict_range volts false
    identity.

Definition span : property :=
  mk_property "span" "SOUR{ch}:VOLT:SPAN %g" strict_range volts false
    identity.

Definition spacing : property :=
  mk_property "spacing" "SOUR{ch}:SWE:SPAC %s" strict_discrete_set
    (Seq [PStr_ "LIN"; PStr_ "LOG"]) false identity.

Definition ranging : property :=
  mk_property "ranging" "SOUR{ch}:SWE:RANG %s" strict_discrete_set
    (Seq [PStr_ "BEST"; PStr_ "AUTO"; PStr_ "FIX"]) false identity.

Definition direction : property :=
  mk_property "direction" "SOUR{ch}:SWE:DIR %s" strict_discrete_set
    (Seq [PStr_ "UP"; PStr_ "DOWN"]) false identity.

Definition median_filter_enable : property :=
  mk_property "median_filter_enable" "SENS{ch}:MED:STAT %i"
    strict_discrete_set on_off false identity.

Definition speed_accuracy : property :=
  mk_property "speed_accuracy" "SENS{ch}:CURR:NPLC %g" strict_range
    (Seq [PNum (1 # 100); PNum 10]) false identity.

Definition average_filter_enable : property :=
  mk_property "average_filter_enable" "SENS{ch}:AVER:STAT %i"
    strict_discrete_set on_off false identity.

Definition average_filter_count : property :=
  mk_property "average_filter_count" "SENS{ch}:AVER:COUN %i"
    strict_discrete_set (Range 1 101) false identity.

Definition average_filter_type : property :=
  mk_property "average_filter_type" "SENS{ch}:AVER:TCON %s"
    strict_discrete_set (Seq [PStr_ "MOV"; PStr_ "REP"]) false identity.

Definition advanced_filter_enable : property :=
  mk_property "advanced_filter_enable" "SENS{ch}:AVER:ADV %i"
    strict_discrete_set on_off false identity.

Definition properties : list property :=
  [sourcing_mode; settling_time; current_autorange; ground_connect;
   output; auto_delay; voltage; start; stop; step; points; center; span;
   spacing; ranging; direction; median_filter_enable; speed_accuracy;
   average_filter_enable; average_filter_count; average_filter_type;
   advanced_filter_enable].

End Keithley6482Chnanel.

Module Keithley6482.

Definition trigger_count : property :=
  mk_property "trigger_count" "TRIG:COUN %i" strict_discrete_set
    (Range 1 3000) false identity.

Definition arm_count : property :=
  mk_property "arm_count" "ARM:COUN %i" strict_discrete_set
    (Range 1 3000) false identity.

Definition properties : list property := [trigger_count; arm_count].

End Keithley6482.

(** Every property of the three classes that has a validator. *)
Definition instrument_properties : list property :=
  (TF930.properties ++ Keithley6482Chnanel.properties
   ++ Keithley6482.properties)%list.

(** ** Vocabulary of the statements *)

(** One axis of [find_img_index]: the two (or three) [if] statements of
    the method are this computation on the x, y (and z) parameters. *)
Definition axis_index `{Float64} (start stop step : Q) (size : Z) (v : Q)
  : result Z :=
  if between start v stop then
    let* q := py_div (py_sub v start) step in Ok (round_up q)
  else Ok (size - 1).

(** What the index [idx] of a coordinate [v] has to be: inside
    [start, end] the fractional index [(v - start) / step] rounded, a
    fraction of .5 or more going up to the next integer; outside, the last
    pixel. *)
Definition axis_index_spec (start stop step : Q) (size : Z) (v : Q) (idx : Z)
  : Prop :=
  let q := ((v - start) / step)%Q in
  (between start v stop = true ->
     ((1 # 2 <= q - inject_Z (Qfloor q))%Q -> idx = Qfloor q + 1) /\
     ((q - inject_Z (Qfloor q) < 1 # 2)%Q -> idx = Qfloor q)) /\
  (between start v stop = false -> idx = size - 1).

Definition rounds_and_clamps `{Float64} (self : ResultsImage.t) (x y : Q)
  : Prop :=
  exists xi yi,
    ResultsImage.find_img_index self x y = Ok (xi, yi)
    /\ axis_index_spec (ResultsImage.xstart self) (ResultsImage.xend self)
         (ResultsImage.xstep self) (ResultsImage.xsize self) x xi
    /\ axis_index_spec (ResultsImage.ystart self) (ResultsImage.yend self)
         (ResultsImage.ystep self) (ResultsImage.ysize self) y yi.

Definition rounds_and_clamps_3d `{Float64} (self : Results3DImage.t)
    (x y z : Q) : Prop :=
  exists xi yi zi,
    Results3DImage.find_img_index self x y z = Ok (xi, yi, zi)
    /\ axis_index_spec (Results3DImage.xstart self) (Results3DImage.xend self)
         (Results3DImage.xstep self) (Results3DImage.xsize self) x xi
    /\ axis_index_spec (Results3DImage.ystart self) (Results3DImage.yend self)
         (Results3DImage.ystep self) (Results3DImage.ysize self) y yi
    /\ axis_index_spec (Results3DImage.zstart self) (Results3DImage.zend self)
         (Results3DImage.zstep self) (Results3DImage.zsize self) z zi.

(** Concrete objects for the examples. *)

(** An [ImageItem.__init__] that returns. *)
Definition item_init_ok : ndarray rgba -> result unit := fun _ => Ok tt.

Definition gray_colormap : string -> npfloat -> rgba :=
  fun _ v =>
    match v with
    | Fin q => (q, q, q, 1)%Q
    | _ => rgba_zero
    end.

(** A procedure with the given attributes. *)
Definition attributes (l : list (string * Q)) : string -> option Q :=
  fun name =>
    match find (fun kv => String.eqb (fst kv) name) l with
    | Some kv => Some (snd kv)
    | None => None
    end.

Definition no_data : DataFrame := mk_df ["x"; "y"; "z"] [].

(** An x axis from 0 to 0.5 with step -1. *)
Definition backward_results : Results :=
  mk_results
    (attributes [("x_start", 0); ("x_end", 1 # 2); ("x_step", - (1));
                 ("y_start", 0); ("y_end", 1); ("y_step", 1)]%Q)
    no_data no_data.

(** A 3 x 2 grid: x from 0 to 1 in steps of 0.5, y from 0 to 1. *)
Definition grid_results : Results :=
  mk_results
    (attributes [("x_start", 0); ("x_end", 1); ("x_step", 1 # 2);
                 ("y_start", 0); ("y_end", 1); ("y_step", 1);
                 ("z_start", 0); ("z_end", 2); ("z_step", 1)]%Q)
    no_data no_data.

(** The objects the program can hold: built by [__init__], then updated
    and re-bound to other columns (the frames assign [item.x = axis]
    before they call [update_data]). *)
Inductive constructed `{Float64} : ResultsImage.t -> Prop :=
| constructed_init pg item_init results x y z force_reload self :
    ResultsImage.__init__ pg item_init results x y z force_reload = Ok self ->
    constructed self
| constructed_update w :
    constructed (obj w) ->
    constructed (obj (fst (ResultsImage.update_data w)))
| constructed_rebind self x y z :
    constructed self ->
    constructed
      (ResultsImage.mk x y z
         (ResultsImage.xstart self) (ResultsImage.xend self)
         (ResultsImage.xstep self) (ResultsImage.xsize self)
         (ResultsImage.ystart self) (ResultsImage.yend self)
         (ResultsImage.ystep self) (ResultsImage.ysize self)
         (ResultsImage.img_data self) (ResultsImage.force_reload self)
         (ResultsImage.cm self)).

(** The axis parameters, the sizes and the dimensions of the pixel array
    of an image. *)
Definition geometry (self : ResultsImage.t)
  : (Q * Q * Q * Z) * (Q * Q * Q * Z) * (list nat * nat) :=
  ((ResultsImage.xstart self, ResultsImage.xend self,
    ResultsImage.xstep self, ResultsImage.xsize self),
   (ResultsImage.ystart self, ResultsImage.yend self,
    ResultsImage.ystep self, ResultsImage.ysize self),
   (shape (ResultsImage.img_data self),
    length (cells (ResultsImage.img_data self)))).

Definition geometry_3d (self : Results3DImage.t)
  : (Q * Q * Q * Z) * (Q * Q * Q * Z) * (Q * Q * Q * Z) * (list nat * nat) :=
  ((Results3DImage.xstart self, Results3DImage.xend self,
    Results3DImage.xstep self, Results3DImage.xsize self),
   (Results3DImage.ystart self, Results3DImage.yend self,
    Results3DImage.ystep self, Results3DImage.ysize self),
   (Results3DImage.zstart self, Results3DImage.zend self,
    Results3DImage.zstep self, Results3DImage.zsize self),
   (shape (Results3DImage.img_data self),
    length (cells (Results3DImage.img_data self)))).

(** The sizes are the ones the constructor computes from the axis
    parameters, and the pixel array has them as its dimensions. *)
Definition sized `{Float64} (self : ResultsImage.t) : Prop :=
  axis_size (ResultsImage.xstart self) (ResultsImage.xend self)
    (ResultsImage.xstep self) = Ok (ResultsImage.xsize self)
  /\ axis_size (ResultsImage.ystart self) (ResultsImage.yend self)
       (ResultsImage.ystep self) = Ok (ResultsImage.ysize self)
  /\ map Z.of_nat (shape (ResultsImage.img_data self)) =
       [ResultsImage.ysize self; ResultsImage.xsize self]
  /\ length (cells (ResultsImage.img_data self)) =
       prod_dims (shape (ResultsImage.img_data self)).

Definition sized_3d `{Float64} (self : Results3DImage.t) : Prop :=
  axis_size (Results3DImage.xstart self) (Results3DImage.xend self)
    (Results3DImage.xstep self) = Ok (Results3DImage.xsize self)
  /\ axis_size (Results3DImage.ystart self) (Results3DImage.yend self)
       (Results3DImage.ystep self) = Ok (Results3DImage.ysize self)
  /\ axis_size (Results3DImage.zstart self) (Results3DImage.zend self)
       (Results3DImage.zstep self) = Ok (Results3DImage.zsize self)
  /\ map Z.of_nat (shape (Results3DImage.img_data self)) =
       [Results3DImage.zsize self; Results3DImage.ysize self;
        Results3DImage.xsize self]
  /\ length (cells (Results3DImage.img_data self)) =
       prod_dims (shape (Results3DImage.img_data self)).

(** The image and the volume [__init__] builds for [grid_results]. *)
Definition grid_image : ResultsImage.t :=
  ResultsImage.mk (PyStr "x") (PyStr "y") (PyStr "z")
    0 1 (1 # 2) 3 0 1 1 2
    (mk_ndarray [2; 3]%nat (replicate 6 rgba_zero))
    false (gray_colormap "viridis").

Definition grid_volume : Results3DImage.t :=
  Results3DImage.mk (PyStr "v") (PyStr "x") (PyStr "y") (PyStr "z")
    0 1 (1 # 2) 3 0 1 1 2 0 2 1 3 0
    (mk_ndarray [3; 2; 3]%nat (replicate 18 rgba_zero))
    false (gray_colormap "viridis").

(** The three attributes of the procedure an axis is read from. *)
Definition axis_of (results : Results) (name : pyobj) : result (Q * Q * Q) :=
  let* n0 := str_add name "_start" in
  let* start := getattr results n0 in
  let* n1 := str_add name "_end" in
  let* stop := getattr results n1 in
  let* n2 := str_add name "_step" in
  let* step := getattr results n2 in
  Ok (start, stop, step).

(** Everything of an image but the contents of its pixel array. *)
Definition static (self : ResultsImage.t) :=
  (ResultsImage.x self, ResultsImage.y self, ResultsImage.z self,
   ResultsImage.cm self, ResultsImage.force_reload self, geometry self).


(** The state in which the loop of [update_data] starts: after the reload,
    if the image forces one. *)
Definition after_reload (w : world ResultsImage.t) : world ResultsImage.t :=
  fst (when (ResultsImage.force_reload (obj w)) results_reload w).


(** The minimum and the maximum of a column. *)
Definition is_min (m : Q) (l : list Q) : Prop :=
  m ∈ l /\ forall v, v ∈ l -> (m <= v)%Q.
Definition is_max (m : Q) (l : list Q) : Prop :=
  m ∈ l /\ forall v, v ∈ l -> (v <= m)%Q.


(** A row of a snapshot with the columns x, y and z. *)
Definition sample (x y z : Q) : string -> Q :=
  fun c => if String.eqb c "x" then x else if String.eqb c "y" then y else z.

(** Two samples on the grid of [grid_results]. *)
Definition grid_data : DataFrame :=
  mk_df ["x"; "y"; "z"] [sample 0 0 5; sample (3 # 4) 1 9].

Definition grid_world : world ResultsImage.t :=
  mk_world grid_image
    (mk_results (procedure grid_results) grid_data grid_data) [].

(** Reading the last (x, y) sample of a snapshot, as the arguments of the
    final [dataUpdated.emit] do. *)
Definition read_last_point (data : DataFrame) (x y : pyobj) : result (Q * Q) :=
  let* xs := df_getitem data x in
  let* xlast := np_last xs in
  let* ys := df_getitem data y in
  let* ylast := np_last ys in
  Ok (xlast, ylast).

(** The calls the final emit path makes. *)
Definition final_point_calls (data : DataFrame) (x y : pyobj) : list event :=
  match read_last_point data x y with
  | Ok (xlast, ylast) => [EvDataUpdated xlast ylast]
  | Raise e => [EvPrint e; EvDataUpdated 0 0]
  end.

(** The outcome of a body that ends with a block that cannot raise. *)
Definition outcome_of {A} (r : result A) : result unit :=
  match r with
  | Ok _ => Ok tt
  | Raise e => Raise e
  end.

(** The whole column [c] of a snapshot, one value per row. *)
Definition column (d : DataFrame) (c : pyobj) : list Q :=
  map (fun r => r (key_name c)) (rows d).

(** A curve on the column names [a] and [b] of a snapshot of three rows,
    and the same snapshot grown by one row as a reload finds it. *)
Definition three_rows : DataFrame :=
  mk_df ["x"; "y"; "z"] [sample 0 0 5; sample 1 2 6; sample 2 4 7].

Definition four_rows : DataFrame :=
  mk_df ["x"; "y"; "z"]
    [sample 0 0 5; sample 1 2 6; sample 2 4 7; sample 3 6 8].

Definition curve_world (a b : pyobj) (force_reload : bool)
  : world ResultsCurve.t :=
  mk_world (ResultsCurve.__init__ a b force_reload)
    (mk_results (fun _ => None) three_rows four_rows) [].

(** A stand-in for the module [re] on strings without units: no match,
    nothing removed. *)
Definition no_units_search : string -> option string := fun _ => None.
Definition no_units_sub : string -> string := fun s => s.

(** The operations of a [BufferCurve], and a run of them in which the
    caller goes on after an exception. *)
Inductive buffer_op : Type :=
| Prepare (size : Z) (dtype : Q -> Q)
| Append (x y : Q).

Definition run_op (np_empty_row : nat -> Q * Q) (op : buffer_op)
    (s : BufferCurve.state) : BufferCurve.state :=
  match op with
  | Prepare size dtype => fst (BufferCurve.prepare np_empty_row size dtype s)
  | Append x y => fst (BufferCurve.append x y s)
  end.

Fixpoint run_ops (np_empty_row : nat -> Q * Q) (ops : list buffer_op)
    (s : BufferCurve.state) : BufferCurve.state :=
  match ops with
  | [] => s
  | op :: ops' => run_ops np_empty_row ops' (run_op np_empty_row op s)
  end.

(** Before [prepare] there is neither a buffer nor a pointer; after it the
    pointer lies between 0 and the size of the buffer. *)
Definition ptr_in_bounds (self : BufferCurve.t) : Prop :=
  match BufferCurve._buffer self, BufferCurve._ptr self with
  | None, None => True
  | Some buf, Some ptr =>
      0 <= ptr <= Z.of_nat (length (BufferCurve.buffer_rows buf))
  | _, _ => False
  end.

(** What [append x y] does in the state [s]. *)
Definition append_outcome (x y : Q) (s : BufferCurve.state) : Prop :=
  match BufferCurve._buffer (fst s), BufferCurve._ptr (fst s) with
  | None, _ =>
      BufferCurve.append x y s =
      (s, Raise (Exception "BufferCurve buffer must be prepared"))
  | Some buf, None => False
  | Some buf, Some ptr =>
      let rows := BufferCurve.buffer_rows buf in
      let cast := BufferCurve.dtype buf in
      if Z.of_nat (length rows) <=? ptr then
        BufferCurve.append x y s = (s, Raise (Exception "BufferCurve overflow"))
      else
        let rows' := <[Z.to_nat ptr := (cast x, cast y)]> rows in
        let shown := take (Z.to_nat ptr) rows' in
        BufferCurve.append x y s =
          ((BufferCurve.mk (Some (BufferCurve.mk_buffer cast rows'))
              (Some (ptr + 1)),
            (snd s ++ [EvSetPoints shown; EvBufferUpdated])%list),
           Ok tt)
        /\ rows' !! Z.to_nat ptr = Some (cast x, cast y)
        /\ shown = take (Z.to_nat ptr) rows
        /\ Z.of_nat (length shown) = ptr
  end.

Definition zero_rows : nat -> Q * Q := fun _ => (0, 0)%Q.

(** The element type [np.float64]: a Python float is stored as it is. *)
Definition float64 : Q -> Q := fun q => q.

(** A point as an array of the element type [dtype] stores it. *)
Definition stored (dtype : Q -> Q) (p : Q * Q) : Q * Q :=
  (dtype (fst p), dtype (snd p)).

(** The values a property takes, read off its [values] argument: a number
    between the two bounds for a range validator; for a set validator a
    number equal to one of the integers of a [range], a value equal to an
    element of a sequence or to a key of a dict, a member of an enum. *)
Definition in_values (p : property) (v : pyval) : Prop :=
  match validator p, values p with
  | strict_range, Seq [a; b] =>
      exists q lo hi,
        as_number v = Some q /\ as_number a = Some lo /\ as_number b = Some hi
        /\ (Qmin lo hi <= q <= Qmax lo hi)%Q
  | strict_range, _ => False
  | strict_discrete_set, Range start stop =>
      exists q n, as_number v = Some q /\ (q == inject_Z n)%Q
                  /\ start <= n < stop
  | strict_discrete_set, Seq l => exists u, u ∈ l /\ py_eq v u = true
  | strict_discrete_set, Dict l =>
      exists kv, kv ∈ l /\ py_eq v (fst kv) = true
  | strict_discrete_set, EnumClass members =>
      exists name value, v = PEnum name value /\ name ∈ map fst members
  end.

(** The validator of [p] lets [v] through. *)
Definition accepts (p : property) (v : pyval) : Prop :=
  validate (validator p) v (values p) = Ok v.

(** The validator of [p] raises on [v]. *)
Definition rejects (p : property) (v : pyval) : Prop :=
  exists e, validate (validator p) v (values p) = Raise e.

(** The effect [c] leaves the part [f] of the state as it was, whether it
    returns or raises. *)
Definition preserves {S B A} (f : S -> B) (c : M S A) : Prop :=
  forall s, f (fst (c s)) = f s.

(** The volumes the program can hold: built by [__init__], then updated,
    re-bound to other columns and switched to another shown slice (the
    frames assign [item.var] and [item.shown_zidx] before they call
    [update_data]). *)
Inductive constructed_3d `{Float64} : Results3DImage.t -> Prop :=
| constructed_3d_init pg item_init results var x y z force_reload vol :
    Results3DImage.__init__ pg item_init results var x y z force_reload
      = Ok vol ->
    constructed_3d vol
| constructed_3d_update w :
    constructed_3d (obj w) ->
    constructed_3d (obj (fst (Results3DImage.update_data w)))
| constructed_3d_rebind vol var x y z shown :
    constructed_3d vol ->
    constructed_3d
      (Results3DImage.mk var x y z
         (Results3DImage.xstart vol) (Results3DImage.xend vol)
         (Results3DImage.xstep vol) (Results3DImage.xsize vol)
         (Results3DImage.ystart vol) (Results3DImage.yend vol)
         (Results3DImage.ystep vol) (Results3DImage.ysize vol)
         (Results3DImage.zstart vol) (Results3DImage.zend vol)
         (Results3DImage.zstep vol) (Results3DImage.zsize vol)
         shown (Results3DImage.img_data vol)
         (Results3DImage.force_reload vol) (Results3DImage.cm vol)).

(** The axes of an image run forwards: [start <= end] and [step > 0]. *)
Definition forward_axes (self : ResultsImage.t) : Prop :=
  (ResultsImage.xstart self <= ResultsImage.xend self)%Q
  /\ (0 < ResultsImage.xstep self)%Q
  /\ (ResultsImage.ystart self <= ResultsImage.yend self)%Q
  /\ (0 < ResultsImage.ystep self)%Q.

(** Three samples on the grid of [grid_results], the last one outside
    the x range. *)
Definition scan_data : DataFrame :=
  mk_df ["x"; "y"; "z"] [sample 0 0 5; sample (1 # 2) 1 9; sample 4 0 7].

Definition scan_world : world ResultsImage.t :=
  mk_world grid_image
    (mk_results (procedure grid_results) scan_data scan_data) [].

(** A volume curve on the z column of [three_rows], with the values read
    as [var]. *)
Definition slice_curve (shown_xid shown_yid : Z) : Results3DCurve.t :=
  Results3DCurve.mk (PyStr "z") (PyStr "y") 0 1 1 2 false shown_xid shown_yid.

Definition slice_world (shown_xid shown_yid : Z) : world Results3DCurve.t :=
  mk_world (slice_curve shown_xid shown_yid)
    (mk_results (fun _ => None) three_rows four_rows) [].

(** The calls of a run of appends: the [i]-th append (from 0) shows the
    first [i] of the points and then signals the update. *)
Definition append_calls (pts : list (Q * Q)) (first count : nat) : list event :=
  flat_map (fun i => [EvSetPoints (take i pts); EvBufferUpdated])
           (seq first count).

Definition append_ops (pts : list (Q * Q)) : list buffer_op :=
  map (fun p => Append (fst p) (snd p)) pts.

(** [item.x = axis] *)
Definition bind_x (axis : pyobj) (c : ResultsCurve.t) : ResultsCurve.t :=
  ResultsCurve.mk axis (ResultsCurve.y c) (ResultsCurve.force_reload c).

(** A plot with two curves on [three_rows]. *)
Definition two_curves : PlotFrame.t :=
  PlotFrame.mk
    [curve_world (PyStr "x") (PyStr "y") false;
     curve_world (PyStr "x") (PyStr "z") false]
    (PyStr "x") (PyStr "y") [].

(** The geometry of a volume and the slice it shows. *)
Definition layout_3d (vol : Results3DImage.t) :=
  (geometry_3d vol, Results3DImage.shown_zidx vol).

(** The volume of [grid_results] switched to the slice [zidx], on a
    snapshot without rows. *)
Definition volume_world (zidx : Z) : world Results3DImage.t :=
  mk_world (Image3DFrame.set_shown_zidx zidx grid_volume) grid_results [].

(** The image [__init__] builds for a scan of x from 2 down to 0 in steps
    of -1: three columns. *)
Definition backward_image : ResultsImage.t :=
  ResultsImage.mk (PyStr "x") (PyStr "y") (PyStr "z")
    2 0 (- (1)) 3 0 1 1 2
    (mk_ndarray [2; 3]%nat (replicate 6 rgba_zero))
    false (gray_colormap "viridis").

(** A procedure counts as running when it has the attribute "running". *)
Definition has_running_flag (r : Results) : bool :=
  match procedure r "running" with
  | Some _ => true
  | None => false
  end.

(** * Properties *)

(** A statement that binds no rounding of its own is about the arithmetic
    without rounding error. *)
#[global] Existing Instance no_rounding.

(** Unfolds the arithmetic without rounding error. *)
Ltac exact_arith := cbv [py_sub float_round no_rounding] in *.


(** ** Rounding *)

Lemma py_mod1_range x : (0 <= py_mod1 x < 1)%Q.
Proof.
  unfold py_mod1. pose proof (Qfloor_le x) as Hlo.
  pose proof (Qlt_floor x) as Hhi.
  rewrite inject_Z_plus in Hhi. change (inject_Z 1) with 1%Q in Hhi.
  split; lra.
Qed.

Lemma py_int_nonneg x : (0 <= x)%Q -> py_int x = Qfloor x.
Proof.
  intros H. unfold py_int. destruct (Qle_bool 0 x) eqn:E; [done|].
  apply Qle_bool_iff in H. congruence.
Qed.

Lemma Qfloor_unique (x : Q) (n : Z) :
  (inject_Z n <= x)%Q -> (x < inject_Z (n + 1))%Q -> Qfloor x = n.
Proof.
  intros H1 H2.
  pose proof (Qfloor_le x). pose proof (Qlt_floor x).
  assert (n < Qfloor x + 1)%Z by (rewrite Zlt_Qlt; lra).
  assert (Qfloor x < n + 1)%Z by (rewrite Zlt_Qlt; lra).
  lia.
Qed.

Lemma Qfloor_plus_half (n : Z) : Qfloor (inject_Z n + (1 # 2)) = n.
Proof.
  apply Qfloor_unique.
  - lra.
  - rewrite inject_Z_plus. change (inject_Z 1) with 1%Q. lra.
Qed.

(** On a non-negative number [round_up] is rounding to the nearest
    integer, halves going up. *)
Lemma round_up_nonneg x :
  (0 <= x)%Q -> round_up x = Qfloor (x + (1 # 2)).
Proof.
  intros H. unfold round_up. rewrite (py_int_nonneg x H).
  pose proof (Qfloor_le x) as Hlo. pose proof (Qlt_floor x) as Hhi.
  rewrite inject_Z_plus in Hhi. change (inject_Z 1) with 1%Q in Hhi.
  unfold py_mod1.
  destruct (Qle_bool _ _) eqn:E; symmetry; apply Qfloor_unique.
  - apply Qle_bool_iff in E.
    rewrite inject_Z_plus. change (inject_Z 1) with 1%Q. lra.
  - rewrite !inject_Z_plus. change (inject_Z 1) with 1%Q. lra.
  - lra.
  - assert (~ (1 # 2 <= x - inject_Z (Qfloor x))%Q) as E'
      by (rewrite <- Qle_bool_iff; congruence).
    rewrite inject_Z_plus. change (inject_Z 1) with 1%Q. lra.
Qed.

Lemma round_up_half x :
  (0 <= x)%Q ->
  ((1 # 2 <= x - inject_Z (Qfloor x))%Q -> round_up x = Qfloor x + 1) /\
  ((x - inject_Z (Qfloor x) < 1 # 2)%Q -> round_up x = Qfloor x).
Proof.
  intros H. unfold round_up. rewrite (py_int_nonneg x H). unfold py_mod1.
  destruct (Qle_bool _ _) eqn:E.
  - apply Qle_bool_iff in E. split; [done|]. intros. lra.
  - assert (~ (1 # 2 <= x - inject_Z (Qfloor x))%Q) as E'
      by (rewrite <- Qle_bool_iff; congruence).
    split; [|done]. intros. lra.
Qed.

(** ** One axis of the index mapping *)

Lemma between_spec lo v hi :
  between lo v hi = true <-> (lo <= v <= hi)%Q.
Proof.
  unfold between. rewrite andb_true_iff, !Qle_bool_iff. tauto.
Qed.

Lemma py_div_pos {fl : Float64} a b :
  (0 < b)%Q -> py_div a b = Ok (float_round (a / b)%Q).
Proof.
  intros H. unfold py_div. destruct (Qeq_bool b 0) eqn:E; [|done].
  apply Qeq_bool_iff in E. lra.
Qed.

Lemma float_round_nonneg {fl : Float64} q :
  (0 <= q)%Q -> (0 <= float_round q)%Q.
Proof.
  intros Hq. pose proof float_round_zero as H0.
  pose proof (float_round_le 0 q Hq). lra.
Qed.

Lemma float_round_eq_zero {fl : Float64} q :
  (q == 0)%Q -> (float_round q == 0)%Q.
Proof.
  intros Hq. pose proof float_round_zero as H0.
  pose proof (float_round_le 0 q ltac:(lra)).
  pose proof (float_round_le q 0 ltac:(lra)). lra.
Qed.

Lemma Qdiv_nonneg a b : (0 <= a)%Q -> (0 < b)%Q -> (0 <= a / b)%Q.
Proof.
  intros Ha Hb. apply Qle_shift_div_l; [done|]. lra.
Qed.

Lemma Qdiv_le_mono a b c : (a <= b)%Q -> (0 < c)%Q -> (a / c <= b / c)%Q.
Proof.
  intros Hab Hc. unfold Qdiv. apply Qmult_le_compat_r; [done|].
  apply Qlt_le_weak, Qinv_lt_0_compat, Hc.
Qed.

Lemma axis_index_rounds start stop step size v :
  (0 < step)%Q ->
  exists idx, axis_index start stop step size v = Ok idx
              /\ axis_index_spec start stop step size v idx.
Proof.
  intros Hstep. unfold axis_index, axis_index_spec.
  destruct (between start v stop) eqn:B.
  - rewrite py_div_pos by done. exact_arith. simpl.
    eexists; split; [done|].
    split; [|done]. intros _.
    apply round_up_half, Qdiv_nonneg; [|done].
    apply between_spec in B. lra.
  - eexists; split; [done|]. split; done.
Qed.

Lemma axis_index_bounds {fl : Float64} start stop step size v :
  (start <= stop)%Q -> (0 < step)%Q ->
  axis_size start stop step = Ok size ->
  exists idx, axis_index start stop step size v = Ok idx
              /\ 0 <= idx <= size - 1.
Proof.
  intros Hle Hstep Hsize. unfold axis_size in Hsize.
  rewrite py_div_pos in Hsize by done. simpl in Hsize.
  injection Hsize as <-. unfold py_sub.
  set (qmax := float_round (float_round (stop - start) / step)).
  set (N := Qceiling qmax).
  pose proof (Qle_ceiling qmax) as Hc. fold N in Hc.
  assert (0 <= qmax)%Q as H0.
  { apply float_round_nonneg, Qdiv_nonneg; [|done].
    apply float_round_nonneg. lra. }
  assert (0 <= N) as Hc0.
  { change 0 with (Qceiling 0). by apply Qceiling_resp_le. }
  unfold axis_index. destruct (between start v stop) eqn:B.
  - apply between_spec in B. rewrite py_div_pos by done. unfold py_sub.
    simpl. eexists; split; [done|].
    set (q := float_round (float_round (v - start) / step)).
    assert (0 <= q)%Q as Hq.
    { apply float_round_nonneg, Qdiv_nonneg; [|done].
      apply float_round_nonneg. lra. }
    assert (q <= qmax)%Q as Hq'.
    { apply float_round_le, Qdiv_le_mono; [|done].
      apply float_round_le. lra. }
    rewrite (round_up_nonneg _ Hq). split.
    + change 0 with (Qfloor 0). apply Qfloor_resp_le. lra.
    + replace (N + 1 - 1) with (Qfloor (inject_Z N + (1 # 2)))
        by (rewrite Qfloor_plus_half; lia).
      apply Qfloor_resp_le. lra.
  - eexists; split; [done|]. lia.
Qed.

Lemma find_img_index_axes {fl : Float64} (self : ResultsImage.t) x y :
  ResultsImage.find_img_index self x y =
  (let* xi := axis_index (ResultsImage.xstart self) (ResultsImage.xend self)
                (ResultsImage.xstep self) (ResultsImage.xsize self) x in
   let* yi := axis_index (ResultsImage.ystart self) (ResultsImage.yend self)
                (ResultsImage.ystep self) (ResultsImage.ysize self) y in
   Ok (xi, yi)).
Proof. reflexivity. Qed.

Lemma find_img_index_axes_3d {fl : Float64} (self : Results3DImage.t) x y z :
  Results3DImage.find_img_index self x y z =
  (let* xi := axis_index (Results3DImage.xstart self) (Results3DImage.xend self)
                (Results3DImage.xstep self) (Results3DImage.xsize self) x in
   let* yi := axis_index (Results3DImage.ystart self) (Results3DImage.yend self)
                (Results3DImage.ystep self) (Results3DImage.ysize self) y in
   let* zi := axis_index (Results3DImage.zstart self) (Results3DImage.zend self)
                (Results3DImage.zstep self) (Results3DImage.zsize self) z in
   Ok (xi, yi, zi)).
Proof. reflexivity. Qed.

Lemma rounds_and_clamps_pos (self : ResultsImage.t) x y :
  (0 < ResultsImage.xstep self)%Q -> (0 < ResultsImage.ystep self)%Q ->
  rounds_and_clamps self x y.
Proof.
  intros Hx Hy. unfold rounds_and_clamps. rewrite find_img_index_axes.
  destruct (axis_index_rounds (ResultsImage.xstart self)
              (ResultsImage.xend self) _ (ResultsImage.xsize self) x Hx)
    as (xi & -> & Sx).
  destruct (axis_index_rounds (ResultsImage.ystart self)
              (ResultsImage.yend self) _ (ResultsImage.ysize self) y Hy)
    as (yi & -> & Sy).
  by exists xi, yi.
Qed.

Lemma rounds_and_clamps_3d_pos (self : Results3DImage.t) x y z :
  (0 < Results3DImage.xstep self)%Q -> (0 < Results3DImage.ystep self)%Q ->
  (0 < Results3DImage.zstep self)%Q ->
  rounds_and_clamps_3d self x y z.
Proof.
  intros Hx Hy Hz. unfold rounds_and_clamps_3d.
  rewrite find_img_index_axes_3d.
  destruct (axis_index_rounds (Results3DImage.xstart self)
              (Results3DImage.xend self) _ (Results3DImage.xsize self) x Hx)
    as (xi & -> & Sx).
  destruct (axis_index_rounds (Results3DImage.ystart self)
              (Results3DImage.yend self) _ (Results3DImage.ysize self) y Hy)
    as (yi & -> & Sy).
  destruct (axis_index_rounds (Results3DImage.zstart self)
              (Results3DImage.zend self) _ (Results3DImage.zsize self) z Hz)
    as (zi & -> & Sz).
  by exists xi, yi, zi.
Qed.

Example grid_image_init :
  ResultsImage.__init__ gray_colormap item_init_ok grid_results
    (PyStr "x") (PyStr "y") (PyStr "z") false = Ok grid_image.
Proof. reflexivity. Qed.

Example grid_volume_init :
  Results3DImage.__init__ gray_colormap item_init_ok grid_results
    (PyStr "v") (PyStr "x") (PyStr "y") (PyStr "z") false = Ok grid_volume.
Proof. reflexivity. Qed.

(** x = 0.75 lies at the fractional index 1.5 and goes to pixel 2; y = 7
    is out of range and goes to the last row. *)
Example grid_image_index :
  ResultsImage.find_img_index grid_image (3 # 4) 7 = Ok (2, 1).
Proof. reflexivity. Qed.

(** Where the steps are positive the fractional indices are not negative,
    and there, in the arithmetic without rounding error,
    [ResultsImage.find_img_index] maps a coordinate inside [start, end] to
    its fractional index rounded, a fraction of .5 or more going up to the
    next integer, and a coordinate outside [start, end] to the last pixel
    index [size - 1] of the axis; the same holds for the three axes of
    [Results3DImage.find_img_index]. *)
Theorem find_img_index_rounds_half_up
    (self : ResultsImage.t) (vol : Results3DImage.t) (x y z : Q)
    (Hx : (0 < ResultsImage.xstep self)%Q)
    (Hy : (0 < ResultsImage.ystep self)%Q)
    (Hx3 : (0 < Results3DImage.xstep vol)%Q)
    (Hy3 : (0 < Results3DImage.ystep vol)%Q)
    (Hz3 : (0 < Results3DImage.zstep vol)%Q) :
  rounds_and_clamps self x y /\ rounds_and_clamps_3d vol x y z.
Proof.
  split.
  - by apply rounds_and_clamps_pos.
  - by apply rounds_and_clamps_3d_pos.
Qed.

Lemma find_img_index_rounds_half_up_witness :
  rounds_and_clamps grid_image (3 # 4) 7
  /\ rounds_and_clamps_3d grid_volume (3 # 4) 7 (1 # 2).
Proof.
  apply (find_img_index_rounds_half_up grid_image grid_volume
           (3 # 4) 7 (1 # 2)); reflexivity.
Defined.

(** C1: the code does not round a negative fractional index of .5 up to
    the next integer.  On the x axis from 0 to 0.5 with step -1 the
    constructor computes [xsize = 1]; the coordinate 0.5 is in range and
    its fractional index is (0.5 - 0) / -1 = -0.5 (all three numbers are
    floats: no rounding takes place); [round_up] adds one to [int(-0.5)],
    which is 0 and not the floor, so the index returned is 1 where the
    next integer up from -0.5 is 0.  The index 1 is not a column of the
    one-column image, and the pixel write of [update_data] at it raises
    [IndexError]. *)
Theorem find_img_index_negative_step :
  exists self,
    ResultsImage.__init__ gray_colormap item_init_ok backward_results
      (PyStr "x") (PyStr "y") (PyStr "z") false = Ok self
    /\ ResultsImage.xsize self = 1
    /\ between (ResultsImage.xstart self) (1 # 2) (ResultsImage.xend self)
       = true
    /\ ResultsImage.find_img_index self (1 # 2) 0 = Ok (1, 0)
    /\ ~ rounds_and_clamps self (1 # 2) 0
    /\ np_setitem (ResultsImage.img_data self) [0; 1] rgba_zero
       = Raise IndexError.
Proof.
  eexists. split; [reflexivity|]. split; [reflexivity|].
  split; [reflexivity|]. split; [reflexivity|]. split; [|reflexivity].
  intros (xi & yi & Hidx & (Hin & _) & _).
  injection Hidx as <- <-.
  destruct (Hin eq_refl) as [Hup _].
  specialize (Hup ltac:(vm_compute; discriminate)).
  vm_compute in Hup. discriminate.
Qed.

(** ** Effects that leave a part of the state alone *)

Section Preserves.
Context {S B : Type} (f : S -> B).

Lemma preserves_ret {A} (a : A) : preserves f (ret a).
Proof. done. Qed.

Lemma preserves_raise {A} e : preserves f (@raise S A e).
Proof. done. Qed.

Lemma preserves_lift {A} (r : result A) : preserves f (lift r).
Proof. done. Qed.

Lemma preserves_gets {A} (g : S -> A) : preserves f (gets g).
Proof. done. Qed.

Lemma preserves_modify (g : S -> S) :
  (forall s, f (g s) = f s) -> preserves f (modify g).
Proof. intros H s. apply H. Qed.

Lemma preserves_bind {A C} (c : M S A) (k : A -> M S C) :
  preserves f c -> (forall a, preserves f (k a)) -> preserves f (bind c k).
Proof.
  intros Hc Hk s. unfold bind. specialize (Hc s).
  destruct (c s) as [s' [a|e]]; simpl in *; [|done].
  by rewrite Hk.
Qed.

Lemma preserves_try_except {A} (c : M S A) (h : exn -> M S A) :
  preserves f c -> (forall e, preserves f (h e)) -> preserves f (try_except c h).
Proof.
  intros Hc Hh s. unfold try_except. specialize (Hc s).
  destruct (c s) as [s' [a|e]]; simpl in *; [done|].
  by rewrite Hh.
Qed.

Lemma preserves_when (b : bool) (c : M S unit) :
  preserves f c -> preserves f (when b c).
Proof. intros Hc. destruct b; [done|]. apply preserves_ret. Qed.

Lemma preserves_for_each {A} (l : list A) (body : A -> M S unit) :
  (forall a, preserves f (body a)) -> preserves f (for_each l body).
Proof.
  intros Hb. induction l as [|a l IH]; simpl.
  - apply preserves_ret.
  - apply preserves_bind; [apply Hb|]. intros _. apply IH.
Qed.
End Preserves.

Ltac step_ok H :=
  match type of H with
  | rbind ?r _ = Ok _ =>
      let E := fresh "E" in
      destruct r eqn:E; simpl in H; [|discriminate H]
  end.

Lemma np_zeros_Ok {A} (zero : A) dims a :
  np_zeros zero dims = Ok a ->
  map Z.of_nat (shape a) = dims
  /\ length (cells a) = prod_dims (shape a).
Proof.
  unfold np_zeros. destruct (forallb _ dims) eqn:E; [|done].
  intros [= <-]. simpl. rewrite length_replicate. split; [|done].
  rewrite forallb_forall in E.
  induction dims as [|d dims IH]; [done|]. simpl. f_equal.
  - apply Z2Nat.id, Z.leb_le, E. by left.
  - apply IH. intros d' Hd'. apply E. by right.
Qed.

Lemma np_setitem_dims {A} (a a' : ndarray A) idx v :
  np_setitem a idx v = Ok a' ->
  shape a' = shape a /\ length (cells a') = length (cells a).
Proof.
  unfold np_setitem. destruct (np_offset (shape a) idx); simpl; [|done].
  intros [= <-]. simpl. by rewrite length_insert.
Qed.

Lemma call_preserves {W B} (g : W -> B) ev :
  preserves (fun w => g (obj w)) (@call W ev).
Proof. done. Qed.

Lemma results_reload_preserves {W B} (g : W -> B) :
  preserves (fun w => g (obj w)) (@results_reload W).
Proof. done. Qed.

Lemma emit_last_point_preserves {B} (g : ResultsImage.t -> B) data :
  preserves (fun w => g (obj w)) (ResultsImage.emit_last_point data).
Proof.
  unfold ResultsImage.emit_last_point.
  apply preserves_bind; [apply preserves_gets|]. intros self.
  apply preserves_try_except.
  - repeat (apply preserves_bind; [apply preserves_lift|]; intros ?).
    apply call_preserves.
  - intros e. apply preserves_bind; [apply call_preserves|].
    intros _. apply call_preserves.
Qed.

Lemma emit_last_point_preserves_3d {B} (g : Results3DImage.t -> B) data :
  preserves (fun w => g (obj w)) (Results3DImage.emit_last_point data).
Proof.
  unfold Results3DImage.emit_last_point.
  apply preserves_bind; [apply preserves_gets|]. intros self.
  apply preserves_try_except.
  - repeat (apply preserves_bind; [apply preserves_lift|]; intros ?).
    apply call_preserves.
  - intros e. apply preserves_bind; [apply call_preserves|].
    intros _. apply call_preserves.
Qed.

(** ** The geometry of an image, at any rounding *)

Section Geometry.
Context {fl : Float64}.

Lemma write_row_geometry data zmin zmax row :
  preserves (fun w => geometry (obj w)) (ResultsImage.write_row data zmin zmax row).
Proof.
  intros w. unfold ResultsImage.write_row, bind, gets, lift. simpl.
  destruct (row_getitem data row (ResultsImage.x (obj w))); [|done].
  destruct (row_getitem data row (ResultsImage.y (obj w))); [|done].
  destruct (ResultsImage.find_img_index _ _ _) as [[xi yi]|]; [|done].
  destruct (row_getitem data row (ResultsImage.z (obj w))); [|done].
  destruct (np_setitem _ _ _) as [a'|] eqn:E; [|done].
  apply np_setitem_dims in E as [E1 E2]. simpl.
  unfold geometry. simpl. by rewrite E1, E2.
Qed.

Lemma update_data_geometry :
  preserves (fun w => geometry (obj w)) ResultsImage.update_data.
Proof.
  unfold ResultsImage.update_data, ResultsImage.redraw.
  apply preserves_bind; [|intros; apply emit_last_point_preserves].
  apply preserves_bind; [apply preserves_gets|]. intros self.
  apply preserves_bind;
    [apply preserves_when, (results_reload_preserves geometry)|]. intros _.
  apply preserves_bind; [apply preserves_gets|]. intros data.
  apply preserves_bind; [apply preserves_lift|]. intros zs.
  apply preserves_bind;
    [apply preserves_for_each; intros; apply write_row_geometry|]. intros _.
  apply preserves_bind; [apply preserves_gets|]. intros self'.
  apply preserves_bind; [apply preserves_lift|]. intros image.
  apply preserves_bind; [apply (call_preserves geometry)|]. intros _.
  apply preserves_ret.
Qed.

Lemma axis_size_Ok start stop step n :
  axis_size start stop step = Ok n ->
  n = Qceiling (float_round (py_sub stop start / step)) + 1
  /\ ~ (step == 0)%Q.
Proof.
  unfold axis_size, py_div. destruct (Qeq_bool step 0) eqn:E; simpl; [done|].
  intros [= <-]. split; [done|]. intros Hs. apply Qeq_bool_iff in Hs.
  congruence.
Qed.

Lemma init_axes pg item_init results x y z fr self :
  ResultsImage.__init__ pg item_init results x y z fr = Ok self ->
  axis_of results x = Ok (ResultsImage.xstart self, ResultsImage.xend self,
                          ResultsImage.xstep self)
  /\ axis_of results y = Ok (ResultsImage.ystart self, ResultsImage.yend self,
                             ResultsImage.ystep self)
  /\ sized self.
Proof.
  unfold ResultsImage.__init__, axis_of, sized. intros H.
  repeat step_ok H. injection H as <-. simpl.
  match goal with E : np_zeros _ _ = _ |- _ =>
    apply np_zeros_Ok in E as (Hs & Hl) end.
  repeat match goal with E : _ = Ok _ |- _ => rewrite E; clear E end.
  done.
Qed.

Lemma write_row_geometry_3d data row :
  preserves (fun w => geometry_3d (obj w)) (Results3DImage.write_row data row).
Proof.
  intros w. unfold Results3DImage.write_row, bind, gets, lift. simpl.
  destruct (row_getitem data row (Results3DImage.x (obj w))); [|done].
  destruct (row_getitem data row (Results3DImage.y (obj w))); [|done].
  destruct (row_getitem data row (Results3DImage.z (obj w))); [|done].
  destruct (Results3DImage.find_img_index _ _ _ _) as [[[xi yi] zi]|]; [|done].
  destruct (row_getitem data row (Results3DImage.var (obj w))); [|done].
  destruct (Results3DImage.var_color _ _ _ _); [|done].
  destruct (np_setitem _ _ _) as [a'|] eqn:E; [|done].
  apply np_setitem_dims in E as [E1 E2]. simpl.
  unfold geometry_3d. simpl. by rewrite E1, E2.
Qed.

Lemma update_data_geometry_3d :
  preserves (fun w => geometry_3d (obj w)) Results3DImage.update_data.
Proof.
  unfold Results3DImage.update_data, Results3DImage.redraw.
  apply preserves_bind; [|intros; apply emit_last_point_preserves_3d].
  apply preserves_bind; [apply preserves_gets|]. intros self.
  apply preserves_bind;
    [apply preserves_when, (results_reload_preserves geometry_3d)|]. intros _.
  apply preserves_bind; [apply preserves_gets|]. intros data.
  apply preserves_bind;
    [apply preserves_for_each; intros; apply write_row_geometry_3d|].
  intros _.
  apply preserves_bind; [apply preserves_gets|]. intros self'.
  apply preserves_bind; [apply preserves_lift|]. intros shown.
  apply preserves_bind; [apply preserves_lift|]. intros image.
  apply preserves_bind; [apply (call_preserves geometry_3d)|]. intros _.
  apply preserves_ret.
Qed.

Lemma init_axes_3d pg item_init results var x y z fr vol :
  Results3DImage.__init__ pg item_init results var x y z fr = Ok vol ->
  axis_of results x = Ok (Results3DImage.xstart vol, Results3DImage.xend vol,
                          Results3DImage.xstep vol)
  /\ axis_of results y = Ok (Results3DImage.ystart vol, Results3DImage.yend vol,
                             Results3DImage.ystep vol)
  /\ axis_of results z = Ok (Results3DImage.zstart vol, Results3DImage.zend vol,
                             Results3DImage.zstep vol)
  /\ sized_3d vol.
Proof.
  unfold Results3DImage.__init__, axis_of, sized_3d. intros H.
  repeat step_ok H. injection H as <-. simpl.
  match goal with E : np_zeros _ _ = _ |- _ =>
    apply np_zeros_Ok in E as (Hs & Hl) end.
  repeat match goal with E : _ = Ok _ |- _ => rewrite E; clear E end.
  done.
Qed.

Lemma sized_geometry self self' :
  geometry self' = geometry self -> sized self -> sized self'.
Proof.
  unfold geometry, sized. intros [= -> -> -> -> -> -> -> -> -> ->]. done.
Qed.

Lemma constructed_sized self : constructed self -> sized self.
Proof.
  induction 1
    as [pg item_init results x y z fr self Hinit | w _ IH | self x y z _ IH].
  - by apply init_axes in Hinit as (_ & _ & ?).
  - eapply sized_geometry; [|exact IH]. apply update_data_geometry.
  - exact IH.
Qed.

(** ** The pixel grid *)

(** C5: whatever the rounding of the float operations, the sizes of a
    [ResultsImage] (and of a [Results3DImage]) are
    [ceil((end - start) / step) + 1] as the float operations compute it
    (the difference rounded, then the quotient rounded) for the start, end
    and step the constructor reads from the procedure; the pixel array is
    built with these dimensions; and [update_data], however it ends, leaves
    the axis parameters, the sizes and the dimensions of the array as they
    were. *)
Theorem pixel_grid_fixed_size
    pg item_init results x y z force_reload (self : ResultsImage.t)
    pg' item_init' results' var' x' y' z' force_reload'
    (vol : Results3DImage.t)
    (Hinit : ResultsImage.__init__ pg item_init results x y z force_reload
             = Ok self)
    (Hinit3 : Results3DImage.__init__ pg' item_init' results' var' x' y' z'
                force_reload' = Ok vol) :
  (axis_of results x = Ok (ResultsImage.xstart self, ResultsImage.xend self,
                           ResultsImage.xstep self)
   /\ axis_of results y = Ok (ResultsImage.ystart self, ResultsImage.yend self,
                              ResultsImage.ystep self)
   /\ ResultsImage.xsize self =
        Qceiling (float_round
                    (float_round
                       (ResultsImage.xend self - ResultsImage.xstart self)
                     / ResultsImage.xstep self)) + 1
   /\ ResultsImage.ysize self =
        Qceiling (float_round
                    (float_round
                       (ResultsImage.yend self - ResultsImage.ystart self)
                     / ResultsImage.ystep self)) + 1
   /\ map Z.of_nat (shape (ResultsImage.img_data self)) =
        [ResultsImage.ysize self; ResultsImage.xsize self])
  /\ (axis_of results' x' = Ok (Results3DImage.xstart vol,
                                Results3DImage.xend vol,
                                Results3DImage.xstep vol)
      /\ axis_of results' y' = Ok (Results3DImage.ystart vol,
                                   Results3DImage.yend vol,
                                   Results3DImage.ystep vol)
      /\ axis_of results' z' = Ok (Results3DImage.zstart vol,
                                   Results3DImage.zend vol,
                                   Results3DImage.zstep vol)
      /\ Results3DImage.xsize vol =
           Qceiling (float_round
                       (float_round
                          (Results3DImage.xend vol - Results3DImage.xstart vol)
                        / Results3DImage.xstep vol)) + 1
      /\ Results3DImage.ysize vol =
           Qceiling (float_round
                       (float_round
                          (Results3DImage.yend vol - Results3DImage.ystart vol)
                        / Results3DImage.ystep vol)) + 1
      /\ Results3DImage.zsize vol =
           Qceiling (float_round
                       (float_round
                          (Results3DImage.zend vol - Results3DImage.zstart vol)
                        / Results3DImage.zstep vol)) + 1
      /\ map Z.of_nat (shape (Results3DImage.img_data vol)) =
           [Results3DImage.zsize vol; Results3DImage.ysize vol;
            Results3DImage.xsize vol])
  /\ (forall w : world ResultsImage.t,
        geometry (obj (fst (ResultsImage.update_data w))) = geometry (obj w))
  /\ (forall w : world Results3DImage.t,
        geometry_3d (obj (fst (Results3DImage.update_data w)))
        = geometry_3d (obj w)).
Proof.
  apply init_axes in Hinit as (Hx & Hy & Sx & Sy & Sh & _).
  apply init_axes_3d in Hinit3 as (Hx3 & Hy3 & Hz3 & Sx3 & Sy3 & Sz3 & Sh3 & _).
  apply axis_size_Ok in Sx as [Sx _], Sy as [Sy _].
  apply axis_size_Ok in Sx3 as [Sx3 _], Sy3 as [Sy3 _], Sz3 as [Sz3 _].
  repeat split; try assumption.
  - apply update_data_geometry.
  - apply update_data_geometry_3d.
Qed.

End Geometry.

Lemma pixel_grid_fixed_size_witness :
  ResultsImage.xsize grid_image = 3
  /\ map Z.of_nat (shape (ResultsImage.img_data grid_image)) = [2; 3]
  /\ map Z.of_nat (shape (Results3DImage.img_data grid_volume)) = [3; 2; 3].
Proof.
  pose proof (pixel_grid_fixed_size
                gray_colormap item_init_ok grid_results
                (PyStr "x") (PyStr "y") (PyStr "z") false grid_image
                gray_colormap item_init_ok grid_results
                (PyStr "v") (PyStr "x") (PyStr "y") (PyStr "z") false
                grid_volume eq_refl eq_refl)
    as ((_ & _ & Hx & _ & Hs) & (_ & _ & _ & _ & _ & _ & Hs3) & _).
  split; [exact Hx|]. split; [exact Hs | exact Hs3].
Defined.

(** ** The index stays inside the grid *)

Lemma np_index_in_range (n : nat) (i : Z) :
  0 <= i <= Z.of_nat n - 1 -> np_index n i = Ok (Z.to_nat i).
Proof.
  intros H. unfold np_index.
  destruct (0 <=? i) eqn:E1; [|lia].
  destruct (i <? Z.of_nat n) eqn:E2; [done|lia].
Qed.

(** C9: for an image the program has constructed, with [start <= end] and
    [step > 0] on both axes, [find_img_index] returns for every coordinate
    pair an index pair with [0 <= xidx <= xsize - 1] and
    [0 <= yidx <= ysize - 1], and the write [img_data[yidx, xidx, :] = ...]
    of [update_data] at this pair does not raise.  (This holds at any
    rounding of the float operations.) *)
Theorem find_img_index_in_bounds {fl : Float64}
    (self : ResultsImage.t) (x y : Q) (color : rgba)
    (Hself : constructed self)
    (Hx : (ResultsImage.xstart self <= ResultsImage.xend self)%Q)
    (Hxstep : (0 < ResultsImage.xstep self)%Q)
    (Hy : (ResultsImage.ystart self <= ResultsImage.yend self)%Q)
    (Hystep : (0 < ResultsImage.ystep self)%Q) :
  exists xidx yidx,
    ResultsImage.find_img_index self x y = Ok (xidx, yidx)
    /\ 0 <= xidx <= ResultsImage.xsize self - 1
    /\ 0 <= yidx <= ResultsImage.ysize self - 1
    /\ exists a,
         np_setitem (ResultsImage.img_data self) [yidx; xidx] color = Ok a.
Proof.
  apply constructed_sized in Hself as (Sx & Sy & Sh & _).
  destruct (axis_index_bounds _ _ _ _ x Hx Hxstep Sx) as (xi & Ex & Bx).
  destruct (axis_index_bounds _ _ _ _ y Hy Hystep Sy) as (yi & Ey & By).
  exists xi, yi. rewrite find_img_index_axes, Ex, Ey. simpl.
  repeat split; try lia.
  unfold np_setitem.
  destruct (shape (ResultsImage.img_data self)) as [|h [|w [|? ?]]];
    try discriminate Sh.
  injection Sh as Hh Hw. simpl.
  rewrite (np_index_in_range h yi) by lia. simpl.
  rewrite (np_index_in_range w xi) by lia. simpl.
  by eexists.
Qed.

Lemma find_img_index_in_bounds_witness :
  exists xidx yidx,
    ResultsImage.find_img_index grid_image (3 # 4) 7 = Ok (xidx, yidx)
    /\ 0 <= xidx <= 3 - 1
    /\ 0 <= yidx <= 2 - 1
    /\ exists a,
         np_setitem (ResultsImage.img_data grid_image) [yidx; xidx] rgba_zero
         = Ok a.
Proof.
  apply (find_img_index_in_bounds grid_image (3 # 4) 7 rgba_zero).
  - exact (constructed_init gray_colormap item_init_ok grid_results (PyStr "x") (PyStr "y")
             (PyStr "z") false grid_image eq_refl).
  - vm_compute. discriminate.
  - reflexivity.
  - vm_compute. discriminate.
  - reflexivity.
Defined.

(** ** The colours [update_data] writes *)






Section Colours.
Context {fl : Float64}.

Lemma write_row_static data zmin zmax row :
  preserves (fun w => static (obj w)) (ResultsImage.write_row data zmin zmax row).
Proof.
  intros w. unfold ResultsImage.write_row, bind, gets, lift. simpl.
  destruct (row_getitem data row (ResultsImage.x (obj w))); [|done].
  destruct (row_getitem data row (ResultsImage.y (obj w))); [|done].
  destruct (ResultsImage.find_img_index _ _ _) as [[xi yi]|]; [|done].
  destruct (row_getitem data row (ResultsImage.z (obj w))); [|done].
  destruct (np_setitem _ _ _) as [a'|] eqn:E; [|done].
  apply np_setitem_dims in E as [E1 E2]. simpl.
  unfold static, geometry. simpl. by rewrite E1, E2.
Qed.


Lemma static_inv self self' :
  static self' = static self ->
  ResultsImage.x self' = ResultsImage.x self
  /\ ResultsImage.y self' = ResultsImage.y self
  /\ ResultsImage.z self' = ResultsImage.z self
  /\ ResultsImage.cm self' = ResultsImage.cm self
  /\ geometry self' = geometry self.
Proof.
  unfold static. intros H.
  pose proof (f_equal snd H) as Hg.
  pose proof (f_equal (fun p => snd (fst (fst p))) H) as Hcm.
  pose proof (f_equal (fun p => snd (fst (fst (fst p)))) H) as Hz.
  pose proof (f_equal (fun p => snd (fst (fst (fst (fst p))))) H) as Hy.
  pose proof (f_equal (fun p => fst (fst (fst (fst (fst p))))) H) as Hx.
  done.
Qed.

Lemma static_find_img_index self self' x y :
  static self' = static self ->
  ResultsImage.find_img_index self' x y = ResultsImage.find_img_index self x y.
Proof.
  unfold static, geometry, ResultsImage.find_img_index.
  intros [= _ _ _ _ _ -> -> -> -> -> -> -> -> _ _]. done.
Qed.

Lemma row_getitem_Ok data row c v :
  row_getitem data row c = Ok v -> v = row (key_name c).
Proof. unfold row_getitem. destruct (has_column data c); congruence. Qed.


Lemma Qmin_cases x y :
  (Qmin x y = x /\ (x <= y)%Q) \/ (Qmin x y = y /\ (y <= x)%Q).
Proof.
  unfold Qmin, GenericMinMax.gmin. destruct (x ?= y)%Q eqn:E.
  - left. split; [done|]. apply Qeq_alt in E. lra.
  - left. split; [done|]. apply Qlt_alt in E. lra.
  - right. split; [done|]. apply Qgt_alt in E. lra.
Qed.

Lemma Qmax_cases x y :
  (Qmax x y = x /\ (y <= x)%Q) \/ (Qmax x y = y /\ (x <= y)%Q).
Proof.
  unfold Qmax, GenericMinMax.gmax. destruct (x ?= y)%Q eqn:E.
  - left. split; [done|]. apply Qeq_alt in E. lra.
  - right. split; [done|]. apply Qlt_alt in E. lra.
  - left. split; [done|]. apply Qgt_alt in E. lra.
Qed.

Lemma foldl_Qmin_spec (l : list Q) (acc : Q) :
  (foldl Qmin acc l = acc \/ foldl Qmin acc l ∈ l)
  /\ (foldl Qmin acc l <= acc)%Q
  /\ (forall v, v ∈ l -> (foldl Qmin acc l <= v)%Q).
Proof.
  revert acc. induction l as [|a l IH]; intros acc; simpl.
  - split; [by left|]. split; [lra|]. intros v Hv. by apply elem_of_nil in Hv.
  - destruct (IH (Qmin acc a)) as (Hin & Hle & Hall).
    setoid_rewrite elem_of_cons.
    destruct (Qmin_cases acc a) as [[E Ha]|[E Ha]]; rewrite E in *.
    + split; [tauto|]. split; [done|].
      intros v [->|Hv]; [lra|by apply Hall].
    + split; [tauto|]. split; [lra|].
      intros v [->|Hv]; [done|by apply Hall].
Qed.

Lemma foldl_Qmax_spec (l : list Q) (acc : Q) :
  (foldl Qmax acc l = acc \/ foldl Qmax acc l ∈ l)
  /\ (acc <= foldl Qmax acc l)%Q
  /\ (forall v, v ∈ l -> (v <= foldl Qmax acc l)%Q).
Proof.
  revert acc. induction l as [|a l IH]; intros acc; simpl.
  - split; [by left|]. split; [lra|]. intros v Hv. by apply elem_of_nil in Hv.
  - destruct (IH (Qmax acc a)) as (Hin & Hle & Hall).
    setoid_rewrite elem_of_cons.
    destruct (Qmax_cases acc a) as [[E Ha]|[E Ha]]; rewrite E in *.
    + split; [tauto|]. split; [done|].
      intros v [->|Hv]; [lra|by apply Hall].
    + split; [tauto|]. split; [lra|].
      intros v [->|Hv]; [done|by apply Hall].
Qed.

Lemma series_min_spec l :
  l <> [] -> exists lo, series_min l = Fin lo /\ is_min lo l.
Proof.
  destruct l as [|a l]; [done|]. intros _. simpl. eexists; split; [done|].
  destruct (foldl_Qmin_spec l a) as (Hin & Hle & Hall).
  split; setoid_rewrite elem_of_cons.
  - tauto.
  - intros v [->|Hv]; [done|by apply Hall].
Qed.

Lemma series_max_spec l :
  l <> [] -> exists hi, series_max l = Fin hi /\ is_max hi l.
Proof.
  destruct l as [|a l]; [done|]. intros _. simpl. eexists; split; [done|].
  destruct (foldl_Qmax_spec l a) as (Hin & Hle & Hall).
  split; setoid_rewrite elem_of_cons.
  - tauto.
  - intros v [->|Hv]; [done|by apply Hall].
Qed.


Lemma when_reload (w : world ResultsImage.t) :
  when (ResultsImage.force_reload (obj w)) results_reload w
  = (after_reload w, Ok tt).
Proof.
  unfold after_reload. by destruct (ResultsImage.force_reload (obj w)).
Qed.

Lemma after_reload_obj w : obj (after_reload w) = obj w.
Proof.
  unfold after_reload. by destruct (ResultsImage.force_reload (obj w)).
Qed.




End Colours.


(** ** The final emit path *)

Lemma emit_last_point_run data (w : world ResultsImage.t) :
  ResultsImage.emit_last_point data w =
  (mk_world (obj w) (results w)
     (trace w ++ final_point_calls data (ResultsImage.x (obj w))
                   (ResultsImage.y (obj w))),
   Ok tt).
Proof.
  unfold ResultsImage.emit_last_point, final_point_calls, read_last_point.
  unfold try_except, bind, gets, lift, call, modify. simpl.
  destruct (df_getitem data (ResultsImage.x (obj w))) as [xs|]; simpl;
    [|by rewrite <- app_assoc].
  destruct (np_last xs); simpl; [|by rewrite <- app_assoc].
  destruct (df_getitem data (ResultsImage.y (obj w))) as [ys|]; simpl;
    [|by rewrite <- app_assoc].
  destruct (np_last ys); simpl; [done|by rewrite <- app_assoc].
Qed.

Lemma emit_last_point_run_3d data (w : world Results3DImage.t) :
  Results3DImage.emit_last_point data w =
  (mk_world (obj w) (results w)
     (trace w ++ final_point_calls data (Results3DImage.x (obj w))
                   (Results3DImage.y (obj w))),
   Ok tt).
Proof.
  unfold Results3DImage.emit_last_point, final_point_calls, read_last_point.
  unfold try_except, bind, gets, lift, call, modify. simpl.
  destruct (df_getitem data (Results3DImage.x (obj w))) as [xs|]; simpl;
    [|by rewrite <- app_assoc].
  destruct (np_last xs); simpl; [|by rewrite <- app_assoc].
  destruct (df_getitem data (Results3DImage.y (obj w))) as [ys|]; simpl;
    [|by rewrite <- app_assoc].
  destruct (np_last ys); simpl; [done|by rewrite <- app_assoc].
Qed.

(** C7: the [try] block that ends [ResultsImage.update_data] and
    [Results3DImage.update_data] never raises.  When reading the last
    (x, y) sample succeeds it emits [dataUpdated] with that sample; when the
    reading raises, whatever the exception, the exception is printed and
    [dataUpdated] is emitted with (0, 0).  The widget and the results
    object are not touched.  So [update_data] raises only what the part
    before the block raises.  (This holds at any rounding of the float
    operations.) *)
Theorem final_point_never_raises {fl : Float64}
    (w : world ResultsImage.t) (v : world Results3DImage.t)
    (data : DataFrame) :
  ResultsImage.emit_last_point data w =
    (mk_world (obj w) (results w)
       (trace w ++ final_point_calls data (ResultsImage.x (obj w))
                     (ResultsImage.y (obj w))),
     Ok tt)
  /\ snd (ResultsImage.update_data w) = outcome_of (snd (ResultsImage.redraw w))
  /\ Results3DImage.emit_last_point data v =
       (mk_world (obj v) (results v)
          (trace v ++ final_point_calls data (Results3DImage.x (obj v))
                        (Results3DImage.y (obj v))),
        Ok tt)
  /\ snd (Results3DImage.update_data v)
     = outcome_of (snd (Results3DImage.redraw v)).
Proof.
  split; [apply emit_last_point_run|].
  split.
  { unfold ResultsImage.update_data, bind.
    destruct (ResultsImage.redraw w) as [w' [d|e]]; simpl; [|done].
    by rewrite emit_last_point_run. }
  split; [apply emit_last_point_run_3d|].
  unfold Results3DImage.update_data, bind.
  destruct (Results3DImage.redraw v) as [v' [d|e]]; simpl; [|done].
  by rewrite emit_last_point_run_3d.
Qed.

(** On a snapshot without rows the reading raises [IndexError]; it is
    printed and the zero coordinate is emitted.  The image shown is the
    2 x 3 pixel array transposed. *)
Example final_point_empty_snapshot :
  ResultsImage.update_data (mk_world grid_image grid_results []) =
  (mk_world grid_image grid_results
     [EvSetImage (mk_ndarray [3; 2]%nat (replicate 6 rgba_zero));
      EvPrint IndexError; EvDataUpdated 0 0],
   Ok tt).
Proof. reflexivity. Qed.

Example final_point_last_sample :
  snd (ResultsImage.update_data grid_world) = Ok tt
  /\ last (trace (fst (ResultsImage.update_data grid_world)))
     = Some (EvDataUpdated (3 # 4) 1).
Proof. split; reflexivity. Qed.

(** ** [ResultsCurve.update_data] *)

Lemma curve_update_run (w : world ResultsCurve.t) :
  let self := obj w in
  let w' := fst (ResultsCurve.update_data w) in
  let d := data (results w') in
  obj w' = self
  /\ results w' =
       (if ResultsCurve.force_reload self then reload (results w)
        else results w)
  /\ trace w' =
       (trace w
        ++ (if ResultsCurve.force_reload self then [EvReload] else [])
        ++ (if has_column d (ResultsCurve.x self)
               && has_column d (ResultsCurve.y self)
            then [EvSetData (column d (ResultsCurve.x self))
                            (column d (ResultsCurve.y self))]
            else []))%list
  /\ snd (ResultsCurve.update_data w) =
       (if has_column d (ResultsCurve.x self) then
          if has_column d (ResultsCurve.y self) then Ok tt
          else Raise (KeyError (key_name (ResultsCurve.y self)))
        else Raise (KeyError (key_name (ResultsCurve.x self)))).
Proof.
  unfold ResultsCurve.update_data, bind, gets, lift, call, modify, when,
    results_reload, ret, df_getitem, column.
  destruct w as [self res tr]. cbn.
  destruct (ResultsCurve.force_reload self); cbn;
    (destruct (has_column _ (ResultsCurve.x self)) eqn:Ex; cbn;
     rewrite ?Ex; cbn;
     [destruct (has_column _ (ResultsCurve.y self)) eqn:Ey; cbn;
      rewrite ?Ex, ?Ey; cbn|]);
    rewrite ?app_nil_r, <- ?app_assoc; done.
Qed.

(** C8: [ResultsCurve.update_data] calls [results.reload()] exactly when
    the curve has [force_reload] set, and otherwise leaves the results
    object as it is; it then sets the data of the curve to the whole x and
    y columns of the current snapshot in one [setData] call, whatever the
    curve showed before.  (When a column is missing the [KeyError] of the
    lookup leaves the body before [setData].) *)
Theorem update_data_sets_full_columns (w : world ResultsCurve.t) :
  let self := obj w in
  let w' := fst (ResultsCurve.update_data w) in
  let d := data (results w') in
  obj w' = self
  /\ results w' =
       (if ResultsCurve.force_reload self then reload (results w)
        else results w)
  /\ trace w' =
       (trace w
        ++ (if ResultsCurve.force_reload self then [EvReload] else [])
        ++ (if has_column d (ResultsCurve.x self)
               && has_column d (ResultsCurve.y self)
            then [EvSetData (column d (ResultsCurve.x self))
                            (column d (ResultsCurve.y self))]
            else []))%list
  /\ snd (ResultsCurve.update_data w) =
       (if has_column d (ResultsCurve.x self) then
          if has_column d (ResultsCurve.y self) then Ok tt
          else Raise (KeyError (key_name (ResultsCurve.y self)))
        else Raise (KeyError (key_name (ResultsCurve.x self)))).
Proof. apply curve_update_run. Qed.



(** Without [force_reload] the curve shows the three rows it holds; with
    it, the four rows the reload reads back. *)
Example update_data_no_reload :
  ResultsCurve.update_data (curve_world (PyStr "x") (PyStr "y") false) =
  (mk_world (ResultsCurve.__init__ (PyStr "x") (PyStr "y") false)
     (mk_results (fun _ => None) three_rows four_rows)
     [EvSetData [0; 1; 2]%Q [0; 2; 4]%Q],
   Ok tt).
Proof. reflexivity. Qed.

Example update_data_reload :
  ResultsCurve.update_data (curve_world (PyStr "x") (PyStr "y") true) =
  (mk_world (ResultsCurve.__init__ (PyStr "x") (PyStr "y") true)
     (mk_results (fun _ => None) four_rows four_rows)
     [EvReload; EvSetData [0; 1; 2; 3]%Q [0; 2; 4; 6]%Q],
   Ok tt).
Proof. reflexivity. Qed.

(** ** Axes that name no column *)

Lemma update_data_missing_x (w : world ResultsCurve.t) :
  has_column (data (results (fst (ResultsCurve.update_data w))))
    (ResultsCurve.x (obj w)) = false ->
  ResultsCurve.update_data w =
  (mk_world (obj w)
     (if ResultsCurve.force_reload (obj w) then reload (results w)
      else results w)
     (trace w ++ (if ResultsCurve.force_reload (obj w) then [EvReload]
                  else [])),
   Raise (KeyError (key_name (ResultsCurve.x (obj w))))).
Proof.
  intros Hx.
  destruct (curve_update_run w) as (Hobj & Hres & Htr & Hout).
  rewrite Hx in Htr, Hout. simpl in Htr.
  destruct (ResultsCurve.update_data w) as [w' r]. simpl in *.
  destruct w' as [o' r' t']. simpl in *.
  rewrite app_nil_r in Htr. clear Hx. by subst.
Qed.

Lemma parse_axis_total rs rsub axis :
  exists label units, PlotFrame.parse_axis rs rsub axis = Ok (label, units).
Proof.
  unfold PlotFrame.parse_axis. destruct axis as [|s]; simpl.
  - by eexists _, _.
  - destruct (rs s); by eexists _, _.
Qed.

(** C2 (as amended): a curve whose x axis names a column that is not in
    the snapshot makes [ResultsCurve.update_data] raise the [KeyError] of
    the lookup, after the reload if one is forced and without any
    [setData]; [PlotFrame.change_x_axis] on a plot holding the curve lets
    this exception through and keeps its axis and its labels.  What does
    not raise is [PlotFrame.parse_axis]: it returns a label for every axis,
    [(None, None)] for [None]; and changing the axis of a plot without
    curves succeeds for every column name, in the snapshot or not. *)
Theorem missing_column_raises
    (re_search_units : string -> option string)
    (re_sub_units : string -> string)
    (w : world ResultsCurve.t) (rest : list (world ResultsCurve.t))
    (x_axis y_axis : pyobj) (calls : list PlotFrame.frame_event)
    (Hmissing :
       has_column (data (results (fst (ResultsCurve.update_data w))))
         (ResultsCurve.x (obj w)) = false) :
  let missing := key_name (ResultsCurve.x (obj w)) in
  let w' := fst (ResultsCurve.update_data w) in
  snd (ResultsCurve.update_data w) = Raise (KeyError missing)
  /\ trace w' =
       (trace w ++ (if ResultsCurve.force_reload (obj w) then [EvReload]
                    else []))%list
  /\ PlotFrame.change_x_axis re_search_units re_sub_units
       (ResultsCurve.x (obj w))
       (PlotFrame.mk (w :: rest) x_axis y_axis calls)
     = (PlotFrame.mk (w' :: rest) x_axis y_axis calls,
        Raise (KeyError missing))
  /\ (forall axis, exists label units,
        PlotFrame.parse_axis re_search_units re_sub_units axis
        = Ok (label, units))
  /\ PlotFrame.parse_axis re_search_units re_sub_units PyNone
     = Ok (PyNone, None)
  /\ (forall name,
        snd (PlotFrame.change_x_axis re_search_units re_sub_units
               (PyStr name) (PlotFrame.mk [] x_axis y_axis calls)) = Ok tt).
Proof.
  intros missing w'. subst missing w'.
  rewrite (update_data_missing_x w Hmissing). simpl.
  split; [done|]. split; [done|]. split.
  { unfold PlotFrame.change_x_axis. simpl.
    assert (mk_world
              (ResultsCurve.mk (ResultsCurve.x (obj w))
                 (ResultsCurve.y (obj w)) (ResultsCurve.force_reload (obj w)))
              (results w) (trace w) = w) as ->
      by (by destruct w as [[] ? ?]).
    by rewrite (update_data_missing_x w Hmissing). }
  split; [apply parse_axis_total|]. split; [done|].
  intros name. unfold PlotFrame.change_x_axis, PlotFrame.parse_axis. simpl.
  by destruct (re_search_units name).
Qed.

Lemma missing_column_raises_witness :
  snd (ResultsCurve.update_data
         (curve_world (PyStr "voltage") (PyStr "y") false))
  = Raise (KeyError "voltage")
  /\ PlotFrame.change_x_axis no_units_search no_units_sub (PyStr "voltage")
       (PlotFrame.mk [curve_world (PyStr "voltage") (PyStr "y") false]
          PyNone PyNone [])
     = (PlotFrame.mk [curve_world (PyStr "voltage") (PyStr "y") false]
          PyNone PyNone [],
        Raise (KeyError "voltage")).
Proof.
  pose proof (missing_column_raises no_units_search no_units_sub
                (curve_world (PyStr "voltage") (PyStr "y") false) []
                PyNone PyNone [] eq_refl) as (Hraise & _ & Hframe & _).
  split; [exact Hraise | exact Hframe].
Defined.

(** C2 as stated fails: the snapshot has the columns x, y and z; a curve
    bound to the column "voltage", which it does not have, makes
    [update_data] raise [KeyError], and nothing between the curve and the
    timer of the frame catches it. *)
Lemma update_data_unknown_column :
  has_column three_rows (PyStr "voltage") = false
  /\ ResultsCurve.update_data
       (curve_world (PyStr "voltage") (PyStr "y") false)
     = (curve_world (PyStr "voltage") (PyStr "y") false,
        Raise (KeyError "voltage"))
  /\ snd (PlotFrame.change_x_axis no_units_search no_units_sub
            (PyStr "voltage")
            (PlotFrame.mk [curve_world (PyStr "x") (PyStr "y") false]
               (PyStr "x") (PyStr "y") []))
     = Raise (KeyError "voltage").
Proof. repeat split. Qed.

(** ** [BufferCurve] *)

Lemma prepare_ptr_in_bounds np_empty_row size dtype s :
  ptr_in_bounds (fst s) ->
  ptr_in_bounds (fst (fst (BufferCurve.prepare np_empty_row size dtype s))).
Proof.
  intros H. unfold BufferCurve.prepare, BufferCurve.np_empty, bind, lift,
    modify.
  destruct (size <? 0) eqn:E; simpl; [done|].
  destruct s as [self tr]. unfold ptr_in_bounds. simpl.
  rewrite length_map, length_seq. lia.
Qed.

Lemma append_run x y s :
  ptr_in_bounds (fst s) -> append_outcome x y s.
Proof.
  destruct s as [[buf ptr] tr]. unfold ptr_in_bounds, append_outcome. simpl.
  destruct buf as [[cast rows]|], ptr as [ptr|]; try done.
  intros Hptr. unfold BufferCurve.append, bind, gets, lift, modify, raise.
  simpl.
  destruct (Z.of_nat (length rows) <=? ptr) eqn:E; [done|].
  apply Z.leb_gt in E.
  rewrite (np_index_in_range (length rows) ptr) by lia. simpl.
  assert (Z.to_nat ptr < length rows)%nat as Hlt by lia.
  repeat split.
  - by rewrite <- app_assoc.
  - by apply list_lookup_insert_eq.
  - by rewrite take_insert_ge.
  - rewrite length_take, length_insert. lia.
Qed.

Lemma append_ptr_in_bounds x y s :
  ptr_in_bounds (fst s) ->
  ptr_in_bounds (fst (fst (BufferCurve.append x y s))).
Proof.
  intros H. pose proof (append_run x y s H) as Hrun.
  unfold append_outcome in Hrun. unfold ptr_in_bounds in H.
  destruct (BufferCurve._buffer (fst s)) as [buf|] eqn:Eb.
  - destruct (BufferCurve._ptr (fst s)) as [ptr|] eqn:Ep; [|done].
    cbv zeta in Hrun.
    destruct (Z.of_nat (length (BufferCurve.buffer_rows buf)) <=? ptr) eqn:E.
    + rewrite Hrun. simpl. unfold ptr_in_bounds. by rewrite Eb, Ep.
    + destruct Hrun as (-> & _). unfold ptr_in_bounds. simpl.
      apply Z.leb_gt in E. rewrite length_insert. lia.
  - rewrite Hrun. simpl. unfold ptr_in_bounds. by rewrite Eb.
Qed.

Lemma run_ops_ptr_in_bounds np_empty_row ops s :
  ptr_in_bounds (fst s) -> ptr_in_bounds (fst (run_ops np_empty_row ops s)).
Proof.
  revert s. induction ops as [|op ops IH]; intros s H; simpl; [done|].
  apply IH. destruct op; simpl.
  - by apply prepare_ptr_in_bounds.
  - by apply append_ptr_in_bounds.
Qed.

(** C10: in every state a [BufferCurve] reaches from its construction by
    [prepare] and [append] calls, the pointer, once there is one, lies
    between 0 and the size of the buffer; and an [append] in such a state
    - raises and leaves the curve as it is when the buffer has not been
      prepared or is full,
    - otherwise stores the point at the pointer, converted to the element
      type of the buffer, shows the rows before the pointer, which are the
      rows that were there before and do not include the new point, and
      moves the pointer on by one. *)
Theorem append_keeps_pointer_in_bounds
    (np_empty_row : nat -> Q * Q) (ops : list buffer_op) (x y : Q) :
  let s := run_ops np_empty_row ops (BufferCurve.__init__, []) in
  ptr_in_bounds (fst s) /\ append_outcome x y s.
Proof.
  intros s.
  assert (ptr_in_bounds (fst s)) as H
    by (by apply run_ops_ptr_in_bounds).
  split; [exact H|]. by apply append_run.
Qed.

Example append_before_prepare :
  BufferCurve.append 1 2 (BufferCurve.__init__, []) =
  ((BufferCurve.__init__, []),
   Raise (Exception "BufferCurve buffer must be prepared")).
Proof. reflexivity. Qed.

(** Two appends into a buffer of two rows: the first shows nothing, the
    second shows the first point only; a third overflows. *)
Example append_twice :
  run_ops zero_rows [Prepare 2 float64; Append 1 2; Append 3 4]
    (BufferCurve.__init__, []) =
  (BufferCurve.mk (Some (BufferCurve.mk_buffer float64 [(1, 2); (3, 4)]%Q))
     (Some 2),
   [EvSetPoints []; EvBufferUpdated;
    EvSetPoints [(1, 2)%Q]; EvBufferUpdated]).
Proof. reflexivity. Qed.

Example append_overflow :
  snd (BufferCurve.append 5 6
         (run_ops zero_rows [Prepare 2 float64; Append 1 2; Append 3 4]
            (BufferCurve.__init__, [])))
  = Raise (Exception "BufferCurve overflow").
Proof. reflexivity. Qed.

(** ** Instrument properties *)

Lemma validate_total k v vs :
  validate k v vs = Ok v \/ exists e, validate k v vs = Raise e.
Proof.
  unfold validate. destruct k.
  - destruct (py_in v vs); [by left|right; by eexists].
  - destruct (as_number v) as [q|]; [|right; by eexists].
    destruct (bounds vs) as [[lo hi]|]; [|right; by eexists].
    destruct (Qle_bool lo q && Qle_bool q hi); [by left|right; by eexists].
Qed.

Lemma accepts_or_rejects p v : accepts p v \/ rejects p v.
Proof. apply validate_total. Qed.

Lemma accepts_not_rejects p v : accepts p v -> ~ rejects p v.
Proof. unfold accepts, rejects. intros -> [e He]. discriminate. Qed.

Lemma in_range_spec start stop v :
  in_range start stop v = true <->
  exists q n, as_number v = Some q /\ (q == inject_Z n)%Q /\ start <= n < stop.
Proof.
  unfold in_range. destruct (as_number v) as [q|]; split.
  - rewrite !andb_true_iff, Qeq_bool_iff, Z.leb_le, Z.ltb_lt.
    intros [[Hq Hlo] Hhi]. exists q, (Qfloor q).
    split; [done|]. split; [by symmetry|lia].
  - intros (q' & n & [= <-] & Hq & Hn).
    assert (Qfloor q = n) as -> by (by rewrite Hq, Qfloor_Z).
    rewrite !andb_true_iff, Qeq_bool_iff, Z.leb_le, Z.ltb_lt.
    split; [split|]; [by symmetry|lia|lia].
  - done.
  - by intros (q & n & [=] & _).
Qed.

Lemma existsb_elem_of {A} (f : A -> bool) (l : list A) :
  existsb f l = true <-> exists a, a ∈ l /\ f a = true.
Proof.
  rewrite existsb_exists. by setoid_rewrite list_elem_of_In.
Qed.

Lemma accepts_set_iff p v :
  validator p = strict_discrete_set -> (accepts p v <-> in_values p v).
Proof.
  intros Hk. unfold accepts, in_values, validate. rewrite Hk.
  assert (forall b : bool,
            (if b then Ok v else Raise ValueError) = Ok v <-> b = true) as Hb
    by (intros []; split; done).
  rewrite Hb. destruct (values p) as [start stop|l|l|members]; simpl.
  - apply in_range_spec.
  - apply existsb_elem_of.
  - apply (existsb_elem_of (fun kv => py_eq v (fst kv))).
  - destruct v as [q|b|s|name value]; try (split; [done|]);
      try (by intros (n & z & [=] & _)).
    rewrite existsb_elem_of. split.
    + intros ([n z] & Hin & Hn). apply bool_decide_eq_true in Hn.
      simpl in Hn. subst n. exists name, value. split; [done|].
      apply list_elem_of_fmap. by exists (name, z).
    + intros (n & z' & [= <- <-] & Hin).
      apply list_elem_of_fmap in Hin as ([n z] & -> & Hin).
      exists (n, z). split; [done|]. by apply bool_decide_eq_true.
Qed.

Lemma accepts_range_iff p v :
  validator p = strict_range -> (accepts p v <-> in_values p v).
Proof.
  intros Hk. unfold accepts, in_values, validate, bounds. rewrite Hk.
  destruct (values p) as [start stop|l|l|members];
    try (destruct (as_number v); split; done).
  destruct l as [|a [|b [|c l]]]; try (destruct (as_number v); split; done).
  destruct (as_number v) as [q|]; [|split; [done|]; by intros (?&?&?&[=]&_)].
  destruct (as_number a) as [lo|];
    [|split; [done|]; by intros (?&?&?&_&[=]&_)].
  destruct (as_number b) as [hi|];
    [|split; [done|]; by intros (?&?&?&_&_&[=]&_)].
  destruct (Qle_bool (Qmin lo hi) q && Qle_bool q (Qmax lo hi)) eqn:E.
  - apply andb_true_iff in E as [E1 E2]. apply Qle_bool_iff in E1, E2.
    split; [|done]. intros _. by exists q, lo, hi.
  - split; [done|]. intros (q' & lo' & hi' & [= <-] & [= <-] & [= <-] & H1 & H2).
    apply Qle_bool_iff in H1, H2. rewrite H1, H2 in E. done.
Qed.

Lemma accepts_iff p v : accepts p v <-> in_values p v.
Proof.
  destruct (validator p) eqn:Hk.
  - by apply accepts_set_iff.
  - by apply accepts_range_iff.
Qed.

Lemma rejects_iff p v : rejects p v <-> ~ in_values p v.
Proof.
  rewrite <- accepts_iff. split.
  - intros Hr Ha. by apply (accepts_not_rejects p v).
  - intros Hn. by destruct (accepts_or_rejects p v).
Qed.

Lemma accepts_integers p start stop v :
  validator p = strict_discrete_set -> values p = Range start stop ->
  accepts p v <->
  exists q n, as_number v = Some q /\ (q == inject_Z n)%Q /\ start <= n < stop.
Proof.
  intros Hk Hv. rewrite accepts_iff. unfold in_values. by rewrite Hk, Hv.
Qed.

Lemma accepts_interval p (lo hi : Q) v :
  validator p = strict_range -> values p = Seq [PNum lo; PNum hi] ->
  (lo <= hi)%Q ->
  accepts p v <-> exists q, as_number v = Some q /\ (lo <= q <= hi)%Q.
Proof.
  intros Hk Hv Hle. rewrite accepts_iff. unfold in_values.
  rewrite Hk, Hv. simpl.
  assert (Qmin lo hi == lo)%Q as Hmin by (by apply Q.min_l).
  assert (Qmax lo hi == hi)%Q as Hmax by (by apply Q.max_r).
  split.
  - intros (q & lo' & hi' & Hq & [= <-] & [= <-] & H). exists q.
    split; [done|]. rewrite Hmin, Hmax in H. exact H.
  - intros (q & Hq & H). exists q, lo, hi.
    split; [done|]. split; [done|]. split; [done|].
    rewrite Hmin, Hmax. exact H.
Qed.

(** C4: the validator of a property accepts a value exactly when the value
    is one of the [values] of the property, and raises on every other
    value.  So [TF930.threshold_ac] accepts exactly the numbers equal to an
    integer from -60 to 60 and [TF930.threshold_dc] those from -300 to
    2100; [Keithley6482Chnanel.voltage] accepts exactly the numbers of the
    interval [-30, 30] and [speed_accuracy] those of [0.01, 10]. *)
Theorem validators_accept_exactly_the_values (p : property) (v : pyval) :
  (accepts p v <-> in_values p v)
  /\ (rejects p v <-> ~ in_values p v)
  /\ (accepts TF930.threshold_ac v <->
      exists q n, as_number v = Some q /\ (q == inject_Z n)%Q
                  /\ -60 <= n <= 60)
  /\ (accepts TF930.threshold_dc v <->
      exists q n, as_number v = Some q /\ (q == inject_Z n)%Q
                  /\ -300 <= n <= 2100)
  /\ (accepts Keithley6482Chnanel.voltage v <->
      exists q, as_number v = Some q /\ (-30 <= q <= 30)%Q)
  /\ (accepts Keithley6482Chnanel.speed_accuracy v <->
      exists q, as_number v = Some q /\ (1 # 100 <= q <= 10)%Q).
Proof.
  split; [apply accepts_iff|]. split; [apply rejects_iff|].
  split; [|split; [|split]].
  - rewrite (accepts_integers _ (-60) 61) by done.
    do 2 (apply exist_proper; intros ?). intuition lia.
  - rewrite (accepts_integers _ (-300) 2101) by done.
    do 2 (apply exist_proper; intros ?). intuition lia.
  - by apply (accepts_interval _ (-30) 30).
  - by apply (accepts_interval _ (1 # 100) 10).
Qed.

Example threshold_ac_values :
  accepts TF930.threshold_ac (PNum 60)
  /\ accepts TF930.threshold_ac (PNum (-60))
  /\ rejects TF930.threshold_ac (PNum 61)
  /\ rejects TF930.threshold_ac (PNum (1 # 2))
  /\ rejects TF930.threshold_ac (PStr_ "10").
Proof. repeat split; by (reflexivity || eexists). Qed.

Example voltage_values :
  accepts Keithley6482Chnanel.voltage (PNum 30)
  /\ accepts Keithley6482Chnanel.voltage (PNum (- (59 # 2)))
  /\ rejects Keithley6482Chnanel.voltage (PNum (301 # 10)).
Proof. repeat split; by (reflexivity || eexists). Qed.

(** C3: when the validator of a property raises on a value, setting the
    property to the value raises the same exception and the adapter has
    been written nothing: the commands sent are the ones sent before. *)
Theorem invalid_value_sends_nothing
    (p : property) (value : pyval) (sent : adapter) (e : exn)
    (Hinvalid : validate (validator p) value (values p) = Raise e) :
  fset p value sent = (sent, Raise e).
Proof.
  unfold fset, bind, lift. by rewrite Hinvalid.
Qed.

Lemma invalid_value_sends_nothing_witness :
  fset TF930.threshold_ac (PNum 61) [("TO%i", PNum 5)]
  = ([("TO%i", PNum 5)], Raise ValueError)
  /\ fset Keithley6482Chnanel.voltage (PNum 31) [] = ([], Raise ValueError).
Proof.
  split.
  - apply (invalid_value_sends_nothing TF930.threshold_ac (PNum 61)
             [("TO%i", PNum 5)] ValueError).
    reflexivity.
  - apply (invalid_value_sends_nothing Keithley6482Chnanel.voltage (PNum 31)
             [] ValueError).
    reflexivity.
Defined.

(** A valid value is written once. *)
Example threshold_ac_set :
  fset TF930.threshold_ac (PNum 5) [] = ([("TO%i", PNum 5)], Ok tt).
Proof. reflexivity. Qed.

(** * Further properties of the code *)

(** ** [round_up] *)

(** X1: on a non-negative number [round_up] returns the nearest integer,
    the upper one when the number lies half way between two integers. *)
Theorem round_up_nearest (x : Q) (Hx : (0 <= x)%Q) :
  (x - (1 # 2) < inject_Z (round_up x))%Q
  /\ (inject_Z (round_up x) <= x + (1 # 2))%Q.
Proof.
  rewrite (round_up_nonneg x Hx).
  pose proof (Qfloor_le (x + (1 # 2))) as Hlo.
  pose proof (Qlt_floor (x + (1 # 2))) as Hhi.
  rewrite inject_Z_plus in Hhi. change (inject_Z 1) with 1%Q in Hhi.
  split; lra.
Qed.

Lemma round_up_nearest_witness :
  ((5 # 2) - (1 # 2) < inject_Z (round_up (5 # 2)))%Q
  /\ (inject_Z (round_up (5 # 2)) <= (5 # 2) + (1 # 2))%Q.
Proof.
  apply (round_up_nearest (5 # 2)). vm_compute. discriminate.
Defined.

Lemma py_int_neg x : (x < 0)%Q -> py_int x = Qceiling x.
Proof.
  intros H. unfold py_int. destruct (Qle_bool 0 x) eqn:E; [|done].
  apply Qle_bool_iff in E. lra.
Qed.

(** X2: on a negative number [round_up] never rounds down: the result is
    at least the number itself, and it is the integer above the ceiling
    when the fraction counted from the floor is .5 or more, so that
    [round_up(-0.5)] is 1. *)
Theorem round_up_negative (x : Q) (Hx : (x < 0)%Q) :
  (x <= inject_Z (round_up x))%Q
  /\ ((1 # 2 <= x - inject_Z (Qfloor x))%Q -> round_up x = Qceiling x + 1)
  /\ ((x - inject_Z (Qfloor x) < 1 # 2)%Q -> round_up x = Qceiling x).
Proof.
  unfold round_up. rewrite (py_int_neg x Hx). unfold py_mod1.
  pose proof (Qle_ceiling x) as Hc.
  destruct (Qle_bool _ _) eqn:E.
  - apply Qle_bool_iff in E. split; [|split; [done|intros; lra]].
    rewrite inject_Z_plus. change (inject_Z 1) with 1%Q. lra.
  - assert (~ (1 # 2 <= x - inject_Z (Qfloor x))%Q) as E'
      by (rewrite <- Qle_bool_iff; congruence).
    split; [done|]. split; [intros; lra|done].
Qed.

Lemma round_up_negative_witness :
  (- (1 # 2) <= inject_Z (round_up (- (1 # 2))))%Q
  /\ round_up (- (1 # 2)) = 1.
Proof.
  pose proof (round_up_negative (- (1 # 2)) ltac:(reflexivity))
    as (Hle & Hup & _).
  split; [exact Hle|]. apply Hup. vm_compute. discriminate.
Defined.

(** ** [find_img_index] on the grid *)




Lemma axis_index_monotone {fl : Float64} start stop step size v v' idx idx' :
  (0 < step)%Q ->
  between start v stop = true -> between start v' stop = true ->
  (v <= v')%Q ->
  axis_index start stop step size v = Ok idx ->
  axis_index start stop step size v' = Ok idx' ->
  idx <= idx'.
Proof.
  intros Hstep B B' Hle. unfold axis_index. rewrite B, B'.
  rewrite !py_div_pos by done. unfold py_sub. simpl. intros [= <-] [= <-].
  apply between_spec in B, B'.
  rewrite !round_up_nonneg
    by (apply float_round_nonneg, Qdiv_nonneg;
        [apply float_round_nonneg; lra|done]).
  apply Qfloor_resp_le.
  assert (float_round (float_round (v - start) / step)
          <= float_round (float_round (v' - start) / step))%Q
    by (apply float_round_le, Qdiv_le_mono; [apply float_round_le; lra|done]).
  lra.
Qed.

(** X4: with positive steps the index mapping is monotone inside the
    range: of two coordinate pairs within [start, end] on both axes, the
    one with the larger x gets an x index at least as large, and the same
    for y.  (This holds at any rounding of the float operations.) *)
Theorem find_img_index_monotone {fl : Float64} (self : ResultsImage.t)
    (x y x' y' : Q) (xi yi xi' yi' : Z)
    (Hxstep : (0 < ResultsImage.xstep self)%Q)
    (Hystep : (0 < ResultsImage.ystep self)%Q)
    (Bx : between (ResultsImage.xstart self) x (ResultsImage.xend self) = true)
    (Bx' : between (ResultsImage.xstart self) x' (ResultsImage.xend self) = true)
    (By : between (ResultsImage.ystart self) y (ResultsImage.yend self) = true)
    (By' : between (ResultsImage.ystart self) y' (ResultsImage.yend self) = true)
    (Hx : (x <= x')%Q) (Hy : (y <= y')%Q)
    (Hidx : ResultsImage.find_img_index self x y = Ok (xi, yi))
    (Hidx' : ResultsImage.find_img_index self x' y' = Ok (xi', yi')) :
  xi <= xi' /\ yi <= yi'.
Proof.
  rewrite find_img_index_axes in Hidx, Hidx'.
  destruct (axis_index _ _ _ _ x) as [a|] eqn:Ea; [|done].
  destruct (axis_index _ _ _ _ y) as [b|] eqn:Eb; [|done].
  destruct (axis_index _ _ _ _ x') as [a'|] eqn:Ea'; [|done].
  destruct (axis_index _ _ _ _ y') as [b'|] eqn:Eb'; [|done].
  simpl in *. injection Hidx as <- <-. injection Hidx' as <- <-.
  split.
  - exact (axis_index_monotone _ _ _ _ x x' _ _ Hxstep Bx Bx' Hx Ea Ea').
  - exact (axis_index_monotone _ _ _ _ y y' _ _ Hystep By By' Hy Eb Eb').
Qed.

Lemma find_img_index_monotone_witness : 0 <= 2 /\ 0 <= 1.
Proof.
  apply (find_img_index_monotone grid_image (1 # 5) 0 (3 # 4) 1 0 0 2 1);
    first [reflexivity | (vm_compute; discriminate)].
Defined.

(** ** The index of a volume stays inside the grid *)

Lemma sized_3d_geometry {fl : Float64} vol vol' :
  geometry_3d vol' = geometry_3d vol -> sized_3d vol -> sized_3d vol'.
Proof.
  unfold geometry_3d, sized_3d.
  intros [= -> -> -> -> -> -> -> -> -> -> -> -> -> ->]. done.
Qed.

Lemma constructed_3d_sized {fl : Float64} vol :
  constructed_3d vol -> sized_3d vol.
Proof.
  induction 1 as [pg item_init results var x y z fr vol Hinit | w _ IH
                 | vol var x y z shown _ IH].
  - by apply init_axes_3d in Hinit as (_ & _ & _ & ?).
  - eapply sized_3d_geometry; [|exact IH]. apply update_data_geometry_3d.
  - exact IH.
Qed.

(** X5: for a volume the program has constructed, with [start <= end] and
    [step > 0] on the three axes, [Results3DImage.find_img_index] returns
    for every coordinate triple indices within [0, size - 1] on each axis,
    and the write [img_data[zidx, yidx, xidx, :] = ...] at them does not
    raise.  (This holds at any rounding of the float operations.) *)
Theorem find_img_index_3d_in_bounds {fl : Float64}
    (vol : Results3DImage.t) (x y z : Q) (color : rgba)
    (Hvol : constructed_3d vol)
    (Hx : (Results3DImage.xstart vol <= Results3DImage.xend vol)%Q)
    (Hxstep : (0 < Results3DImage.xstep vol)%Q)
    (Hy : (Results3DImage.ystart vol <= Results3DImage.yend vol)%Q)
    (Hystep : (0 < Results3DImage.ystep vol)%Q)
    (Hz : (Results3DImage.zstart vol <= Results3DImage.zend vol)%Q)
    (Hzstep : (0 < Results3DImage.zstep vol)%Q) :
  exists xidx yidx zidx,
    Results3DImage.find_img_index vol x y z = Ok (xidx, yidx, zidx)
    /\ 0 <= xidx <= Results3DImage.xsize vol - 1
    /\ 0 <= yidx <= Results3DImage.ysize vol - 1
    /\ 0 <= zidx <= Results3DImage.zsize vol - 1
    /\ exists a,
         np_setitem (Results3DImage.img_data vol) [zidx; yidx; xidx] color
         = Ok a.
Proof.
  apply constructed_3d_sized in Hvol as (Sx & Sy & Sz & Sh & _).
  destruct (axis_index_bounds _ _ _ _ x Hx Hxstep Sx) as (xi & Ex & Bx).
  destruct (axis_index_bounds _ _ _ _ y Hy Hystep Sy) as (yi & Ey & By).
  destruct (axis_index_bounds _ _ _ _ z Hz Hzstep Sz) as (zi & Ez & Bz).
  exists xi, yi, zi. rewrite find_img_index_axes_3d, Ex, Ey, Ez. simpl.
  repeat split; try lia.
  unfold np_setitem.
  destruct (shape (Results3DImage.img_data vol)) as [|d [|h [|w [|? ?]]]];
    try discriminate Sh.
  injection Sh as Hd Hh Hw. simpl.
  rewrite (np_index_in_range d zi) by lia. simpl.
  rewrite (np_index_in_range h yi) by lia. simpl.
  rewrite (np_index_in_range w xi) by lia. simpl.
  by eexists.
Qed.

Lemma find_img_index_3d_in_bounds_witness :
  exists xidx yidx zidx,
    Results3DImage.find_img_index grid_volume (3 # 4) 7 (1 # 2)
    = Ok (xidx, yidx, zidx)
    /\ 0 <= xidx <= 3 - 1
    /\ 0 <= yidx <= 2 - 1
    /\ 0 <= zidx <= 3 - 1
    /\ exists a,
         np_setitem (Results3DImage.img_data grid_volume) [zidx; yidx; xidx]
           rgba_zero = Ok a.
Proof.
  apply (find_img_index_3d_in_bounds grid_volume (3 # 4) 7 (1 # 2) rgba_zero).
  - exact (constructed_3d_init gray_colormap item_init_ok grid_results (PyStr "v")
             (PyStr "x") (PyStr "y") (PyStr "z") false grid_volume eq_refl).
  - vm_compute. discriminate.
  - reflexivity.
  - vm_compute. discriminate.
  - reflexivity.
  - vm_compute. discriminate.
  - reflexivity.
Defined.

(** ** [ResultsImage.update_data] as a whole *)

Lemma omap_lookup_total {A B} (f : A -> option B) (l : list A) (n : nat) x y :
  (forall z, z ∈ l -> is_Some (f z)) ->
  l !! n = Some x -> f x = Some y -> omap f l !! n = Some y.
Proof.
  revert n. induction l as [|z l IH]; intros n Hall Hn Hx; [done|].
  simpl. destruct (Hall z ltac:(by left)) as [b Hb]. rewrite Hb.
  destruct n as [|n]; simpl in *.
  - congruence.
  - apply IH; [|done|done]. intros z' Hz'. apply Hall. by right.
Qed.

Lemma np_offset_2d (h w : nat) (y x : Z) :
  0 <= y <= Z.of_nat h - 1 -> 0 <= x <= Z.of_nat w - 1 ->
  np_offset [h; w] [y; x] = Ok (Z.to_nat y * (w * 1) + (Z.to_nat x * 1 + 0))%nat.
Proof.
  intros Hy Hx. simpl.
  rewrite (np_index_in_range h y) by lia. simpl.
  by rewrite (np_index_in_range w x) by lia.
Qed.

Lemma np_transpose_2d {A} (a : ndarray A) (h w : Z) :
  map Z.of_nat (shape a) = [h; w] ->
  length (cells a) = prod_dims (shape a) ->
  exists image,
    np_transpose a = Ok image
    /\ map Z.of_nat (shape image) = [w; h]
    /\ forall i j : nat,
         Z.of_nat i < w -> Z.of_nat j < h ->
         np_getitem image [Z.of_nat i; Z.of_nat j]
         = np_getitem a [Z.of_nat j; Z.of_nat i].
Proof.
  intros Hs Hlen. unfold np_transpose.
  destruct (shape a) as [|hn [|wn [|? ?]]] eqn:Es; try discriminate Hs.
  injection Hs as <- <-. eexists. split; [done|]. split; [done|].
  intros i j Hi Hj. unfold np_getitem. cbn [shape cells]. rewrite Es.
  rewrite !np_offset_2d by lia. cbn [rbind]. rewrite !Nat2Z.id.
  unfold prod_dims in Hlen. simpl in Hlen.
  assert (j * (wn * 1) + (i * 1 + 0) < length (cells a))%nat as Hlt by nia.
  destruct (lookup_lt_is_Some_2 _ _ Hlt) as [c Hc].
  rewrite Hc.
  erewrite omap_lookup_total; [done| |apply lookup_seq; split; [done|nia]|].
  - intros k Hk. apply elem_of_seq in Hk. apply lookup_lt_is_Some_2.
    assert (k mod hn < hn)%nat by (apply Nat.mod_upper_bound; lia).
    assert (k / hn < wn)%nat by (apply Nat.Div0.div_lt_upper_bound; lia).
    nia.
  - simpl.
    replace ((i * (hn * 1) + (j * 1 + 0)) mod hn)%nat with j.
    2: { replace (i * (hn * 1) + (j * 1 + 0))%nat with (j + i * hn)%nat by lia.
         rewrite Nat.Div0.mod_add. symmetry. apply Nat.mod_small. lia. }
    replace ((i * (hn * 1) + (j * 1 + 0)) / hn)%nat with i.
    2: { replace (i * (hn * 1) + (j * 1 + 0))%nat with (j + i * hn)%nat by lia.
         rewrite Nat.div_add by lia. rewrite Nat.div_small by lia. done. }
    rewrite <- Hc. f_equal. lia.
Qed.

Lemma sized_index_write {fl : Float64} self x y color :
  sized self -> forward_axes self ->
  exists xi yi a,
    ResultsImage.find_img_index self x y = Ok (xi, yi)
    /\ np_setitem (ResultsImage.img_data self) [yi; xi] color = Ok a.
Proof.
  intros (Sx & Sy & Sh & _) (Hx & Hxstep & Hy & Hystep).
  destruct (axis_index_bounds _ _ _ _ x Hx Hxstep Sx) as (xi & Ex & Bx).
  destruct (axis_index_bounds _ _ _ _ y Hy Hystep Sy) as (yi & Ey & By).
  exists xi, yi. rewrite find_img_index_axes, Ex, Ey. simpl.
  unfold np_setitem.
  destruct (shape (ResultsImage.img_data self)) as [|h [|w [|? ?]]];
    try discriminate Sh.
  injection Sh as Hh Hw. simpl.
  rewrite (np_index_in_range h yi) by lia. simpl.
  rewrite (np_index_in_range w xi) by lia. simpl.
  by eexists.
Qed.

Lemma set_img_data_twice self a b :
  ResultsImage.set_img_data (ResultsImage.set_img_data self a) b
  = ResultsImage.set_img_data self b.
Proof. done. Qed.

Lemma set_img_data_sized {fl : Float64} self a :
  sized self ->
  shape a = shape (ResultsImage.img_data self) ->
  length (cells a) = length (cells (ResultsImage.img_data self)) ->
  sized (ResultsImage.set_img_data self a).
Proof.
  intros (Sx & Sy & Sh & Sl) Ha Hl. unfold sized. simpl.
  by rewrite Ha, Hl.
Qed.

Lemma write_row_succeeds {fl : Float64} data zmin zmax row w :
  sized (obj w) -> forward_axes (obj w) ->
  has_column data (ResultsImage.x (obj w)) = true ->
  has_column data (ResultsImage.y (obj w)) = true ->
  has_column data (ResultsImage.z (obj w)) = true ->
  exists a,
    ResultsImage.write_row data zmin zmax row w
    = (mk_world (ResultsImage.set_img_data (obj w) a) (results w) (trace w),
       Ok tt)
    /\ shape a = shape (ResultsImage.img_data (obj w))
    /\ length (cells a) = length (cells (ResultsImage.img_data (obj w))).
Proof.
  intros Hs Hf Cx Cy Cz.
  unfold ResultsImage.write_row, bind, gets, lift, set_obj, modify,
    row_getitem.
  simpl. rewrite Cx, Cy. simpl.
  destruct (sized_index_write (obj w)
              (row (key_name (ResultsImage.x (obj w))))
              (row (key_name (ResultsImage.y (obj w))))
              (ResultsImage.colormap (obj w)
                 (normalize (row (key_name (ResultsImage.z (obj w))))
                    zmin zmax)) Hs Hf)
    as (xi & yi & a & -> & Ha).
  rewrite Cz. simpl. rewrite Ha. simpl. exists a. split; [done|].
  by apply np_setitem_dims in Ha.
Qed.

Lemma write_rows_succeed {fl : Float64} data zmin zmax rs w :
  sized (obj w) -> forward_axes (obj w) ->
  has_column data (ResultsImage.x (obj w)) = true ->
  has_column data (ResultsImage.y (obj w)) = true ->
  has_column data (ResultsImage.z (obj w)) = true ->
  exists a,
    for_each rs (ResultsImage.write_row data zmin zmax) w
    = (mk_world (ResultsImage.set_img_data (obj w) a) (results w) (trace w),
       Ok tt)
    /\ shape a = shape (ResultsImage.img_data (obj w))
    /\ length (cells a) = length (cells (ResultsImage.img_data (obj w))).
Proof.
  revert w. induction rs as [|row rs IH]; intros w Hs Hf Cx Cy Cz; simpl.
  - exists (ResultsImage.img_data (obj w)). by destruct w as [[] ? ?].
  - destruct (write_row_succeeds data zmin zmax row w Hs Hf Cx Cy Cz)
      as (a & Hrow & Ha & Hl).
    unfold bind. rewrite Hrow.
    destruct (IH (mk_world (ResultsImage.set_img_data (obj w) a)
                    (results w) (trace w)))
      as (b & Hrest & Hb & Hlb); simpl; try done.
    + by apply set_img_data_sized.
    + simpl in Hb, Hlb. exists b. rewrite Hrest. simpl.
      split; [done|]. split; congruence.
Qed.

(** X6: on an image the program has constructed, with axes that run
    forwards, [update_data] does not raise as soon as the snapshot (the
    reloaded one, if a reload is forced) has the three columns the image
    is bound to.  It changes nothing of the image but the contents of the
    pixel array, calls [setImage] once, with the final array transposed
    (so [xsize] rows of [ysize] pixels, the pixel at [(i, j)] being the
    pixel [(j, i)] of the array), and ends with the final [dataUpdated].
    (This holds at any rounding of the float operations.) *)
Theorem update_data_succeeds {fl : Float64} (w : world ResultsImage.t)
    (Hself : constructed (obj w))
    (Haxes : forward_axes (obj w))
    (Cx : has_column (data (results (after_reload w)))
            (ResultsImage.x (obj w)) = true)
    (Cy : has_column (data (results (after_reload w)))
            (ResultsImage.y (obj w)) = true)
    (Cz : has_column (data (results (after_reload w)))
            (ResultsImage.z (obj w)) = true) :
  exists a image,
    ResultsImage.update_data w =
    (mk_world (ResultsImage.set_img_data (obj w) a)
       (results (after_reload w))
       (trace (after_reload w)
        ++ [EvSetImage image]
        ++ final_point_calls (data (results (after_reload w)))
             (ResultsImage.x (obj w)) (ResultsImage.y (obj w))),
     Ok tt)
    /\ shape a = shape (ResultsImage.img_data (obj w))
    /\ map Z.of_nat (shape image)
       = [ResultsImage.xsize (obj w); ResultsImage.ysize (obj w)]
    /\ forall i j : nat,
         Z.of_nat i < ResultsImage.xsize (obj w) ->
         Z.of_nat j < ResultsImage.ysize (obj w) ->
         np_getitem image [Z.of_nat i; Z.of_nat j]
         = np_getitem a [Z.of_nat j; Z.of_nat i].
Proof.
  pose proof (constructed_sized _ Hself) as Hs.
  unfold ResultsImage.update_data, ResultsImage.redraw, bind, gets.
  simpl. rewrite when_reload. unfold lift, df_getitem. rewrite Cz.
  set (d := data (results (after_reload w))) in *.
  set (zs := map _ (rows d)).
  destruct (write_rows_succeed d (series_min zs) (series_max zs) (rows d)
              (after_reload w)) as (a & Hloop & Ha & Hl);
    rewrite ?after_reload_obj; try done.
  rewrite Hloop. rewrite after_reload_obj in *.
  destruct Hs as (_ & _ & Hsh & Hlen).
  rewrite <- Ha in Hsh. rewrite <- Ha, <- Hl in Hlen.
  destruct (np_transpose_2d a _ _ Hsh Hlen) as (image & Himage & Hshape & Hpix).
  cbn [obj ResultsImage.img_data ResultsImage.set_img_data].
  rewrite Himage.
  unfold call, modify, ret. simpl.
  rewrite emit_last_point_run. simpl.
  exists a, image. split; [by rewrite <- app_assoc|]. done.
Qed.

Lemma update_data_succeeds_witness :
  exists a image,
    ResultsImage.update_data scan_world =
    (mk_world (ResultsImage.set_img_data grid_image a)
       (results scan_world)
       ([] ++ [EvSetImage image]
        ++ final_point_calls scan_data (PyStr "x") (PyStr "y")),
     Ok tt)
    /\ shape a = [2; 3]%nat
    /\ map Z.of_nat (shape image) = [3; 2]
    /\ forall i j : nat,
         Z.of_nat i < 3 -> Z.of_nat j < 2 ->
         np_getitem image [Z.of_nat i; Z.of_nat j]
         = np_getitem a [Z.of_nat j; Z.of_nat i].
Proof.
  apply (update_data_succeeds scan_world).
  - exact (constructed_init gray_colormap item_init_ok grid_results (PyStr "x") (PyStr "y")
             (PyStr "z") false grid_image eq_refl).
  - repeat split; vm_compute; discriminate.
  - reflexivity.
  - reflexivity.
  - reflexivity.
Defined.

(** ** Pixels no row maps to *)

Lemma offset_2d_inj (w Y Y' X X' : nat) :
  (X < w)%nat -> (X' < w)%nat ->
  (Y' * (w * 1) + (X' * 1 + 0) = Y * (w * 1) + (X * 1 + 0))%nat ->
  Y' = Y /\ X' = X.
Proof.
  intros Bx Bx' Heq. destruct (Nat.lt_trichotomy Y' Y) as [|[|]]; nia.
Qed.

Lemma np_setitem_other_pixel {A} (a a' : ndarray A) (h w : nat)
    (y x y' x' : Z) (v : A) :
  shape a = [h; w] ->
  0 <= y <= Z.of_nat h - 1 -> 0 <= x <= Z.of_nat w - 1 ->
  0 <= y' <= Z.of_nat h - 1 -> 0 <= x' <= Z.of_nat w - 1 ->
  (x', y') <> (x, y) ->
  np_setitem a [y'; x'] v = Ok a' ->
  np_getitem a' [y; x] = np_getitem a [y; x].
Proof.
  intros Hs Hy Hx Hy' Hx' Hne. unfold np_setitem, np_getitem.
  rewrite Hs, !np_offset_2d by done. cbn [rbind]. intros [= <-].
  cbn [shape cells]. rewrite np_offset_2d by done. cbn [rbind].
  rewrite list_lookup_insert_ne; [done|].
  intros Heq. apply Hne.
  apply offset_2d_inj in Heq as [E1 E2]; [|lia|lia].
  f_equal; lia.
Qed.

Lemma write_row_other_pixel {fl : Float64} data zmin zmax row w w'
    (xi yi : Z) :
  sized (obj w) -> forward_axes (obj w) ->
  0 <= xi <= ResultsImage.xsize (obj w) - 1 ->
  0 <= yi <= ResultsImage.ysize (obj w) - 1 ->
  ResultsImage.find_img_index (obj w)
    (row (key_name (ResultsImage.x (obj w))))
    (row (key_name (ResultsImage.y (obj w)))) <> Ok (xi, yi) ->
  ResultsImage.write_row data zmin zmax row w = (w', Ok tt) ->
  np_getitem (ResultsImage.img_data (obj w')) [yi; xi]
  = np_getitem (ResultsImage.img_data (obj w)) [yi; xi].
Proof.
  intros (Sx & Sy & Sh & _) (Hx & Hxstep & Hy & Hystep) Bxi Byi Hne.
  unfold ResultsImage.write_row, bind, gets, lift, set_obj, modify. simpl.
  destruct (row_getitem data row (ResultsImage.x (obj w))) as [xd|] eqn:Ex;
    [|done].
  destruct (row_getitem data row (ResultsImage.y (obj w))) as [yd|] eqn:Ey;
    [|done].
  apply row_getitem_Ok in Ex as ->. apply row_getitem_Ok in Ey as ->.
  rewrite find_img_index_axes in Hne |- *.
  destruct (axis_index_bounds _ _ _ _
              (row (key_name (ResultsImage.x (obj w)))) Hx Hxstep Sx)
    as (xr & Exr & Bxr).
  destruct (axis_index_bounds _ _ _ _
              (row (key_name (ResultsImage.y (obj w)))) Hy Hystep Sy)
    as (yr & Eyr & Byr).
  rewrite Exr, Eyr in Hne |- *. simpl in *.
  destruct (row_getitem data row (ResultsImage.z (obj w))); [|done].
  destruct (np_setitem _ _ _) as [a'|] eqn:E; [|done].
  intros [= <-]. simpl.
  destruct (shape (ResultsImage.img_data (obj w))) as [|h [|wd [|? ?]]] eqn:Es;
    try discriminate Sh.
  injection Sh as Hh Hw.
  eapply (np_setitem_other_pixel _ _ h wd yi xi yr xr); try done; try lia.
  intros [= -> ->]. by apply Hne.
Qed.

Lemma write_row_raise {fl : Float64} data zmin zmax row w w' e :
  ResultsImage.write_row data zmin zmax row w = (w', Raise e) -> w' = w.
Proof.
  unfold ResultsImage.write_row, bind, gets, lift, set_obj, modify. simpl.
  destruct (row_getitem data row (ResultsImage.x (obj w))); [|congruence].
  destruct (row_getitem data row (ResultsImage.y (obj w))); [|congruence].
  destruct (ResultsImage.find_img_index _ _ _) as [[xi yi]|]; [|congruence].
  destruct (row_getitem data row (ResultsImage.z (obj w))); [|congruence].
  destruct (np_setitem _ _ _); [done|congruence].
Qed.

Lemma write_rows_other_pixel {fl : Float64} data zmin zmax rs w w' r
    (xi yi : Z) :
  sized (obj w) -> forward_axes (obj w) ->
  0 <= xi <= ResultsImage.xsize (obj w) - 1 ->
  0 <= yi <= ResultsImage.ysize (obj w) - 1 ->
  (forall row, row ∈ rs ->
     ResultsImage.find_img_index (obj w)
       (row (key_name (ResultsImage.x (obj w))))
       (row (key_name (ResultsImage.y (obj w)))) <> Ok (xi, yi)) ->
  for_each rs (ResultsImage.write_row data zmin zmax) w = (w', r) ->
  np_getitem (ResultsImage.img_data (obj w')) [yi; xi]
  = np_getitem (ResultsImage.img_data (obj w)) [yi; xi].
Proof.
  revert w. induction rs as [|row rs IH]; intros w Hs Hf Bx By Hrows; simpl.
  - by intros [= <- _].
  - unfold bind.
    destruct (ResultsImage.write_row data zmin zmax row w)
      as [w1 [[]|e]] eqn:Hrow.
    2: { apply write_row_raise in Hrow as ->. by intros [= <- _]. }
    intros Hrest.
    pose proof (write_row_static data zmin zmax row w) as Hst.
    rewrite Hrow in Hst. simpl in Hst.
    destruct (static_inv _ _ Hst) as (Ex & Ey & Ez & Ecm & Hg).
    assert (ResultsImage.xsize (obj w1) = ResultsImage.xsize (obj w)
            /\ ResultsImage.ysize (obj w1) = ResultsImage.ysize (obj w)
            /\ forward_axes (obj w1)) as (Exs & Eys & Hf1).
    { unfold geometry in Hg. unfold forward_axes.
      injection Hg as -> -> -> -> -> -> -> -> _ _. done. }
    rewrite (IH w1 ltac:(by eapply sized_geometry) Hf1
               ltac:(by rewrite Exs) ltac:(by rewrite Eys)).
    + eapply write_row_other_pixel; try done.
      apply Hrows. by left.
    + intros row' Hr.
      rewrite (static_find_img_index (obj w) (obj w1)), Ex, Ey.
      * apply Hrows. by right.
      * exact Hst.
    + exact Hrest.
Qed.

(** X7: [update_data] does not clear the image: on an image the program
    has constructed, with axes that run forwards, a pixel that no row of
    the snapshot is mapped to holds after [update_data], however it ends,
    what it held before.  (This holds at any rounding of the float
    operations.) *)
Theorem update_data_keeps_other_pixels {fl : Float64}
    (w : world ResultsImage.t)
    (xidx yidx : Z)
    (Hself : constructed (obj w))
    (Haxes : forward_axes (obj w))
    (Hx : 0 <= xidx <= ResultsImage.xsize (obj w) - 1)
    (Hy : 0 <= yidx <= ResultsImage.ysize (obj w) - 1)
    (Hrows : forall row,
       row ∈ rows (data (results (after_reload w))) ->
       ResultsImage.find_img_index (obj w)
         (row (key_name (ResultsImage.x (obj w))))
         (row (key_name (ResultsImage.y (obj w)))) <> Ok (xidx, yidx)) :
  np_getitem
    (ResultsImage.img_data (obj (fst (ResultsImage.update_data w))))
    [yidx; xidx]
  = np_getitem (ResultsImage.img_data (obj w)) [yidx; xidx].
Proof.
  pose proof (constructed_sized _ Hself) as Hs.
  unfold ResultsImage.update_data, ResultsImage.redraw, bind, gets.
  simpl. rewrite when_reload. unfold lift.
  destruct (df_getitem _ _) as [zs|];
    [|simpl; by rewrite after_reload_obj].
  destruct (for_each _ _ _) as [w1 r] eqn:Hloop.
  assert (np_getitem (ResultsImage.img_data (obj w1)) [yidx; xidx]
          = np_getitem (ResultsImage.img_data (obj w)) [yidx; xidx]) as Hpix.
  { rewrite <- (after_reload_obj w).
    eapply write_rows_other_pixel; [..|exact Hloop];
      rewrite ?after_reload_obj; done. }
  destruct r as [[]|e]; [|done].
  destruct (np_transpose _) as [image|]; [|done].
  unfold call, modify, ret. simpl. by rewrite emit_last_point_run.
Qed.

Lemma update_data_keeps_other_pixels_witness :
  np_getitem
    (ResultsImage.img_data (obj (fst (ResultsImage.update_data scan_world))))
    [0; 1]
  = np_getitem (ResultsImage.img_data grid_image) [0; 1].
Proof.
  apply (update_data_keeps_other_pixels scan_world 1 0).
  - exact (constructed_init gray_colormap item_init_ok grid_results (PyStr "x") (PyStr "y")
             (PyStr "z") false grid_image eq_refl).
  - repeat split; vm_compute; discriminate.
  - simpl. lia.
  - simpl. lia.
  - intros row Hrow. simpl in Hrow.
    repeat (apply elem_of_cons in Hrow as [->|Hrow]);
      [vm_compute; discriminate ..|by apply elem_of_nil in Hrow].
Defined.

(** ** [Results3DCurve] *)

Lemma argmin_from_spec (ds : list Q) :
  forall (l pre : list Q) (bi : nat) (b : Q) (i : nat),
    ds = (pre ++ l)%list -> length pre = i ->
    ds !! bi = Some b -> (bi < i)%nat ->
    (forall j dj, (j < i)%nat -> ds !! j = Some dj -> (b <= dj)%Q) ->
    (forall j dj, (j < bi)%nat -> ds !! j = Some dj -> (b < dj)%Q) ->
    exists dr,
      ds !! argmin_from bi b i l = Some dr
      /\ (forall j dj, ds !! j = Some dj -> (dr <= dj)%Q)
      /\ (forall j dj, (j < argmin_from bi b i l)%nat -> ds !! j = Some dj ->
                       (dr < dj)%Q).
Proof.
  induction l as [|v l IH]; intros pre bi b i Hds Hlen Hb Hbi Hmin Hfirst.
  - simpl. exists b. split; [done|]. split; [|done].
    intros j dj Hj. apply (Hmin j dj); [|done].
    apply lookup_lt_Some in Hj. rewrite Hds, app_nil_r in Hj. lia.
  - simpl.
    assert (ds !! i = Some v) as Hv.
    { rewrite Hds, lookup_app_r by lia.
      by replace (i - length pre)%nat with 0%nat by lia. }
    assert (ds = ((pre ++ [v]) ++ l)%list) as Hds'
      by (by rewrite <- app_assoc).
    destruct (Qle_bool b v) eqn:E.
    + apply Qle_bool_iff in E.
      apply (IH (pre ++ [v])%list); try done.
      * rewrite length_app. simpl. lia.
      * lia.
      * intros j dj Hj Hdj. destruct (decide (j = i)) as [->|Hne].
        -- rewrite Hv in Hdj. by injection Hdj as <-.
        -- apply (Hmin j dj); [lia|done].
    + assert (v < b)%Q as Hlt.
      { apply Qnot_le_lt. intros H. apply Qle_bool_iff in H. congruence. }
      apply (IH (pre ++ [v])%list); try done.
      * rewrite length_app. simpl. lia.
      * lia.
      * intros j dj Hj Hdj. destruct (decide (j = i)) as [->|Hne].
        -- rewrite Hv in Hdj. injection Hdj as <-. lra.
        -- assert (b <= dj)%Q by (apply (Hmin j dj); [lia|done]). lra.
      * intros j dj Hj Hdj.
        assert (b <= dj)%Q by (by apply (Hmin j dj)). lra.
Qed.

Lemma np_argmin_spec (ds : list Q) :
  match np_argmin ds with
  | Raise e => ds = [] /\ e = ValueError
  | Ok i =>
      exists di,
        ds !! i = Some di
        /\ (forall j dj, ds !! j = Some dj -> (di <= dj)%Q)
        /\ (forall j dj, (j < i)%nat -> ds !! j = Some dj -> (di < dj)%Q)
  end.
Proof.
  destruct ds as [|d ds]; simpl; [done|].
  apply (argmin_from_spec (d :: ds) ds [d] 0%nat d 1%nat); try done.
  - lia.
  - intros [|j] dj Hj; [|lia]. simpl. intros [= <-]. lra.
  - intros j dj Hj. lia.
Qed.

(** X8: whatever the rounding of the float operations,
    [Results3DCurve.get_closest_z_data] returns the index of a row whose
    distance to the given z value, [|z - z_given|] as the float
    subtraction computes it (the difference rounded), is the smallest, and
    the first such row: no row has a smaller computed distance, and every
    earlier row has a larger one.  It raises the [KeyError] of the lookup
    when the snapshot has no z column and [ValueError] when the snapshot
    has no rows. *)
Theorem get_closest_z_data_nearest {fl : Float64} (z_given : Q)
    (w : world Results3DCurve.t) :
  let w' := fst (Results3DCurve.get_closest_z_data z_given w) in
  let r := snd (Results3DCurve.get_closest_z_data z_given w) in
  match df_getitem (data (results w')) (Results3DCurve.z (obj w)) with
  | Raise e => r = Raise e
  | Ok [] => r = Raise ValueError
  | Ok zs =>
      exists i zi,
        r = Ok i /\ zs !! i = Some zi
        /\ (forall j zj, zs !! j = Some zj ->
              (Qabs (float_round (zi - z_given))
               <= Qabs (float_round (zj - z_given)))%Q)
        /\ (forall j zj, (j < i)%nat -> zs !! j = Some zj ->
              (Qabs (float_round (zi - z_given))
               < Qabs (float_round (zj - z_given)))%Q)
  end.
Proof.
  unfold Results3DCurve.get_closest_z_data, bind, gets, lift, py_sub.
  set (dist := fun v : Q => Qabs (float_round (v - z_given))).
  cbn [fst snd].
  assert (exists w1, when (Results3DCurve.force_reload (obj w))
                       results_reload w = (w1, Ok tt)) as (w1 & ->)
    by (destruct (Results3DCurve.force_reload (obj w)); by eexists).
  destruct (df_getitem (data (results w1)) (Results3DCurve.z (obj w)))
    as [zs|e] eqn:Hz; cbn [fst snd results]; rewrite Hz; [|done].
  destruct zs as [|z0 zs]; [done|].
  set (l := z0 :: zs) in *.
  pose proof (np_argmin_spec (map dist l)) as Hspec.
  destruct (np_argmin (map dist l)) as [i|e];
    [|by destruct Hspec].
  destruct Hspec as (di & Hi & Hmin & Hfirst).
  rewrite list_lookup_fmap in Hi.
  destruct (l !! i) as [zi|] eqn:Hzi; [|done]. injection Hi as <-.
  exists i, zi. split; [done|]. split; [exact Hzi|]. split.
  - intros j zj Hj. apply (Hmin j). by rewrite list_lookup_fmap, Hj.
  - intros j zj Hlt Hj. apply (Hfirst j); [done|].
    by rewrite list_lookup_fmap, Hj.
Qed.

(** The z values are 5, 6, 7: the row nearest to 6.4 is the second. *)
Example get_closest_z_data_example :
  snd (Results3DCurve.get_closest_z_data (32 # 5) (slice_world 0 0)) = Ok 1%nat.
Proof. reflexivity. Qed.





(** With [shown_xid = shown_yid = 0] the curve shows the first [zsize]
    rows: two of the three. *)
Example update_data_first_rows :
  trace (fst (Results3DCurve.update_data (slice_world 0 0)))
  = [EvSetData [5; 6]%Q [0; 2]%Q].
Proof. reflexivity. Qed.

(** ** A run of appends *)

Lemma append_step x y cast rows (ptr : nat) tr :
  (ptr < length rows)%nat ->
  BufferCurve.append x y
    (BufferCurve.mk (Some (BufferCurve.mk_buffer cast rows))
       (Some (Z.of_nat ptr)), tr)
  = ((BufferCurve.mk
        (Some (BufferCurve.mk_buffer cast (<[ptr := (cast x, cast y)]> rows)))
        (Some (Z.of_nat (S ptr))),
      (tr ++ [EvSetPoints (take ptr rows); EvBufferUpdated])%list),
     Ok tt).
Proof.
  intros Hlt.
  pose proof (append_run x y
                (BufferCurve.mk (Some (BufferCurve.mk_buffer cast rows))
                   (Some (Z.of_nat ptr)), tr)) as Hrun.
  unfold append_outcome, ptr_in_bounds in Hrun. cbn [fst snd] in Hrun.
  cbn [BufferCurve._buffer BufferCurve._ptr BufferCurve.buffer_rows
       BufferCurve.dtype] in Hrun.
  destruct (Z.of_nat (length rows) <=? Z.of_nat ptr) eqn:E; [lia|].
  destruct (Hrun ltac:(lia)) as (-> & _ & Hshown & _).
  rewrite Hshown, Nat2Z.id. repeat f_equal. lia.
Qed.

Lemma append_list np_empty_row cast (pts filled rest : list (Q * Q)) tr :
  (length pts <= length rest)%nat ->
  run_ops np_empty_row (append_ops pts)
    (BufferCurve.mk (Some (BufferCurve.mk_buffer cast (filled ++ rest)%list))
       (Some (Z.of_nat (length filled))), tr)
  = (BufferCurve.mk
       (Some (BufferCurve.mk_buffer cast
                (filled ++ map (stored cast) pts
                 ++ drop (length pts) rest)%list))
       (Some (Z.of_nat (length filled + length pts))),
     (tr ++ append_calls (filled ++ map (stored cast) pts)%list
              (length filled) (length pts))%list).
Proof.
  revert filled rest tr. induction pts as [|[x y] pts IH];
    intros filled rest tr Hlen.
  - simpl. unfold append_calls. simpl.
    by rewrite app_nil_r, Nat.add_0_r.
  - destruct rest as [|r rest]; [simpl in Hlen; lia|].
    simpl. rewrite append_step by (rewrite length_app; simpl; lia).
    cbn [fst].
    assert (<[length filled := (cast x, cast y)]> (filled ++ r :: rest)%list
            = ((filled ++ [(cast x, cast y)]) ++ rest)%list) as ->.
    { rewrite insert_app_r_alt by lia.
      rewrite Nat.sub_diag. simpl. by rewrite <- app_assoc. }
    assert (Z.of_nat (S (length filled))
            = Z.of_nat (length (filled ++ [(cast x, cast y)])%list)) as ->
      by (rewrite length_app; simpl; lia).
    rewrite IH by (simpl in Hlen; lia).
    rewrite length_app. simpl.
    rewrite <- !app_assoc. simpl.
    replace (length filled + 1 + length pts)%nat
      with (length filled + S (length pts))%nat by lia.
    do 2 f_equal. unfold append_calls, stored. simpl.
    rewrite !take_app_length. by rewrite Nat.add_1_r.
Qed.

Lemma prepare_then_append
    (np_empty_row : nat -> Q * Q) (size : Z) (dtype : Q -> Q)
    (pts : list (Q * Q)) (s : BufferCurve.state)
    (Hsize : Z.of_nat (length pts) <= size) :
  run_ops np_empty_row (Prepare size dtype :: append_ops pts) s
  = (BufferCurve.mk
       (Some (BufferCurve.mk_buffer dtype
                (map (stored dtype) pts
                 ++ map np_empty_row
                      (seq (length pts) (Z.to_nat size - length pts)))%list))
       (Some (Z.of_nat (length pts))),
     (snd s ++ append_calls (map (stored dtype) pts) 0 (length pts))%list).
Proof.
  destruct s as [self tr]. simpl.
  unfold BufferCurve.prepare, BufferCurve.np_empty, bind, lift, modify.
  destruct (size <? 0) eqn:E; [lia|]. cbn [fst snd].
  pose proof (append_list np_empty_row dtype pts []
                (map np_empty_row (seq 0 (Z.to_nat size))) tr) as Hrun.
  cbn [app length] in Hrun. change (Z.of_nat 0) with 0 in Hrun.
  rewrite Hrun by (rewrite length_map, length_seq; lia).
  rewrite Nat.add_0_l. do 5 f_equal.
  rewrite skipn_map, skipn_seq. done.
Qed.

(** X10: after [prepare(size, dtype)], appending no more points than the
    buffer has rows never raises.  The buffer then starts with the points
    in the order they came, each converted to the element type of the
    buffer (with the default [np.float32], rounded to single precision),
    the pointer is their number, and the [i]-th append (from 0) has shown
    the first [i] stored points, so that the view lags one point behind
    the buffer. *)
Theorem append_fills_buffer_in_order
    (np_empty_row : nat -> Q * Q) (size : Z) (dtype : Q -> Q)
    (pts : list (Q * Q)) (s : BufferCurve.state)
    (Hsize : Z.of_nat (length pts) <= size) :
  run_ops np_empty_row (Prepare size dtype :: append_ops pts) s
  = (BufferCurve.mk
       (Some (BufferCurve.mk_buffer dtype
                (map (stored dtype) pts
                 ++ map np_empty_row
                      (seq (length pts) (Z.to_nat size - length pts)))%list))
       (Some (Z.of_nat (length pts))),
     (snd s ++ append_calls (map (stored dtype) pts) 0 (length pts))%list).
Proof. by apply prepare_then_append. Qed.

Lemma append_fills_buffer_in_order_witness :
  run_ops zero_rows (Prepare 3 float64 :: append_ops [(1, 2); (3, 4)]%Q)
    (BufferCurve.__init__, [])
  = (BufferCurve.mk
       (Some (BufferCurve.mk_buffer float64
                (map (stored float64) [(1, 2); (3, 4)]%Q
                 ++ map zero_rows (seq 2 (3 - 2)))%list))
       (Some 2),
     ([] ++ append_calls (map (stored float64) [(1, 2); (3, 4)]%Q) 0 2)%list).
Proof.
  apply (append_fills_buffer_in_order zero_rows 3 float64
           [(1, 2); (3, 4)]%Q (BufferCurve.__init__, [])).
  simpl. lia.
Defined.

(** X11: a buffer prepared with [size] rows takes exactly [size] points:
    after [size] appends the next one raises "BufferCurve overflow" and
    leaves the buffer, the pointer and the view as they are. *)
Theorem append_overflows_when_full
    (np_empty_row : nat -> Q * Q) (dtype : Q -> Q) (pts : list (Q * Q))
    (x y : Q) (s : BufferCurve.state) :
  let full := run_ops np_empty_row
                (Prepare (Z.of_nat (length pts)) dtype :: append_ops pts) s in
  BufferCurve.append x y full
  = (full, Raise (Exception "BufferCurve overflow")).
Proof.
  intros full. subst full.
  rewrite prepare_then_append by lia.
  rewrite Nat2Z.id, Nat.sub_diag. simpl. rewrite app_nil_r.
  unfold BufferCurve.append, bind, gets, lift, raise. simpl.
  by rewrite length_map, Z.leb_refl.
Qed.

(** ** [PlotFrame.change_x_axis] *)

Lemma update_data_obj (w : world ResultsCurve.t) :
  obj (fst (ResultsCurve.update_data w)) = obj w.
Proof. by destruct (curve_update_run w) as (? & _). Qed.

Lemma update_items_objs set_axis items items' r :
  PlotFrame.update_items set_axis items = (items', r) ->
  exists k,
    (k <= length items)%nat
    /\ map obj items'
       = (map (fun w => set_axis (obj w)) (take k items)
          ++ map obj (drop k items))%list
    /\ match r with
       | Ok _ => k = length items
       | Raise _ => (1 <= k)%nat
       end.
Proof.
  revert items' r. induction items as [|w rest IH]; intros items' r; simpl.
  - intros [= <- <-]. by exists 0%nat.
  - destruct (ResultsCurve.update_data _) as [w2 [[]|e]] eqn:Hupd.
    + destruct (PlotFrame.update_items set_axis rest) as [rest' r'] eqn:Hrest.
      intros [= <- <-].
      destruct (IH rest' r' eq_refl) as (k & Hk & Hobjs & Hr).
      exists (S k). split; [lia|]. split.
      * simpl. rewrite Hobjs. f_equal.
        pose proof (update_data_obj
                      (mk_world (set_axis (obj w)) (results w) (trace w)))
          as Ho.
        by rewrite Hupd in Ho.
      * destruct r'; lia.
    + intros [= <- <-]. exists 1%nat. split; [lia|]. split; [|lia].
      simpl. rewrite drop_0. f_equal.
      pose proof (update_data_obj
                    (mk_world (set_axis (obj w)) (results w) (trace w)))
        as Ho.
      by rewrite Hupd in Ho.
Qed.

(** X12: when [PlotFrame.change_x_axis] returns, every curve of the plot
    is bound to the new axis on x, keeps its y binding, and the frame
    records the axis.  When it raises, the frame keeps its old axis and
    has set no label, although the curves up to and including the one
    whose [update_data] raised are already bound to the new axis. *)
Theorem change_x_axis_rebinds_curves
    (re_search_units : string -> option string)
    (re_sub_units : string -> string)
    (axis : pyobj) (frame : PlotFrame.t) :
  let frame' := fst (PlotFrame.change_x_axis re_search_units re_sub_units
                       axis frame) in
  let r := snd (PlotFrame.change_x_axis re_search_units re_sub_units
                  axis frame) in
  PlotFrame.y_axis frame' = PlotFrame.y_axis frame
  /\ match r with
     | Ok _ =>
         map obj (PlotFrame.items frame')
         = map (fun w => bind_x axis (obj w)) (PlotFrame.items frame)
         /\ PlotFrame.x_axis frame' = axis
     | Raise _ =>
         PlotFrame.x_axis frame' = PlotFrame.x_axis frame
         /\ PlotFrame.calls frame' = PlotFrame.calls frame
         /\ exists k,
              (1 <= k <= length (PlotFrame.items frame))%nat
              /\ map obj (PlotFrame.items frame')
                 = (map (fun w => bind_x axis (obj w))
                        (take k (PlotFrame.items frame))
                    ++ map obj (drop k (PlotFrame.items frame)))%list
     end.
Proof.
  unfold PlotFrame.change_x_axis. fold (bind_x axis).
  destruct (PlotFrame.update_items (bind_x axis) (PlotFrame.items frame))
    as [items' [[]|e]] eqn:Hitems.
  - apply update_items_objs in Hitems as (k & Hk & Hobjs & ->).
    rewrite firstn_all, skipn_all, app_nil_r in Hobjs.
    destruct (parse_axis_total re_search_units re_sub_units axis)
      as (label & units & Hparse).
    rewrite Hparse. simpl. by rewrite Hobjs.
  - apply update_items_objs in Hitems as (k & Hk & Hobjs & Hk1).
    simpl. split; [done|]. split; [done|]. split; [done|].
    exists k. split; [lia|done].
Qed.

Example change_x_axis_two_curves :
  map obj (PlotFrame.items
             (fst (PlotFrame.change_x_axis no_units_search no_units_sub
                     (PyStr "z") two_curves)))
  = [ResultsCurve.mk (PyStr "z") (PyStr "y") false;
     ResultsCurve.mk (PyStr "z") (PyStr "z") false].
Proof. reflexivity. Qed.

(** ** The shown slice of a volume *)

Lemma write_row_layout_3d {fl : Float64} data row :
  preserves (fun w => layout_3d (obj w)) (Results3DImage.write_row data row).
Proof.
  intros w. unfold Results3DImage.write_row, bind, gets, lift. simpl.
  destruct (row_getitem data row (Results3DImage.x (obj w))); [|done].
  destruct (row_getitem data row (Results3DImage.y (obj w))); [|done].
  destruct (row_getitem data row (Results3DImage.z (obj w))); [|done].
  destruct (Results3DImage.find_img_index _ _ _ _) as [[[xi yi] zi]|]; [|done].
  destruct (row_getitem data row (Results3DImage.var (obj w))); [|done].
  destruct (Results3DImage.var_color _ _ _ _); [|done].
  destruct (np_setitem _ _ _) as [a'|] eqn:E; [|done].
  apply np_setitem_dims in E as [E1 E2]. simpl.
  unfold layout_3d, geometry_3d. simpl. by rewrite E1, E2.
Qed.

Lemma write_row_trace_3d {fl : Float64} data row :
  preserves trace (Results3DImage.write_row data row).
Proof.
  intros w. unfold Results3DImage.write_row, bind, gets, lift. simpl.
  destruct (row_getitem data row (Results3DImage.x (obj w))); [|done].
  destruct (row_getitem data row (Results3DImage.y (obj w))); [|done].
  destruct (row_getitem data row (Results3DImage.z (obj w))); [|done].
  destruct (Results3DImage.find_img_index _ _ _ _) as [[[xi yi] zi]|]; [|done].
  destruct (row_getitem data row (Results3DImage.var (obj w))); [|done].
  destruct (Results3DImage.var_color _ _ _ _); [|done].
  by destruct (np_setitem _ _ _).
Qed.

Lemma update_data_layout_3d {fl : Float64} :
  preserves (fun w => layout_3d (obj w)) Results3DImage.update_data.
Proof.
  unfold Results3DImage.update_data, Results3DImage.redraw.
  apply preserves_bind; [|intros; apply emit_last_point_preserves_3d].
  apply preserves_bind; [apply preserves_gets|]. intros self.
  apply preserves_bind;
    [apply preserves_when, (results_reload_preserves layout_3d)|]. intros _.
  apply preserves_bind; [apply preserves_gets|]. intros data.
  apply preserves_bind;
    [apply preserves_for_each; intros; apply write_row_layout_3d|].
  intros _.
  apply preserves_bind; [apply preserves_gets|]. intros self'.
  apply preserves_bind; [apply preserves_lift|]. intros shown.
  apply preserves_bind; [apply preserves_lift|]. intros image.
  apply preserves_bind; [apply (call_preserves layout_3d)|]. intros _.
  apply preserves_ret.
Qed.

Lemma np_index_out_of_range (n : nat) (i : Z) :
  i < - Z.of_nat n \/ Z.of_nat n <= i -> np_index n i = Raise IndexError.
Proof.
  intros H. unfold np_index.
  destruct (0 <=? i) eqn:E1, (i <? Z.of_nat n) eqn:E2; simpl; try lia;
    destruct (- Z.of_nat n <=? i) eqn:E3, (i <? 0) eqn:E4; simpl;
    try lia; done.
Qed.

(** X13: a volume the program has constructed cannot show a slice outside
    its z axis: when [shown_zidx] is not within [-zsize, zsize),
    [Results3DImage.update_data] raises, at the latest with the
    [IndexError] of [img_data[shown_zidx]], and [setImage] is not called.
    (This holds at any rounding of the float operations.) *)
Theorem update_data_3d_slice_out_of_range {fl : Float64}
    (w : world Results3DImage.t)
    (Hvol : constructed_3d (obj w))
    (Hout : Results3DImage.shown_zidx (obj w) < - Results3DImage.zsize (obj w)
            \/ Results3DImage.zsize (obj w)
               <= Results3DImage.shown_zidx (obj w)) :
  exists e,
    snd (Results3DImage.update_data w) = Raise e
    /\ trace (fst (Results3DImage.update_data w))
       = (trace w ++ (if Results3DImage.force_reload (obj w) then [EvReload]
                      else []))%list.
Proof.
  pose proof (constructed_3d_sized _ Hvol) as (_ & _ & _ & Sh & _).
  unfold Results3DImage.update_data, Results3DImage.redraw, bind, gets.
  simpl.
  set (w0 := fst (when (Results3DImage.force_reload (obj w))
                    results_reload w)).
  assert (when (Results3DImage.force_reload (obj w)) results_reload w
          = (w0, Ok tt)) as ->
    by (subst w0; by destruct (Results3DImage.force_reload (obj w))).
  assert (obj w0 = obj w
          /\ trace w0
             = (trace w ++ (if Results3DImage.force_reload (obj w)
                            then [EvReload] else []))%list) as [Ho Ht].
  { subst w0. destruct (Results3DImage.force_reload (obj w)); simpl;
      by rewrite ?app_nil_r. }
  pose proof (preserves_for_each (fun w => layout_3d (obj w))
                (rows (data (results w0))) _
                (write_row_layout_3d (data (results w0))) w0) as Hlay.
  pose proof (preserves_for_each trace
                (rows (data (results w0))) _
                (write_row_trace_3d (data (results w0))) w0) as Htr.
  destruct (for_each _ _ w0) as [w1 [[]|e]] eqn:Hloop.
  - simpl in Hlay. rewrite Ho in Hlay.
    pose proof (f_equal snd Hlay) as Hz.
    pose proof (f_equal (fun p => fst (snd (fst p))) Hlay) as Hsh.
    simpl in Hz, Hsh.
    unfold lift, np_subarray. rewrite Hsh, Hz.
    destruct (shape (Results3DImage.img_data (obj w))) as [|n sh];
      [discriminate Sh|].
    injection Sh as Hn _.
    rewrite np_index_out_of_range by lia. simpl.
    exists IndexError. split; [done|]. rewrite <- Ht.
    exact Htr.
  - simpl. exists e. split; [done|]. rewrite <- Ht.
    exact Htr.
Qed.

Lemma update_data_3d_slice_out_of_range_witness :
  exists e,
    snd (Results3DImage.update_data (volume_world 3)) = Raise e
    /\ trace (fst (Results3DImage.update_data (volume_world 3)))
       = ([] ++ [])%list.
Proof.
  apply (update_data_3d_slice_out_of_range (volume_world 3)).
  - apply (constructed_3d_rebind grid_volume (PyStr "v") (PyStr "x")
             (PyStr "y") (PyStr "z") 3).
    exact (constructed_3d_init gray_colormap item_init_ok grid_results (PyStr "v")
             (PyStr "x") (PyStr "y") (PyStr "z") false grid_volume eq_refl).
  - right. simpl. lia.
Defined.

(** ** [Image3DFrame.change_shown_zidx] *)

Lemma update_data_shown_zidx {fl : Float64} (w : world Results3DImage.t) :
  Results3DImage.shown_zidx (obj (fst (Results3DImage.update_data w)))
  = Results3DImage.shown_zidx (obj w).
Proof. exact (f_equal snd (update_data_layout_3d w)). Qed.

Lemma show_slices_ok {fl : Float64} zidx items :
  forall index items',
    Image3DFrame.show_slices zidx index items = (items', Ok tt) ->
    (index + length items <= length zidx \/ items = [])%nat
    /\ map (fun w => Results3DImage.shown_zidx (obj w)) items'
       = take (length items) (drop index zidx).
Proof.
  induction items as [|w rest IH]; intros index items'; simpl.
  - intros [= <-]. split; [by right|done].
  - destruct (zidx !! index) as [zi|] eqn:Hzi; [|done].
    destruct (Results3DImage.update_data _) as [w2 [[]|e]] eqn:Hupd; [|done].
    destruct (Image3DFrame.show_slices zidx (S index) rest)
      as [rest' r] eqn:Hrest.
    intros [= <- ->].
    destruct (IH (S index) rest' Hrest) as (Hlen & Hshown).
    pose proof (lookup_lt_Some _ _ _ Hzi) as Hlt.
    split.
    + left. destruct Hlen as [Hlen| ->]; simpl; lia.
    + simpl. rewrite Hshown.
      pose proof (update_data_shown_zidx
                    (mk_world (Image3DFrame.set_shown_zidx zi (obj w))
                       (results w) (trace w))) as Hz.
      rewrite Hupd in Hz. simpl in Hz. rewrite Hz.
      rewrite (drop_S _ _ _ Hzi). done.
Qed.

(** X14: [Image3DFrame.change_shown_zidx] does nothing when the list of
    indices is empty.  Otherwise, when it returns, the list had an index
    for every volume of the plot and the [i]-th volume shows the slice
    [zidx[i]]; with fewer indices than volumes it never returns
    normally.  (This holds at any rounding of the float operations.) *)
Theorem change_shown_zidx_binds_slices {fl : Float64}
    (zidx : list Z) (items : list (world Results3DImage.t)) :
  let items' := fst (Image3DFrame.change_shown_zidx zidx items) in
  let r := snd (Image3DFrame.change_shown_zidx zidx items) in
  match zidx, r with
  | [], _ => items' = items /\ r = Ok tt
  | _ :: _, Ok _ =>
      (length items <= length zidx)%nat
      /\ map (fun w => Results3DImage.shown_zidx (obj w)) items'
         = take (length items) zidx
  | _ :: _, Raise _ => True
  end.
Proof.
  unfold Image3DFrame.change_shown_zidx.
  destruct zidx as [|z0 zidx]; [done|].
  simpl negb. cbn iota.
  destruct (Image3DFrame.show_slices (z0 :: zidx) 0 items)
    as [items' [[]|e]] eqn:Hrun; [|done].
  apply show_slices_ok in Hrun as (Hlen & Hshown). cbn [fst snd].
  split; [|done].
  destruct Hlen as [Hlen| ->]; simpl in *; lia.
Qed.

(** Two volumes and one index: the first volume is switched, then the
    lookup of the second index raises. *)
Example change_shown_zidx_too_short :
  snd (Image3DFrame.change_shown_zidx [1]
         [volume_world 0; volume_world 0]) = Raise IndexError
  /\ map (fun w => Results3DImage.shown_zidx (obj w))
       (fst (Image3DFrame.change_shown_zidx [1]
               [volume_world 0; volume_world 0])) = [1; 0].
Proof. split; reflexivity. Qed.

(** ** Edge cases of the colour scale and of the axes *)

(** X15: when every value of the z column is the same number, as in a
    snapshot with a single row, the quotient
    [(z - zmin) / (zmax - zmin)] that [ResultsImage.update_data] hands to
    the colour ramp is 0 / 0: every row is painted with the colour of
    nan.  (This holds at any rounding of the float operations.) *)
Theorem constant_column_normalizes_to_nan {fl : Float64}
    (zs : list Q) (c v : Q)
    (Hconst : forall u, u ∈ zs -> (u == c)%Q)
    (Hv : v ∈ zs) :
  normalize v (series_min zs) (series_max zs) = NaN.
Proof.
  assert (zs <> []) as Hne by (intros ->; by apply elem_of_nil in Hv).
  destruct (series_min_spec zs Hne) as (lo & -> & Hlo & _).
  destruct (series_max_spec zs Hne) as (hi & -> & Hhi & _).
  pose proof (Hconst _ Hlo) as Elo. pose proof (Hconst _ Hhi) as Ehi.
  pose proof (Hconst _ Hv) as Ev.
  unfold normalize, np_div, py_sub.
  assert (Qeq_bool (float_round (hi - lo)) 0 = true) as ->
    by (apply Qeq_bool_iff, float_round_eq_zero; rewrite Elo, Ehi; ring).
  assert (Qeq_bool (float_round (v - lo)) 0 = true) as ->
    by (apply Qeq_bool_iff, float_round_eq_zero; rewrite Elo, Ev; ring).
  done.
Qed.

Lemma constant_column_normalizes_to_nan_witness :
  normalize 5 (series_min [5]%Q) (series_max [5]%Q) = NaN.
Proof.
  apply (constant_column_normalizes_to_nan [5]%Q 5 5).
  - intros u Hu. apply list_elem_of_singleton in Hu as ->. reflexivity.
  - apply list_elem_of_singleton. reflexivity.
Defined.

(** X16: an axis whose start lies beyond its end has no coordinate in
    range: on an image with [xstart > xend], as a scan that runs
    backwards gives it, [find_img_index] sends every x to the last
    column [xsize - 1], whatever the step.  (This holds at any rounding
    of the float operations.) *)
Theorem find_img_index_backward_axis {fl : Float64} (self : ResultsImage.t)
    (x y : Q) (xidx yidx : Z)
    (Hback : (ResultsImage.xend self < ResultsImage.xstart self)%Q)
    (Hidx : ResultsImage.find_img_index self x y = Ok (xidx, yidx)) :
  xidx = ResultsImage.xsize self - 1.
Proof.
  rewrite find_img_index_axes in Hidx. unfold axis_index at 1 in Hidx.
  assert (between (ResultsImage.xstart self) x (ResultsImage.xend self)
          = false) as Hb.
  { destruct (between _ _ _) eqn:B; [|done].
    apply between_spec in B. lra. }
  rewrite Hb in Hidx. simpl in Hidx.
  destruct (axis_index _ _ _ _ y); [|done]. by injection Hidx as <- _.
Qed.

Example backward_image_init :
  ResultsImage.__init__ gray_colormap item_init_ok
    (mk_results
       (attributes [("x_start", 2); ("x_end", 0); ("x_step", - (1));
                    ("y_start", 0); ("y_end", 1); ("y_step", 1)]%Q)
       no_data no_data)
    (PyStr "x") (PyStr "y") (PyStr "z") false = Ok backward_image.
Proof. reflexivity. Qed.

Lemma find_img_index_backward_axis_witness : 2 = 3 - 1.
Proof.
  apply (find_img_index_backward_axis backward_image 1 0 2 0);
    reflexivity.
Defined.

(** ** What a constructed image is *)

(** X17: [ResultsImage.__init__] returns an image only when the procedure
    has the start, end and step attributes of both axes, no step is zero
    and the sizes it computes are not negative.  The image then has the
    pixel array [np.zeros((ysize, xsize, 4))], on which
    [ImageItem.__init__] has returned, and the colour ramp "viridis".
    (This holds at any rounding of the float operations.) *)
Theorem init_returns_only_if {fl : Float64}
    pg item_init results x y z force_reload (self : ResultsImage.t)
    (Hinit : ResultsImage.__init__ pg item_init results x y z force_reload
             = Ok self) :
  axis_of results x = Ok (ResultsImage.xstart self, ResultsImage.xend self,
                          ResultsImage.xstep self)
  /\ axis_of results y = Ok (ResultsImage.ystart self, ResultsImage.yend self,
                             ResultsImage.ystep self)
  /\ ~ (ResultsImage.xstep self == 0)%Q
  /\ ~ (ResultsImage.ystep self == 0)%Q
  /\ 0 <= ResultsImage.xsize self
  /\ 0 <= ResultsImage.ysize self
  /\ np_zeros rgba_zero [ResultsImage.ysize self; ResultsImage.xsize self]
     = Ok (ResultsImage.img_data self)
  /\ item_init (ResultsImage.img_data self) = Ok tt
  /\ ResultsImage.cm self = pg "viridis".
Proof.
  pose proof (init_axes _ _ _ _ _ _ _ _ Hinit) as (Hx & Hy & Sx & Sy & Sh & _).
  apply axis_size_Ok in Sx as [_ Nx], Sy as [_ Ny].
  do 4 (split; [done|]).
  assert (0 <= ResultsImage.xsize self /\ 0 <= ResultsImage.ysize self)
    as [Px Py].
  { destruct (shape (ResultsImage.img_data self)) as [|h [|w ?]];
      try discriminate Sh.
    injection Sh as <- <- _. lia. }
  do 2 (split; [done|]).
  unfold ResultsImage.__init__ in Hinit.
  repeat step_ok Hinit. injection Hinit as <-. simpl.
  match goal with E : item_init _ = Ok ?u |- _ => destruct u end.
  done.
Qed.

Lemma init_returns_only_if_witness :
  axis_of grid_results (PyStr "x") = Ok (0, 1, 1 # 2)%Q
  /\ axis_of grid_results (PyStr "y") = Ok (0, 1, 1)%Q
  /\ ~ (1 # 2 == 0)%Q
  /\ ~ (1 == 0)%Q
  /\ 0 <= 3
  /\ 0 <= 2
  /\ np_zeros rgba_zero [2; 3] = Ok (ResultsImage.img_data grid_image)
  /\ item_init_ok (ResultsImage.img_data grid_image) = Ok tt
  /\ ResultsImage.cm grid_image = gray_colormap "viridis".
Proof.
  exact (init_returns_only_if gray_colormap item_init_ok grid_results
           (PyStr "x") (PyStr "y") (PyStr "z") false grid_image eq_refl).
Defined.

(** The constructions that raise. *)

(** A scan from 10 down to 0 declared with the step +1 has the size -9,
    and the constructor raises the [ValueError] of [np.zeros]. *)
Example init_negative_size :
  ResultsImage.__init__ gray_colormap item_init_ok
    (mk_results
       (attributes [("x_start", 10); ("x_end", 0); ("x_step", 1);
                    ("y_start", 0); ("y_end", 1); ("y_step", 1)]%Q)
       no_data no_data)
    (PyStr "x") (PyStr "y") (PyStr "z") false = Raise ValueError.
Proof. reflexivity. Qed.

Example init_zero_step :
  ResultsImage.__init__ gray_colormap item_init_ok
    (mk_results
       (attributes [("x_start", 0); ("x_end", 1); ("x_step", 0);
                    ("y_start", 0); ("y_end", 1); ("y_step", 1)]%Q)
       no_data no_data)
    (PyStr "x") (PyStr "y") (PyStr "z") false = Raise ZeroDivisionError.
Proof. reflexivity. Qed.

(** ** [PlotFrame.update_curves] *)

Lemma update_curves_not_running running items :
  forall items' r,
    PlotFrame.update_curves running true items = (items', r) ->
    forall i w,
      items !! i = Some w -> running (results w) = false ->
      items' !! i = Some w.
Proof.
  induction items as [|w0 rest IH]; intros items' r; simpl.
  - by intros [= <- <-].
  - destruct (negb (running (results w0))) eqn:Hrun.
    + destruct (PlotFrame.update_curves running true rest)
        as [rest' r'] eqn:Hrest.
      intros [= <- <-] [|i] w; simpl; [done|].
      by apply (IH rest' r').
    + apply negb_false_iff in Hrun.
      destruct (ResultsCurve.update_data w0) as [w2 [[]|e]].
      * destruct (PlotFrame.update_curves running true rest)
          as [rest' r'] eqn:Hrest.
        intros [= <- <-] [|i] w; simpl.
        -- intros [= <-]. congruence.
        -- by apply (IH rest' r').
      * intros [= <- <-] [|i] w; simpl; [|done].
        intros [= <-]. congruence.
Qed.

(** X18: with [check_status] set, the timer slot [PlotFrame.update_curves]
    refreshes only the curves whose procedure is running: a curve of a
    procedure that is not running is left exactly as it is, whatever
    happens to the other curves of the plot. *)
Theorem update_curves_skips_idle_curves
    (running : Results -> bool) (items : list (world ResultsCurve.t))
    (i : nat) (w : world ResultsCurve.t)
    (Hitem : items !! i = Some w)
    (Hidle : running (results w) = false) :
  fst (PlotFrame.update_curves running true items) !! i = Some w.
Proof.
  destruct (PlotFrame.update_curves running true items) as [items' r] eqn:E.
  by apply (update_curves_not_running running items items' r E i w).
Qed.

Lemma update_curves_skips_idle_curves_witness :
  fst (PlotFrame.update_curves has_running_flag true
         [curve_world (PyStr "x") (PyStr "y") true]) !! 0%nat
  = Some (curve_world (PyStr "x") (PyStr "y") true).
Proof.
  apply (update_curves_skips_idle_curves has_running_flag
           [curve_world (PyStr "x") (PyStr "y") true] 0
           (curve_world (PyStr "x") (PyStr "y") true));
    reflexivity.
Defined.
